(** * Session lifecycle and attendance ledger of the attendance system

    A shallow embedding of [api/utils.py], [services/data_service.py],
    [services/session_service.py], the QR payloads of
    [services/qr_service.py] and [utils/crypto_utils.py], and the session,
    marking and registration endpoints of [api/main.py], followed by the
    properties of the ledger, the session state machine, the statistics
    aggregator and the QR codes.

    The per-branch CSV files are tables (lists of rows) that may be
    absent; every [pd.read_csv] can also fail for a reason outside the
    file system state (a reader racing a rewriting writer, an operating
    system error), which is modelled by a schedule of read faults carried
    by the world.  Python exceptions and [try]/[except] are an error
    monad over that world: what was written before an exception stays
    written.  The clock stands still while one request is served and
    moves between requests.  A key given by a caller is a [str]; a key
    column read from a file has the type pandas infers for it, and the
    world carries that reader. *)

From Stdlib Require Import ZArith Ascii String List Bool Lia.
From stdpp Require Import gmap strings list fin_maps.


Local Open Scope Z_scope.

(** ** Data model ([api/models.py] and the CSV headers of [api/utils.py]) *)

Inductive SessionStatus := OPEN | CLOSED | EXPIRED.
Inductive AttendanceMethod := FACE | QR | MANUAL | AUTO.
Inductive AttendanceStatus := PRESENT | ABSENT.

#[global] Instance SessionStatus_eq_dec : EqDecision SessionStatus.
Proof. solve_decision. Defined.
#[global] Instance AttendanceMethod_eq_dec : EqDecision AttendanceMethod.
Proof. solve_decision. Defined.
#[global] Instance AttendanceStatus_eq_dec : EqDecision AttendanceStatus.
Proof. solve_decision. Defined.

(** Times are microseconds on the wall clock of [get_current_time]. *)
Definition datetime := Z.

Record BranchRow := {
  br_branch_code : string;
  br_branch_name : string }.

Record Student := {
  stu_roll_no : string;
  stu_name : string;
  stu_face_path : string;
  stu_qr_code_path : string;
  stu_registered_on : datetime }.

Record Session := {
  ses_session_id : string;
  ses_teacher_id : string;
  ses_branch_code : string;
  ses_start_time : datetime;
  ses_deadline_time : datetime;
  ses_status : SessionStatus }.

Record AttendanceEvent := {
  ev_session_id : string;
  ev_roll_no : string;
  ev_name : string;
  ev_status : AttendanceStatus;
  ev_marked_at : datetime;
  ev_method : AttendanceMethod;
  ev_marked_by : string }.

(** [attendance_pct] is a float rounded to two decimals; it is kept as an
    integer number of hundredths of a percent. *)
Record StatRecord := {
  stat_roll_no : string;
  stat_name : string;
  stat_present_days : Z;
  stat_absent_days : Z;
  stat_total_days : Z;
  stat_attendance_pct : Z;
  stat_last_present : option datetime;
  stat_last_absent : option datetime }.

(** ** The world: clock, CSV files, read faults *)

(** The four tables of [get_branch_files]; [None] is a file that does
    not exist. *)
Record BranchFiles := {
  students : option (list Student);
  attendance : option (list AttendanceEvent);
  stats : option (list StatRecord);
  sessions : option (list Session) }.

Definition set_students (v : list Student) (f : BranchFiles) : BranchFiles :=
  {| students := Some v; attendance := attendance f;
     stats := stats f; sessions := sessions f |}.
Definition set_attendance (v : list AttendanceEvent) (f : BranchFiles) : BranchFiles :=
  {| students := students f; attendance := Some v;
     stats := stats f; sessions := sessions f |}.
Definition set_stats (v : list StatRecord) (f : BranchFiles) : BranchFiles :=
  {| students := students f; attendance := attendance f;
     stats := Some v; sessions := sessions f |}.
Definition set_sessions (v : list Session) (f : BranchFiles) : BranchFiles :=
  {| students := students f; attendance := attendance f;
     stats := stats f; sessions := Some v |}.

(** [branch_dirs] maps a branch code to the directory
    [BRANCHES_DIR / branch_code]; [faults] says, for the reads to come,
    which of them raise ([true]); an exhausted schedule means no fault.

    The tables hold the text of the cells.  [pd.read_csv] infers the type
    of a column from all its cells: a column whose cells are all numbers
    (or all booleans) comes back as numbers, and a cell holding one of the
    NA spellings (the empty cell among them) comes back as NaN.
    [reads_as_text column cell] says that a cell of a column comes back as
    the [str] it was written as; it is the reader of the installed pandas
    and no operation changes it. *)
Record World := {
  clock : datetime;
  branches_csv : option (list BranchRow);
  branch_dirs : gmap string BranchFiles;
  faults : list bool;
  reads_as_text : list string -> string -> bool }.

Definition set_dirs (d : gmap string BranchFiles) (w : World) : World :=
  {| clock := clock w; branches_csv := branches_csv w;
     branch_dirs := d; faults := faults w;
     reads_as_text := reads_as_text w |}.
Definition set_faults (fs : list bool) (w : World) : World :=
  {| clock := clock w; branches_csv := branches_csv w;
     branch_dirs := branch_dirs w; faults := fs;
     reads_as_text := reads_as_text w |}.
Definition set_clock (t : datetime) (w : World) : World :=
  {| clock := t; branches_csv := branches_csv w;
     branch_dirs := branch_dirs w; faults := faults w;
     reads_as_text := reads_as_text w |}.

(** The world in which directory [b] holds [f]. *)
Definition with_branch (b : string) (f : BranchFiles) (w : World) : World :=
  set_dirs (<[b := f]> (branch_dirs w)) w.

Definition file_of {A} (get : BranchFiles -> option (list A))
    (b : string) (w : World) : option (list A) :=
  match branch_dirs w !! b with
  | Some f => get f
  | None => None
  end.

(** ** Exceptions and the monad of the service code *)

Inductive exn :=
| FileNotFoundError
| OSError
| TypeError
| IndexError
| HTTPException (status_code : Z) (detail : string).

Inductive outcome (A : Type) :=
| Returned (a : A)
| Raised (e : exn).
Arguments Returned {A} a.
Arguments Raised {A} e.

Definition M (A : Type) : Type := World -> outcome A * World.

Definition ret {A} (a : A) : M A := fun w => (Returned a, w).
Definition raise {A} (e : exn) : M A := fun w => (Raised e, w).
Definition bind {A B} (m : M A) (k : A -> M B) : M B :=
  fun w => match m w with
           | (Returned a, w') => k a w'
           | (Raised e, w') => (Raised e, w')
           end.
(** [try: m except Exception as e: h e] *)
Definition try_except {A} (m : M A) (h : exn -> M A) : M A :=
  fun w => match m w with
           | (Returned a, w') => (Returned a, w')
           | (Raised e, w') => h e w'
           end.

Notation "'let*' x := m 'in' k" := (bind m (fun x => k))
  (at level 10, x name, m at level 100, k at level 200,
   format "'let*'  x  :=  m  'in'  '/' k").
Notation "'run' m 'then' k" := (bind m (fun _ => k))
  (at level 10, m at level 100, k at level 200,
   format "'run'  m  'then'  '/' k").

(** Reading the world without changing it. *)
Definition observe {A} (f : World -> A) : M A := fun w => (Returned (f w), w).

(** [column == key] at one cell, and [key in column.values], for a [str]
    key given by the caller and a column read from a CSV file: a cell
    equals the key when it came back as text and is that string; a number
    or a NaN equals no [str]. *)
Definition str_eq (text : list string -> string -> bool)
    (column : list string) (key cell : string) : Prop :=
  text column cell = true ∧ cell = key.

#[global] Instance str_eq_dec text column key cell :
  Decision (str_eq text column key cell).
Proof. unfold str_eq. apply _. Defined.

Definition str_in (text : list string -> string -> bool)
    (key : string) (column : list string) : bool :=
  bool_decide (Exists (str_eq text column key) column).

(** A [for] loop that threads an accumulator. *)
Fixpoint for_each {A S} (body : S -> A -> M S) (acc : S) (l : list A) : M S :=
  match l with
  | [] => ret acc
  | x :: l' => let* acc' := body acc x in for_each body acc' l'
  end.

(** [str(e)] as used in the [detail] of a 500 response. *)
Definition str_exn (e : exn) : string :=
  match e with
  | FileNotFoundError => "[Errno 2] No such file or directory"
  | OSError => "OSError"
  | TypeError => "'bool' object is not callable"
  | IndexError => "single positional indexer is out-of-bounds"
  | HTTPException _ d => d
  end.

(** *** Primitive effects *)

Definition path_exists {A} (get : BranchFiles -> option (list A))
    (b : string) : M bool :=
  fun w => (Returned (bool_decide (is_Some (file_of get b w))), w).

(** One step of the fault schedule. *)
Definition next_fault (w : World) : bool * World :=
  match faults w with
  | [] => (false, w)
  | f :: fs => (f, set_faults fs w)
  end.

(** [pd.read_csv(files[...])] *)
Definition read_csv {A} (get : BranchFiles -> option (list A))
    (b : string) : M (list A) :=
  fun w => let (f, w') := next_fault w in
           if f then (Raised OSError, w')
           else match file_of get b w' with
                | Some rows => (Returned rows, w')
                | None => (Raised FileNotFoundError, w')
                end.

(** [pd.read_csv(BRANCHES_CSV)] *)
Definition read_branches : M (list BranchRow) :=
  fun w => let (f, w') := next_fault w in
           if f then (Raised OSError, w')
           else match branches_csv w' with
                | Some rows => (Returned rows, w')
                | None => (Raised FileNotFoundError, w')
                end.

(** [df.to_csv(files[...], index=False)]: the directory must exist. *)
Definition to_csv {A} (set : list A -> BranchFiles -> BranchFiles)
    (b : string) (rows : list A) : M unit :=
  fun w => match branch_dirs w !! b with
           | Some f => (Returned tt, with_branch b (set rows f) w)
           | None => (Raised FileNotFoundError, w)
           end.

(** ** [api/utils.py] *)

Module Utils.

Definition get_current_time : M datetime :=
  fun w => (Returned (clock w), w).

(** [timedelta(minutes=m)] in microseconds. *)
Definition timedelta_minutes (m : Z) : Z := m * 60000000.

(** Directories are made, and each of the four CSV files that does not
    exist is created with its header row only. *)
Definition ensure_branch_structure (branch_code : string) : M unit :=
  fun w =>
    let f := match branch_dirs w !! branch_code with
             | Some f => f
             | None => {| students := None; attendance := None;
                          stats := None; sessions := None |}
             end in
    let f' := {| students := Some (default [] (students f));
                 attendance := Some (default [] (attendance f));
                 stats := Some (default [] (stats f));
                 sessions := Some (default [] (sessions f)) |} in
    (Returned tt, with_branch branch_code f' w).

Definition validate_branch_exists (branch_code : string) : M bool :=
  try_except
    (let* branches_df := read_branches in
     ret (bool_decide (branch_code ∈ br_branch_code <$> branches_df)))
    (fun _ => ret false).

Section SessionId.
(** [now.strftime("%Y%m%d_%H%M%S")] of the standard library. *)
Variable strftime : datetime -> string.

Definition generate_session_id (branch_code : string) : M string :=
  let* now := get_current_time in
  let timestamp := strftime now in
  ret ("S_" +:+ timestamp +:+ "_" +:+ branch_code).
End SessionId.

Definition is_session_active (session_id branch_code : string) : M bool :=
  try_except
    (let* sessions_df := read_csv sessions branch_code in
     let session := filter (fun s => ses_session_id s = session_id) sessions_df in
     match session with
     | [] => ret false
     | session_data :: _ =>
         if negb (bool_decide (ses_status session_data = OPEN)) then ret false
         else
           let deadline_time := ses_deadline_time session_data in
           let* current_time := get_current_time in
           ret (current_time <? deadline_time)
     end)
    (fun _ => ret false).

End Utils.

(** ** [services/data_service.py] *)

Module DataService.
Import Utils.

(** [len(df)] and [series.nunique()] *)
Definition len {A} (l : list A) : Z := Z.of_nat (length l).
Definition nunique (l : list string) : Z :=
  Z.of_nat (size (list_to_set l : gset string)).

(** [pd.to_datetime(series).max()] of a non-empty selection. *)
Definition max_time (l : list datetime) : option datetime :=
  match l with
  | [] => None
  | t :: l' => Some (fold_left Z.max l' t)
  end.

(** Nearest integer to [n / d] for [d > 0], ties to even. *)
Definition round_div (n d : Z) : Z :=
  let q := n / d in
  let r := n mod d in
  if 2 * r <? d then q
  else if d <? 2 * r then q + 1
  else if Z.even q then q else q + 1.

(** [round(present_count / total_days * 100, 2) if total_days > 0 else 0.0],
    in hundredths of a percent.  The exact ratio is rounded here; the code
    rounds the binary float it computed, which at a tie can fall on the
    other side (23 days of 160). *)
Definition attendance_pct (present_count total_days : Z) : Z :=
  if 0 <? total_days then round_div (present_count * 10000) total_days else 0.

(** The row written for each student when [attendance_df.empty]. *)
Definition empty_stats (student : Student) : StatRecord :=
  {| stat_roll_no := stu_roll_no student;
     stat_name := stu_name student;
     stat_present_days := 0;
     stat_absent_days := 0;
     stat_total_days := 0;
     stat_attendance_pct := 0;
     stat_last_present := None;
     stat_last_absent := None |}.

(** The body of the [for] loop over [students_df.iterrows()]. *)
Definition student_stats (attendance_df : list AttendanceEvent)
    (total_sessions : Z) (student : Student) : StatRecord :=
  let roll_no := stu_roll_no student in
  let name := stu_name student in
  let student_records := filter (fun e => ev_roll_no e = roll_no) attendance_df in
  let present_records := filter (fun e => ev_status e = PRESENT) student_records in
  let absent_records := filter (fun e => ev_status e = ABSENT) student_records in
  let counts :=
    match student_records with
    | [] => (0, total_sessions)
    | _ => let attended_sessions := nunique (ev_session_id <$> student_records) in
           (len present_records,
            len absent_records + (total_sessions - attended_sessions))
    end in
  let present_count := fst counts in
  let absent_count := snd counts in
  let total_days := total_sessions in
  {| stat_roll_no := roll_no;
     stat_name := name;
     stat_present_days := present_count;
     stat_absent_days := absent_count;
     stat_total_days := total_days;
     stat_attendance_pct := attendance_pct present_count total_days;
     stat_last_present := max_time (ev_marked_at <$> present_records);
     stat_last_absent := max_time (ev_marked_at <$> absent_records) |}.

(** [pd.to_datetime] is taken to read every time stamp of a selection: it
    does when they are written in one format. *)
Definition update_stats (branch_code : string) : M unit :=
  try_except
    (let* students_df := read_csv students branch_code in
     let* attendance_df := read_csv attendance branch_code in
     match attendance_df with
     | [] => to_csv set_stats branch_code (empty_stats <$> students_df)
     | _ =>
         let total_sessions := nunique (ev_session_id <$> attendance_df) in
         to_csv set_stats branch_code
           (student_stats attendance_df total_sessions <$> students_df)
     end)
    (fun _ => ret tt).

Definition mark_attendance (session_id roll_no branch_code : string)
    (method : AttendanceMethod) (marked_by : string) : M bool :=
  try_except
    (run ensure_branch_structure branch_code then
     let* students_df := read_csv students branch_code in
     let* text := observe reads_as_text in
     let student :=
       filter (fun s => str_eq text (stu_roll_no <$> students_df) roll_no
                          (stu_roll_no s)) students_df in
     match student with
     | [] => ret false
     | student0 :: _ =>
         let student_name := stu_name student0 in
         let* now := get_current_time in
         let attendance_record :=
           {| ev_session_id := session_id;
              ev_roll_no := roll_no;
              ev_name := student_name;
              ev_status := PRESENT;
              ev_marked_at := now;
              ev_method := method;
              ev_marked_by := marked_by |} in
         let* attendance_df := read_csv attendance branch_code in
         let attendance_df := attendance_df ++ [attendance_record] in
         run to_csv set_attendance branch_code attendance_df then
         run update_stats branch_code then
         ret true
     end)
    (fun _ => ret false).

(** A row whose two keys are written as the given strings. *)
Definition matches (session_id roll_no : string) (e : AttendanceEvent) : Prop :=
  ev_session_id e = session_id ∧ ev_roll_no e = roll_no.

#[global] Instance matches_dec session_id roll_no e :
  Decision (matches session_id roll_no e).
Proof. unfold matches. apply _. Defined.

(** The mask [(attendance_df['session_id'] == session_id) &
    (attendance_df['roll_no'] == roll_no)] at one row of the table read
    back. *)
Definition mask (text : list string -> string -> bool)
    (attendance_df : list AttendanceEvent) (session_id roll_no : string)
    (e : AttendanceEvent) : Prop :=
  str_eq text (ev_session_id <$> attendance_df) session_id (ev_session_id e)
  ∧ str_eq text (ev_roll_no <$> attendance_df) roll_no (ev_roll_no e).

#[global] Instance mask_dec text attendance_df session_id roll_no e :
  Decision (mask text attendance_df session_id roll_no e).
Proof. unfold mask. apply _. Defined.

Definition is_already_marked (session_id roll_no branch_code : string) : M bool :=
  try_except
    (let* present := path_exists attendance branch_code in
     if negb present then ret false
     else
       let* attendance_df := read_csv attendance branch_code in
       let* text := observe reads_as_text in
       let existing :=
         filter (mask text attendance_df session_id roll_no) attendance_df in
       ret (negb (bool_decide (existing = []))))
    (fun _ => ret false).

(** The dictionary of the first matching row, or the empty dictionary. *)
Definition get_attendance_record (session_id roll_no branch_code : string)
    : M (option AttendanceEvent) :=
  try_except
    (let* attendance_df := read_csv attendance branch_code in
     let* text := observe reads_as_text in
     let record :=
       filter (mask text attendance_df session_id roll_no) attendance_df in
     ret (head record))
    (fun _ => ret None).

(** [attendance_df.loc[existing_mask, ...] = ...] on the four columns. *)
Definition override_row (existing_mask : AttendanceEvent -> Prop)
    `{!forall e, Decision (existing_mask e)}
    (new_status : AttendanceStatus) (now : datetime) (teacher_id : string)
    (e : AttendanceEvent) : AttendanceEvent :=
  if decide (existing_mask e) then
    {| ev_session_id := ev_session_id e;
       ev_roll_no := ev_roll_no e;
       ev_name := ev_name e;
       ev_status := new_status;
       ev_marked_at := now;
       ev_method := MANUAL;
       ev_marked_by := teacher_id |}
  else e.

Definition manual_override_attendance (session_id roll_no branch_code : string)
    (new_status : AttendanceStatus) (teacher_id : string)
    (reason : option string) : M bool :=
  try_except
    (let* students_df := read_csv students branch_code in
     let* text := observe reads_as_text in
     let student :=
       filter (fun s => str_eq text (stu_roll_no <$> students_df) roll_no
                          (stu_roll_no s)) students_df in
     match student with
     | [] => ret false
     | student0 :: _ =>
         let student_name := stu_name student0 in
         let* attendance_df := read_csv attendance branch_code in
         let existing_mask := mask text attendance_df session_id roll_no in
         let* attendance_df :=
           if bool_decide (Exists existing_mask attendance_df) then
             let* now := get_current_time in
             ret (override_row existing_mask new_status now teacher_id
                    <$> attendance_df)
           else
             let* now := get_current_time in
             let new_record :=
               {| ev_session_id := session_id;
                  ev_roll_no := roll_no;
                  ev_name := student_name;
                  ev_status := new_status;
                  ev_marked_at := now;
                  ev_method := MANUAL;
                  ev_marked_by := teacher_id |} in
             ret (attendance_df ++ [new_record]) in
         run to_csv set_attendance branch_code attendance_df then
         run update_stats branch_code then
         ret true
     end)
    (fun _ => ret false).

(** The record appended for one absent student. *)
Definition absent_record (session_id roll_no name : string) (now : datetime)
    : AttendanceEvent :=
  {| ev_session_id := session_id;
     ev_roll_no := roll_no;
     ev_name := name;
     ev_status := ABSENT;
     ev_marked_at := now;
     ev_method := AUTO;
     ev_marked_by := "system" |}.

(** The Python sets are finite sets of roll numbers; the loop visits
    [absent_students] in the enumeration order of the set. *)
Definition mark_absentees_auto (session_id branch_code : string) : M unit :=
  try_except
    (let* students_df := read_csv students branch_code in
     let* attendance_df := read_csv attendance branch_code in
     let session_attendance :=
       filter (fun e => ev_session_id e = session_id) attendance_df in
     let marked_students : gset string :=
       list_to_set (ev_roll_no <$> session_attendance) in
     let all_students : gset string :=
       list_to_set (stu_roll_no <$> students_df) in
     let absent_students := all_students ∖ marked_students in
     let* attendance_df :=
       for_each
         (fun attendance_df roll_no =>
            match filter (fun s => stu_roll_no s = roll_no) students_df with
            | [] => raise IndexError
            | student :: _ =>
                let* now := get_current_time in
                ret (attendance_df
                       ++ [absent_record session_id roll_no (stu_name student) now])
            end)
         attendance_df (elements absent_students) in
     run to_csv set_attendance branch_code attendance_df then
     update_stats branch_code)
    (fun _ => ret tt).

(** One entry of the list [get_session_attendance] returns. *)
Record SessionAttendance := {
  sa_roll_no : string;
  sa_name : string;
  sa_status : AttendanceStatus;
  sa_marked_at : option datetime;
  sa_method : option AttendanceMethod;
  sa_marked_by : option string }.

(** The body of the [for] loop of [get_session_attendance]. *)
Definition attendance_of (session_attendance : list AttendanceEvent)
    (student : Student) : SessionAttendance :=
  let roll_no := stu_roll_no student in
  let name := stu_name student in
  let student_attendance :=
    filter (fun e => ev_roll_no e = roll_no) session_attendance in
  match student_attendance with
  | record :: _ =>
      {| sa_roll_no := roll_no;
         sa_name := name;
         sa_status := ev_status record;
         sa_marked_at := Some (ev_marked_at record);
         sa_method := Some (ev_method record);
         sa_marked_by := Some (ev_marked_by record) |}
  | [] =>
      {| sa_roll_no := roll_no;
         sa_name := name;
         sa_status := ABSENT;
         sa_marked_at := None;
         sa_method := None;
         sa_marked_by := None |}
  end.

Definition get_session_attendance (session_id branch_code : string)
    : M (list SessionAttendance) :=
  try_except
    (let* students_df := read_csv students branch_code in
     let* attendance_df := read_csv attendance branch_code in
     let session_attendance :=
       filter (fun e => ev_session_id e = session_id) attendance_df in
     ret (attendance_of session_attendance <$> students_df))
    (fun _ => ret []).

Definition get_attendance_stats (branch_code : string) : M (list StatRecord) :=
  try_except
    (let* present := path_exists stats branch_code in
     run (if negb present then update_stats branch_code else ret tt) then
     let* stats_df := read_csv stats branch_code in
     ret stats_df)
    (fun _ => ret []).

End DataService.

(** ** [services/session_service.py] *)

(** The dictionary returned by [start_session] ([SessionResponse]). *)
Record SessionResponse := {
  sr_session_id : string;
  sr_branch_code : string;
  sr_start_time : datetime;
  sr_deadline_time : datetime;
  sr_status : SessionStatus }.

Module SessionService.
Import Utils.

Section Start.
Variable strftime : datetime -> string.

Definition start_session (teacher_id branch_code : string)
    (deadline_minutes : Z) : M SessionResponse :=
  try_except
    (run ensure_branch_structure branch_code then
     let* session_id := generate_session_id strftime branch_code in
     let* start_time := get_current_time in
     let deadline_time := start_time + timedelta_minutes deadline_minutes in
     let session_data :=
       {| ses_session_id := session_id;
          ses_teacher_id := teacher_id;
          ses_branch_code := branch_code;
          ses_start_time := start_time;
          ses_deadline_time := deadline_time;
          ses_status := OPEN |} in
     let* sessions_df := read_csv sessions branch_code in
     let sessions_df := sessions_df ++ [session_data] in
     run to_csv set_sessions branch_code sessions_df then
     ret {| sr_session_id := session_id;
            sr_branch_code := branch_code;
            sr_start_time := start_time;
            sr_deadline_time := deadline_time;
            sr_status := OPEN |})
    (fun e => raise e).
End Start.

(** [sessions_df.loc[session_mask, 'status'] = 'closed'] *)
Definition close_row (session_id : string) (s : Session) : Session :=
  if decide (ses_session_id s = session_id) then
    {| ses_session_id := ses_session_id s;
       ses_teacher_id := ses_teacher_id s;
       ses_branch_code := ses_branch_code s;
       ses_start_time := ses_start_time s;
       ses_deadline_time := ses_deadline_time s;
       ses_status := CLOSED |}
  else s.

Definition close_session (session_id branch_code teacher_id : string) : M bool :=
  try_except
    (let* sessions_df := read_csv sessions branch_code in
     if negb (bool_decide (Exists (fun s => ses_session_id s = session_id) sessions_df))
     then ret false
     else
       let sessions_df := close_row session_id <$> sessions_df in
       run to_csv set_sessions branch_code sessions_df then
       run DataService.mark_absentees_auto session_id branch_code then
       ret true)
    (fun _ => ret false).

(** The [for] loop of [get_active_session] over the open sessions read at
    its start. *)
Fixpoint scan_open_sessions (branch_code : string) (current_time : datetime)
    (open_sessions : list Session) : M (option Session) :=
  match open_sessions with
  | [] => ret None
  | session :: rest =>
      let deadline_time := ses_deadline_time session in
      if current_time <? deadline_time then ret (Some session)
      else
        run close_session (ses_session_id session) branch_code
              (ses_teacher_id session) then
        scan_open_sessions branch_code current_time rest
  end.

Definition get_active_session (branch_code : string) : M (option Session) :=
  try_except
    (let* present := path_exists sessions branch_code in
     if negb present then ret None
     else
       let* sessions_df := read_csv sessions branch_code in
       let open_sessions := filter (fun s => ses_status s = OPEN) sessions_df in
       match open_sessions with
       | [] => ret None
       | _ =>
           let* current_time := get_current_time in
           scan_open_sessions branch_code current_time open_sessions
       end)
    (fun _ => ret None).

(** [session.empty()]: [DataFrame.empty] is a [bool] property, and
    calling a [bool] raises [TypeError], whatever its value. *)
Definition call_bool (b : bool) : M bool := raise TypeError.

(** The [for] loop of [get_session] over the rows of [branches.csv]. *)
Fixpoint get_session_loop (session_id : string) (branches : list BranchRow)
    : M (option Session) :=
  match branches with
  | [] => ret None
  | branch :: rest =>
      let branch_code := br_branch_code branch in
      let* present := path_exists sessions branch_code in
      if present then
        let* sessions_df := read_csv sessions branch_code in
        let session := filter (fun s => ses_session_id s = session_id) sessions_df in
        let* is_empty := call_bool (bool_decide (session = [])) in
        if negb is_empty then
          match session with
          | session_data :: _ => ret (Some session_data)
          | [] => raise IndexError
          end
        else get_session_loop session_id rest
      else get_session_loop session_id rest
  end.

Definition get_session (session_id : string) : M (option Session) :=
  try_except
    (let* branches_df := read_branches in
     get_session_loop session_id branches_df)
    (fun _ => ret None).

(** [int(time_remaining.total_seconds() / 60)] for a positive interval in
    microseconds: the whole minutes in it. *)
Definition whole_minutes (interval : Z) : Z := interval / 60000000.

Definition get_session_time_remaining (session_id branch_code : string)
    : M (option Z) :=
  try_except
    (let* sessions_df := read_csv sessions branch_code in
     let session := filter (fun s => ses_session_id s = session_id) sessions_df in
     match session with
     | [] => ret None
     | session_data :: _ =>
         if negb (bool_decide (ses_status session_data = OPEN)) then ret (Some 0)
         else
           let deadline_time := ses_deadline_time session_data in
           let* current_time := get_current_time in
           if deadline_time <=? current_time then ret (Some 0)
           else
             let time_remaining := deadline_time - current_time in
             ret (Some (whole_minutes time_remaining))
     end)
    (fun _ => ret None).

(** The inner [for] loop of [cleanup_expired_sessions]. *)
Fixpoint close_expired (branch_code : string) (expired_sessions : list Session)
    : M unit :=
  match expired_sessions with
  | [] => ret tt
  | session :: rest =>
      run close_session (ses_session_id session) branch_code
            (ses_teacher_id session) then
      close_expired branch_code rest
  end.

(** The rows selected by
    [(status == 'open') & (deadline_time < current_time)]. *)
Definition expired_open (current_time : datetime) (s : Session) : Prop :=
  ses_status s = OPEN /\ ses_deadline_time s < current_time.

#[global] Instance expired_open_dec current_time s :
  Decision (expired_open current_time s).
Proof. unfold expired_open. apply _. Defined.

(** The outer [for] loop of [cleanup_expired_sessions]. *)
Fixpoint sweep_branches (current_time : datetime) (branches : list BranchRow)
    : M unit :=
  match branches with
  | [] => ret tt
  | branch :: rest =>
      let branch_code := br_branch_code branch in
      let* present := path_exists sessions branch_code in
      run (if present then
             let* sessions_df := read_csv sessions branch_code in
             let expired_sessions :=
               filter (expired_open current_time) sessions_df in
             close_expired branch_code expired_sessions
           else ret tt) then
      sweep_branches current_time rest
  end.

Definition cleanup_expired_sessions : M unit :=
  try_except
    (let* branches_df := read_branches in
     let* current_time := get_current_time in
     sweep_branches current_time branches_df)
    (fun _ => ret tt).

End SessionService.

(** ** [utils/crypto_utils.py]: the QR signature

    Strings are sequences of code points below 256.  The HMAC-SHA256
    primitive and the secret key of [config.py] are parameters. *)

Module CryptoUtils.

(** [str.isascii()] *)
Definition is_ascii_char (c : Ascii.ascii) : bool :=
  (Ascii.N_of_ascii c <? 128)%N.
Fixpoint isascii (s : string) : bool :=
  match s with
  | EmptyString => true
  | String c s' => is_ascii_char c && isascii s'
  end.

(** [hmac.compare_digest] on two [str]: both must be ASCII. *)
Definition compare_digest (a b : string) : M bool :=
  if isascii a && isascii b then ret (bool_decide (a = b))
  else raise TypeError.

Section Signature.
Variable SECRET_KEY : string.
(** [hmac.new(key, message, hashlib.sha256).hexdigest()] *)
Variable hmac_sha256_hexdigest : string -> string -> string.

Definition generate_qr_signature (roll_no branch_code : string) : string :=
  let message := roll_no +:+ "|" +:+ branch_code in
  let signature := hmac_sha256_hexdigest SECRET_KEY message in
  substring 0 8 signature.

Definition verify_qr_signature (roll_no branch_code signature : string) : M bool :=
  let expected := generate_qr_signature roll_no branch_code in
  compare_digest expected signature.
End Signature.

End CryptoUtils.

(** ** [services/qr_service.py] *)

Record QRResult := {
  qr_success : bool;
  qr_roll_no : option string;
  qr_message : string }.

Module QRService.
Import Utils.

(** [s.split('|')]: the parts between the separators, one more than
    there are separators. *)
Fixpoint split (sep : Ascii.ascii) (s : string) : list string :=
  match s with
  | EmptyString => [EmptyString]
  | String c s' =>
      if bool_decide (c = sep) then EmptyString :: split sep s'
      else match split sep s' with
           | part :: parts => String c part :: parts
           | [] => [String c EmptyString]
           end
  end.

(** [str.isspace()] of one character below 256. *)
Definition isspace (c : Ascii.ascii) : bool :=
  let n := Ascii.N_of_ascii c in
  ((9 <=? n) && (n <=? 13) || (28 <=? n) && (n <=? 32)
   || (n =? 133) || (n =? 160))%N.

Fixpoint lstrip (s : string) : string :=
  match s with
  | EmptyString => EmptyString
  | String c s' => if isspace c then lstrip s' else s
  end.

Fixpoint rstrip (s : string) : string :=
  match s with
  | EmptyString => EmptyString
  | String c s' =>
      match rstrip s' with
      | EmptyString => if isspace c then EmptyString else String c EmptyString
      | r => String c r
      end
  end.

(** [s.strip()] *)
Definition strip (s : string) : string := rstrip (lstrip s).

Definition validate_student_exists (roll_no branch_code : string) : M bool :=
  try_except
    (let* present := path_exists students branch_code in
     if negb present then ret false
     else
       let* students_df := read_csv students branch_code in
       let* text := observe reads_as_text in
       ret (str_in text roll_no (stu_roll_no <$> students_df)))
    (fun _ => ret false).

Section Codes.
Variable SECRET_KEY : string.
Variable hmac_sha256_hexdigest : string -> string -> string.
(** Whether the QR image for a payload was rendered and saved at a path. *)
Variable save_qr_image : string -> string -> bool.

(** The payload [generate_qr_code] encodes ([use_signature] is set). *)
Definition qr_data_for (roll_no branch_code : string) : string :=
  let signature :=
    CryptoUtils.generate_qr_signature SECRET_KEY hmac_sha256_hexdigest
      roll_no branch_code in
  roll_no +:+ "|" +:+ branch_code +:+ "|" +:+ signature.

Definition generate_qr_code (roll_no branch_code output_path : string) : M bool :=
  let qr_data := qr_data_for roll_no branch_code in
  ret (save_qr_image output_path qr_data).

(** [str(e)] for what can be raised inside [decode_qr_data]. *)
Definition str_decode_error (e : exn) : string :=
  match e with
  | TypeError => "comparing strings with non-ASCII characters is not supported"
  | _ => str_exn e
  end.

Definition found_or_not (roll_no : string) (found : bool) (ok : string)
    : QRResult :=
  if found then
    {| qr_success := true; qr_roll_no := Some roll_no; qr_message := ok |}
  else
    {| qr_success := false; qr_roll_no := None;
       qr_message := "Student not found in this branch" |}.

Definition decode_qr_data (qr_data branch_code : string) : M QRResult :=
  try_except
    (let parts := split "|"%char qr_data in
     match parts with
     | [part0] =>
         let roll_no := strip part0 in
         let* found := validate_student_exists roll_no branch_code in
         ret (found_or_not roll_no found "QR code decoded successfully")
     | [part0; part1; part2] =>
         let roll_no := strip part0 in
         let qr_branch_code := strip part1 in
         let signature := strip part2 in
         let* verified :=
           CryptoUtils.verify_qr_signature SECRET_KEY hmac_sha256_hexdigest
             roll_no qr_branch_code signature in
         if negb verified then
           ret {| qr_success := false; qr_roll_no := None;
                  qr_message := "Invalid QR code signature" |}
         else if negb (bool_decide (qr_branch_code = branch_code)) then
           ret {| qr_success := false; qr_roll_no := None;
                  qr_message := "QR code is for different branch" |}
         else
           let* found := validate_student_exists roll_no branch_code in
           ret (found_or_not roll_no found
                  "QR code decoded and verified successfully")
     | _ =>
         ret {| qr_success := false; qr_roll_no := None;
                qr_message := "Invalid QR code format" |}
     end)
    (fun e =>
       ret {| qr_success := false; qr_roll_no := None;
              qr_message := "Error decoding QR code: " +:+ str_decode_error e |}).
End Codes.

End QRService.

(** ** [services/face_service.py]: what [update_embeddings] does to the
    CSV files (the embeddings themselves are outside the world) *)

Module FaceService.
Import Utils.

Definition update_embeddings (branch_code : string) : M unit :=
  try_except
    (run ensure_branch_structure branch_code then
     let* students_df := read_csv students branch_code in
     ret tt)
    (fun _ => ret tt).

End FaceService.

(** ** [api/main.py]: session and attendance endpoints *)

Record StartSession := {
  ss_teacher_id : string;
  ss_branch_code : string;
  ss_deadline_minutes : Z }.

Record MarkForm := {
  form_session_id : string;
  form_method : string;
  form_roll_no : option string;
  form_qr_data : option string;
  form_face_image : option string }.

Record ManualOverride := {
  mo_session_id : string;
  mo_roll_no : string;
  mo_new_status : AttendanceStatus;
  mo_teacher_id : string;
  mo_reason : option string }.

Record AttendanceResponse := {
  success : bool;
  message : string;
  already_marked : bool;
  marked_at : option datetime;
  method : option AttendanceMethod }.

Record ActiveResponse := {
  active : bool;
  session : option Session }.

Module Api.
Import Utils.

(** [StartSession] as validated by the framework before the endpoint
    runs: non-empty identifiers and [5 <= deadline_minutes <= 480]. *)
Definition valid_StartSession (d : StartSession) : bool :=
  negb (bool_decide (ss_teacher_id d = ""))
  && negb (bool_decide (ss_branch_code d = ""))
  && (5 <=? ss_deadline_minutes d) && (ss_deadline_minutes d <=? 480).

Section Endpoints.
Variable strftime : datetime -> string.
(** The recognition adapters: the roll number identified from the image
    bytes or the QR payload for a branch, if any.  They read the world
    and leave it as it is. *)
Variable recognize_face : World -> string -> string -> option string.
Variable decode_qr_data : World -> string -> string -> option string.

Definition start_attendance_session (session_data : StartSession)
    (current_teacher : string) : M SessionResponse :=
  if negb (valid_StartSession session_data)
  then raise (HTTPException 422 "Unprocessable Entity")
  else
    let* known := validate_branch_exists (ss_branch_code session_data) in
    if negb known then raise (HTTPException 404 "Branch not found")
    else
      let* active_session :=
        SessionService.get_active_session (ss_branch_code session_data) in
      match active_session with
      | Some _ =>
          raise (HTTPException 400
                   "There's already an active session for this branch")
      | None =>
          try_except
            (SessionService.start_session strftime current_teacher
               (ss_branch_code session_data)
               (ss_deadline_minutes session_data))
            (fun e => raise (HTTPException 500 (str_exn e)))
      end.

Definition close_attendance_session (session_id branch_code : string)
    (current_teacher : string) : M string :=
  try_except
    (let* success :=
       SessionService.close_session session_id branch_code current_teacher in
     if negb success
     then raise (HTTPException 404 "Session not found or already closed")
     else ret "Session closed successfully")
    (fun e => raise (HTTPException 500 (str_exn e))).

Definition get_active_session (branch_code : string) : M ActiveResponse :=
  let* known := validate_branch_exists branch_code in
  if negb known then raise (HTTPException 404 "Branch not found")
  else
    let* session := SessionService.get_active_session branch_code in
    match session with
    | None => ret {| active := false; session := None |}
    | Some s => ret {| active := true; session := Some s |}
    end.

(** What follows the adapter call, for either method: the ledger write
    and the response (the result of the write is not looked at). *)
Definition recognise_and_mark (session_id branch_code : string)
    (identified : option string) (how : AttendanceMethod)
    (failure : string) : M AttendanceResponse :=
  match identified with
  | Some roll_no =>
      run DataService.mark_attendance session_id roll_no branch_code
            how "student" then
      let* now := get_current_time in
      ret {| success := true;
             message := "Attendance marked for " +:+ roll_no;
             already_marked := false;
             marked_at := Some now;
             method := Some how |}
  | None =>
      ret {| success := false; message := failure;
             already_marked := false; marked_at := None; method := None |}
  end.

(** [mark_attendance] from the point where the session was found. *)
Definition mark_attendance_in (form : MarkForm) (session : Session)
    : M AttendanceResponse :=
  let session_id := form_session_id form in
  let* is_active := is_session_active session_id (ses_branch_code session) in
  if negb is_active
  then raise (HTTPException 400 "Session is not active or has expired")
  else
    try_except
      (let branch_code := ses_branch_code session in
       let* marked :=
         DataService.is_already_marked session_id
           (default "" (form_roll_no form)) branch_code in
       if marked then
         let* attendance_record :=
           DataService.get_attendance_record session_id
             (default "" (form_roll_no form)) branch_code in
         ret {| success := false;
                message := "Already marked";
                already_marked := true;
                marked_at := ev_marked_at <$> attendance_record;
                method := ev_method <$> attendance_record |}
       else
         let face_image :=
           if bool_decide (form_method form = "face")
           then form_face_image form else None in
         let qr_data :=
           if bool_decide (form_method form = "qr")
              && negb (bool_decide (default "" (form_qr_data form) = ""))
           then form_qr_data form else None in
         match face_image, qr_data with
         | Some image_data, _ =>
             let* result :=
               observe (fun w => recognize_face w image_data branch_code) in
             recognise_and_mark session_id branch_code result FACE
               "Face not recognized"
         | None, Some qr_data =>
             let* result :=
               observe (fun w => decode_qr_data w qr_data branch_code) in
             recognise_and_mark session_id branch_code result QR
               "Invalid QR code"
         | None, None => raise (HTTPException 400 "Invalid request data")
         end)
      (fun e => raise (HTTPException 500 (str_exn e))).

Definition mark_attendance (form : MarkForm) : M AttendanceResponse :=
  if negb (bool_decide (form_method form = "face")
           || bool_decide (form_method form = "qr"))
  then raise (HTTPException 400 "Invalid method")
  else
    let* session := SessionService.get_session (form_session_id form) in
    match session with
    | None => raise (HTTPException 404 "Session not found")
    | Some session => mark_attendance_in form session
    end.

(** [manual_override] from the point where the session was found. *)
Definition manual_override_in (override_data : ManualOverride)
    (current_teacher : string) (session : Session) : M string :=
  try_except
    (let* success :=
       DataService.manual_override_attendance
         (mo_session_id override_data) (mo_roll_no override_data)
         (ses_branch_code session) (mo_new_status override_data)
         current_teacher (mo_reason override_data) in
     if success then ret "Attendance updated successfully"
     else raise (HTTPException 404 "Student not found in this session"))
    (fun e => raise (HTTPException 500 (str_exn e))).

Definition manual_override (override_data : ManualOverride)
    (current_teacher : string) : M string :=
  let* session := SessionService.get_session (mo_session_id override_data) in
  match session with
  | None => raise (HTTPException 404 "Session not found")
  | Some session => manual_override_in override_data current_teacher session
  end.

End Endpoints.
(** *** Registration *)

Record Registered := {
  reg_message : string;
  reg_qr_code_path : string }.

Section Registration.
Variable SECRET_KEY : string.
Variable hmac_sha256_hexdigest : string -> string -> string.
Variable save_qr_image : string -> string -> bool.
(** [str(files['faces'] / f"{roll_no}_{name.replace(' ', '_')}.jpg")] and
    [str(files['qrcodes'] / f"{roll_no}.png")], for a branch. *)
Variable face_path_of : string -> string -> string -> string.
Variable qr_path_of : string -> string -> string.
(** Whether the face image could be written at a path. *)
Variable save_face_image : string -> string -> bool.

Definition register_student (roll_no name branch_code image_data : string)
    : M Registered :=
  let* known := validate_branch_exists branch_code in
  if negb known then raise (HTTPException 404 "Branch not found")
  else
    run ensure_branch_structure branch_code then
    try_except
      (let* students_df := read_csv students branch_code in
       let* text := observe reads_as_text in
       if str_in text roll_no (stu_roll_no <$> students_df)
       then raise (HTTPException 400 "Student already registered")
       else
         let face_path := face_path_of branch_code roll_no name in
         run (if save_face_image face_path image_data then ret tt
              else raise OSError) then
         let qr_path := qr_path_of branch_code roll_no in
         run QRService.generate_qr_code SECRET_KEY hmac_sha256_hexdigest
               save_qr_image roll_no branch_code qr_path then
         let* now := get_current_time in
         let student_data :=
           {| stu_roll_no := roll_no;
              stu_name := name;
              stu_face_path := face_path;
              stu_qr_code_path := qr_path;
              stu_registered_on := now |} in
         let students_df := students_df ++ [student_data] in
         run to_csv set_students branch_code students_df then
         run FaceService.update_embeddings branch_code then
         ret {| reg_message := "Student registered successfully";
                reg_qr_code_path := qr_path |})
      (fun e => raise (HTTPException 500 (str_exn e))).
End Registration.

End Api.

(** ** Scenario data

    The branch, roster and session of the test scenarios: branch "CSH"
    with two registered students and one five-minute session. *)

Module Scenario.

Definition branches : list BranchRow :=
  [ {| br_branch_code := "CSH"; br_branch_name := "CSE(HCI & Gaming Tech)" |};
    {| br_branch_code := "CSA"; br_branch_name := "CSE(AIML)" |};
    {| br_branch_code := "EEE"; br_branch_name := "Electrical & Electronics" |} ].

Definition s1 : Student :=
  {| stu_roll_no := "CS21HCI001"; stu_name := "Asha";
     stu_face_path := "faces/CS21HCI001_Asha.jpg";
     stu_qr_code_path := "qrcodes/CS21HCI001.png";
     stu_registered_on := 0 |}.

Definition s2 : Student :=
  {| stu_roll_no := "CS21HCI002"; stu_name := "Ravi";
     stu_face_path := "faces/CS21HCI002_Ravi.jpg";
     stu_qr_code_path := "qrcodes/CS21HCI002.png";
     stu_registered_on := 0 |}.

Definition sid : string := "S_20240102_093000_CSH".

(** Started at time 1000 with [deadline_minutes = 5]. *)
Definition the_session (st : SessionStatus) : Session :=
  {| ses_session_id := sid;
     ses_teacher_id := "T001";
     ses_branch_code := "CSH";
     ses_start_time := 1000;
     ses_deadline_time := 1000 + Utils.timedelta_minutes 5;
     ses_status := st |}.

Definition minute (n : Z) : datetime := 1000 + Utils.timedelta_minutes n.

(** [s1] marked present by face one minute into the session. *)
Definition s1_present : AttendanceEvent :=
  {| ev_session_id := sid; ev_roll_no := "CS21HCI001"; ev_name := "Asha";
     ev_status := PRESENT; ev_marked_at := minute 1;
     ev_method := FACE; ev_marked_by := "student" |}.

Definition csh (events : list AttendanceEvent) (st : SessionStatus) : BranchFiles :=
  {| students := Some [s1; s2];
     attendance := Some events;
     stats := Some [];
     sessions := Some [the_session st] |}.

(** Stand-in for the reader of pandas on a key column: the empty cell is
    NaN, a column whose other cells are all written in decimal digits is a
    column of numbers, and any other cell comes back as text. *)
Definition is_digit (c : Ascii.ascii) : bool :=
  let n := Ascii.N_of_ascii c in ((48 <=? n) && (n <=? 57))%N.
Fixpoint digits (s : string) : bool :=
  match s with
  | EmptyString => true
  | String c s' => is_digit c && digits s'
  end.
Definition read_as_text (column : list string) (cell : string) : bool :=
  negb (bool_decide (cell = ""))
  && negb (forallb digits column).

Definition world (now : datetime) (events : list AttendanceEvent)
    (st : SessionStatus) (fs : list bool) : World :=
  {| clock := now;
     branches_csv := Some branches;
     branch_dirs := {[ "CSH" := csh events st ]};
     faults := fs;
     reads_as_text := read_as_text |}.

(** The same branch with a roster whose roll numbers are written in
    digits, as the registration endpoint accepts them. *)
Definition n1 : Student :=
  {| stu_roll_no := "101"; stu_name := "Kiran";
     stu_face_path := "faces/101_Kiran.jpg";
     stu_qr_code_path := "qrcodes/101.png";
     stu_registered_on := 0 |}.

Definition n2 : Student :=
  {| stu_roll_no := "102"; stu_name := "Latha";
     stu_face_path := "faces/102_Latha.jpg";
     stu_qr_code_path := "qrcodes/102.png";
     stu_registered_on := 0 |}.

(** [n1] marked absent by the backfill six minutes after the start. *)
Definition n1_absent : AttendanceEvent :=
  {| ev_session_id := sid; ev_roll_no := "101"; ev_name := "Kiran";
     ev_status := ABSENT; ev_marked_at := minute 6;
     ev_method := AUTO; ev_marked_by := "system" |}.

Definition numbered (now : datetime) (events : list AttendanceEvent)
    (fs : list bool) : World :=
  {| clock := now;
     branches_csv := Some branches;
     branch_dirs :=
       {[ "CSH" := {| students := Some [n1; n2];
                      attendance := Some events;
                      stats := Some [];
                      sessions := Some [the_session OPEN] |} ]};
     faults := fs;
     reads_as_text := read_as_text |}.

(** A freshly installed system: [branches.csv] and no branch directory. *)
Definition fresh : World :=
  {| clock := 0; branches_csv := Some branches;
     branch_dirs := ∅; faults := [];
     reads_as_text := read_as_text |}.

(** Stand-ins for the library and the recognition adapters. *)
Definition strftime (t : datetime) : string := "20240102_093000".
Definition recognize_face (w : World) (image_bytes branch_code : string)
    : option string :=
  if bool_decide (image_bytes = "photo of Asha") then Some "CS21HCI001" else None.
Definition decode_qr_data (w : World) (qr_data branch_code : string)
    : option string :=
  if bool_decide (qr_data = "CS21HCI001|CSH") then Some "CS21HCI001" else None.

(** Stand-ins for the configured key and the keyed digest: one
    hexadecimal digit for each character of the key and the message. *)
Definition secret : string := "your-secret-key-change-in-production".
Definition hexdigit_of (c : Ascii.ascii) : Ascii.ascii :=
  let n := (Ascii.N_of_ascii c mod 16)%N in
  Ascii.ascii_of_N (if (n <? 10)%N then 48 + n else 87 + n)%N.
Fixpoint map_chars (f : Ascii.ascii -> Ascii.ascii) (s : string) : string :=
  match s with
  | EmptyString => EmptyString
  | String c s' => String (f c) (map_chars f s')
  end.
Definition digest (key message : string) : string :=
  map_chars hexdigit_of (message +:+ key).

(** Stand-ins for the paths of a student's images (for names without a
    blank) and for the file system taking every image. *)
Definition face_path_of (b roll_no name : string) : string :=
  "data/branches/" +:+ b +:+ "/faces/" +:+ roll_no +:+ "_" +:+ name +:+ ".jpg".
Definition qr_path_of (b roll_no : string) : string :=
  "data/branches/" +:+ b +:+ "/qrcodes/" +:+ roll_no +:+ ".png".
Definition save_image (path data : string) : bool := true.

(** The form posted by the face tab of the marking page: no [roll_no]. *)
Definition face_form : MarkForm :=
  {| form_session_id := sid; form_method := "face"; form_roll_no := None;
     form_qr_data := None; form_face_image := Some "photo of Asha" |}.

(** The start request of the scenarios. *)
Definition start_form : StartSession :=
  {| ss_teacher_id := "T001"; ss_branch_code := "CSH"; ss_deadline_minutes := 5 |}.

End Scenario.

(** ** Notions used in the statements *)

(** The events of the ledger for one (session, student) pair. *)
Definition events_for (session_id roll_no : string)
    (events : list AttendanceEvent) : list AttendanceEvent :=
  filter (DataService.matches session_id roll_no) events.

(** The table [update_stats] writes for a roster and an event log. *)
Definition recomputed_stats (roster : list Student)
    (events : list AttendanceEvent) : list StatRecord :=
  match events with
  | [] => DataService.empty_stats <$> roster
  | _ => DataService.student_stats events
           (DataService.nunique (ev_session_id <$> events)) <$> roster
  end.

(** The name [mark_absentees_auto] copies for a roll number: that of the
    first roster row carrying it. *)
Definition roster_name (roster : list Student) (roll_no : string) : string :=
  match filter (fun s => stu_roll_no s = roll_no) roster with
  | student :: _ => stu_name student
  | [] => ""
  end.

(** The roll numbers [mark_absentees_auto] visits, in its order. *)
Definition absentees (session_id : string) (roster : list Student)
    (events : list AttendanceEvent) : list string :=
  elements
    ((list_to_set (stu_roll_no <$> roster) : gset string)
       ∖ list_to_set
           (ev_roll_no <$> filter (fun e => ev_session_id e = session_id) events)).

(** The ledger after a backfill at time [now]. *)
Definition backfilled (session_id : string) (now : datetime)
    (roster : list Student) (events : list AttendanceEvent)
    : list AttendanceEvent :=
  events ++
  ((fun r => DataService.absent_record session_id r (roster_name roster r) now)
     <$> absentees session_id roster events).

(** The ledger after [manual_override_attendance] at time [now]. *)
Definition overridden (session_id roll_no : string)
    (new_status : AttendanceStatus) (now : datetime) (teacher_id : string)
    (roster : list Student) (events : list AttendanceEvent)
    : list AttendanceEvent :=
  if bool_decide (Exists (DataService.matches session_id roll_no) events) then
    DataService.override_row (DataService.matches session_id roll_no)
      new_status now teacher_id
      <$> events
  else
    events ++ [ {| ev_session_id := session_id;
                   ev_roll_no := roll_no;
                   ev_name := roster_name roster roll_no;
                   ev_status := new_status;
                   ev_marked_at := now;
                   ev_method := MANUAL;
                   ev_marked_by := teacher_id |} ].

(** The files of a branch directory after [ensure_branch_structure]. *)
Definition ensured (f : BranchFiles) : BranchFiles :=
  {| students := Some (default [] (students f));
     attendance := Some (default [] (attendance f));
     stats := Some (default [] (stats f));
     sessions := Some (default [] (sessions f)) |}.

(** The event [DataService.mark_attendance] appends. *)
Definition present_record (session_id roll_no : string) (roster : list Student)
    (now : datetime) (how : AttendanceMethod) (marked_by : string)
    : AttendanceEvent :=
  {| ev_session_id := session_id;
     ev_roll_no := roll_no;
     ev_name := roster_name roster roll_no;
     ev_status := PRESENT;
     ev_marked_at := now;
     ev_method := how;
     ev_marked_by := marked_by |}.

(** Number of rows of a session table whose status is open. *)
Definition open_count (rows : list Session) : nat :=
  length (filter (fun s => ses_status s = OPEN) rows).

(** The part of the world no ledger or statistics write touches. *)
Definition sessions_kept (w w' : World) : Prop :=
  faults w' = faults w /\ clock w' = clock w
  /\ branches_csv w' = branches_csv w
  /\ forall b, file_of sessions b w' = file_of sessions b w
             /\ file_of students b w' = file_of students b w.

(** What is expected of the statistics record of one roster student. *)
Definition stat_as_specified (events : list AttendanceEvent)
    (student : Student) (r : StatRecord) : Prop :=
  stat_roll_no r = stu_roll_no student
  /\ stat_total_days r
     = Z.of_nat (size (list_to_set (ev_session_id <$> events) : gset string))
  /\ (filter (fun e => ev_roll_no e = stu_roll_no student) events = [] ->
      stat_present_days r = 0 /\ stat_absent_days r = stat_total_days r)
  /\ (stat_total_days r = 0 -> stat_attendance_pct r = 0).


(** The directory of a branch as [ensure_branch_structure] finds it. *)
Definition dir_of (b : string) (w : World) : BranchFiles :=
  match branch_dirs w !! b with
  | Some f => f
  | None => {| students := None; attendance := None;
               stats := None; sessions := None |}
  end.

(** The row [start_session] appends. *)
Definition new_session (strftime : datetime -> string) (teacher_id b : string)
    (minutes : Z) (now : datetime)
    : Session :=
  {| ses_session_id := "S_" +:+ strftime now +:+ "_" +:+ b;
     ses_teacher_id := teacher_id;
     ses_branch_code := b;
     ses_start_time := now;
     ses_deadline_time := now + Utils.timedelta_minutes minutes;
     ses_status := OPEN |}.

(** ** The session state machine *)

(** One row of a session table and what it may become: the same session,
    its status unchanged or closed. *)
Definition row_closed_or_kept (s s' : Session) : Prop :=
  ses_session_id s' = ses_session_id s
  /\ (ses_status s' = ses_status s \/ ses_status s' = CLOSED).

(** A session table and a later state of it in which some rows were
    closed. *)
Definition closed_more (rows rows' : list Session) : Prop :=
  Forall2 row_closed_or_kept rows rows'.

(** A world and a later one that differs in the session table of branch
    [b] only by closed rows (and in the ledger and statistics). *)
Definition only_closes (b : string) (w w' : World) : Prop :=
  faults w' = faults w /\ clock w' = clock w
  /\ branches_csv w' = branches_csv w
  /\ (forall b', b' <> b -> file_of sessions b' w' = file_of sessions b' w)
  /\ match file_of sessions b w, file_of sessions b w' with
     | None, None => True
     | Some rows, Some rows' => closed_more rows rows'
     | _, _ => False
     end.

(** At most one open session in every branch. *)
Definition one_open_per_branch (w : World) : Prop :=
  forall b rows, file_of sessions b w = Some rows -> (open_count rows <= 1)%nat.

(** The requests of the session endpoints, and the passing of time. *)
Inductive Request :=
| Start (session_data : StartSession) (current_teacher : string)
| Close (session_id branch_code current_teacher : string)
| GetActive (branch_code : string)
| Tick (now : datetime).

Section Serving.
Variable strftime : datetime -> string.

Definition serve (w : World) (q : Request) : World :=
  match q with
  | Start session_data current_teacher =>
      snd (Api.start_attendance_session strftime session_data current_teacher w)
  | Close session_id branch_code current_teacher =>
      snd (Api.close_attendance_session session_id branch_code current_teacher w)
  | GetActive branch_code => snd (Api.get_active_session branch_code w)
  | Tick now => set_clock now w
  end.

(** The world after a sequence of requests served one after the other. *)
Definition serve_all (w : World) (qs : list Request) : World :=
  fold_left serve qs w.
End Serving.

(** A sequence of requests in which the teacher starts twice, lets the
    deadline pass and starts again. *)
Definition scenario_requests : list Request :=
  [ Start Scenario.start_form "T001"; Tick (Scenario.minute 1);
    Start Scenario.start_form "T001"; GetActive "CSH";
    Tick (Scenario.minute 9); Start Scenario.start_form "T001";
    Close Scenario.sid "CSH" "T001"; Start Scenario.start_form "T002" ].

(** ** Keys and the types pandas infers *)

(** A key that comes back as the string it was written as, whatever the
    other cells of its column: not a number, not a boolean, none of the NA
    spellings.  The roll numbers of [StudentRegister] (two letters, two
    digits, three letters, three digits) and the session ids of
    [generate_session_id] are such keys. *)
Definition text_key (text : list string -> string -> bool) (key : string)
    : Prop :=
  forall column, key ∈ column -> text column key = true.

(** What the roster lookup [students_df[students_df['roll_no'] == roll_no]]
    finds: the roll number is on the roster and its cell came back as
    text. *)
Definition roster_finds (w : World) (roster : list Student) (roll_no : string)
    : Prop :=
  roll_no ∈ stu_roll_no <$> roster
  ∧ reads_as_text w (stu_roll_no <$> roster) roll_no = true.

(** A time that is not a whole second: it is written with its six digits
    of microseconds.  A ledger whose time stamps are all written that way
    is read back by [pd.to_datetime] in one format. *)
Definition with_microseconds (t : datetime) : Prop := t mod 1000000 <> 0.

(** ** Reports, statistics, sweeps and QR payloads *)

(** What the report says of one roster student, given the events the
    pair had before the close and has after it. *)
Definition reported_after_close (session_id : string)
    (before after : list AttendanceEvent) (student : Student)
    (row : DataService.SessionAttendance) : Prop :=
  DataService.sa_roll_no row = stu_roll_no student
  /\ DataService.sa_name row = stu_name student
  /\ exists e,
       head (events_for session_id (stu_roll_no student) after) = Some e
       /\ DataService.sa_status row = ev_status e
       /\ DataService.sa_marked_at row = Some (ev_marked_at e)
       /\ DataService.sa_method row = Some (ev_method e)
       /\ DataService.sa_marked_by row = Some (ev_marked_by e)
       /\ match events_for session_id (stu_roll_no student) before with
          | [] => ev_status e = ABSENT /\ ev_method e = AUTO
                  /\ ev_marked_by e = "system"
          | e0 :: _ => e = e0
          end.

(** What adds up in a statistics record. *)
Definition counts_add_up (r : StatRecord) : Prop :=
  stat_present_days r + stat_absent_days r = stat_total_days r
  /\ 0 <= stat_present_days r /\ 0 <= stat_absent_days r
  /\ 0 <= stat_attendance_pct r <= 10000.

(** The statistics served for a branch are those of its roster and of
    the ledger on file. *)
Definition stats_served_fresh (b : string) (roster : list Student) (w : World)
    : Prop :=
  exists events,
    file_of students b w = Some roster
    /\ file_of attendance b w = Some events
    /\ DataService.get_attendance_stats b w
       = (Returned (recomputed_stats roster events), w).

(** A row after the sessions whose ids are in [ids] were closed. *)
Definition close_if (ids : list string) (s : Session) : Session :=
  if decide (ses_session_id s ∈ ids) then
    {| ses_session_id := ses_session_id s;
       ses_teacher_id := ses_teacher_id s;
       ses_branch_code := ses_branch_code s;
       ses_start_time := ses_start_time s;
       ses_deadline_time := ses_deadline_time s;
       ses_status := CLOSED |}
  else s.

(** A world and the world after a sweep at time [t]: every session table
    has the rows it had, those of some expired open sessions closed; no
    table appears. *)
Definition swept (t : datetime) (w w' : World) : Prop :=
  faults w' = faults w /\ clock w' = clock w
  /\ branches_csv w' = branches_csv w
  /\ forall b,
       match file_of sessions b w with
       | None => file_of sessions b w' = None
       | Some rows =>
           exists ids,
             file_of sessions b w' = Some (close_if ids <$> rows)
             /\ Forall (fun sid =>
                          exists s, s ∈ rows /\ ses_session_id s = sid
                                    /\ SessionService.expired_open t s) ids
       end.

(** No open session of branch [b] is past its deadline at time [t]. *)
Definition none_expired (t : datetime) (b : string) (w : World) : Prop :=
  forall rows s, file_of sessions b w = Some rows -> s ∈ rows ->
                 ses_status s = OPEN -> t <= ses_deadline_time s.

(** Every character of a string satisfies a test. *)
Fixpoint all_chars (p : ascii -> bool) (s : string) : bool :=
  match s with
  | EmptyString => true
  | String c s' => p c && all_chars p s'
  end.

(** A roll number or branch code as they are written: no separator and
    no white space. *)
Definition plain_char (c : ascii) : bool :=
  negb (bool_decide (c = "|"%char)) && negb (QRService.isspace c).
Definition plain (s : string) : bool := all_chars plain_char s.

(** The characters of a hexadecimal digest. *)
Definition is_hexdigit (c : ascii) : bool :=
  let n := N_of_ascii c in
  ((48 <=? n) && (n <=? 57) || (97 <=? n) && (n <=? 102))%N.

(** The digest of the signed message is made of hexadecimal digits, as a
    [hexdigest()] is. *)
Definition digest_is_hex (SECRET_KEY : string)
    (hmac_sha256_hexdigest : string -> string -> string)
    (roll_no branch_code : string) : Prop :=
  all_chars is_hexdigit
    (hmac_sha256_hexdigest SECRET_KEY (roll_no +:+ "|" +:+ branch_code)) = true.

(** [qr_service.decode_qr_data] as the marking endpoint reads its answer:
    the roll number of a successful result. *)
Definition decoded_roll_no (SECRET_KEY : string)
    (hmac_sha256_hexdigest : string -> string -> string)
    (w : World) (qr_data branch_code : string) : option string :=
  match fst (QRService.decode_qr_data SECRET_KEY hmac_sha256_hexdigest
               qr_data branch_code w) with
  | Returned result => if qr_success result then qr_roll_no result else None
  | Raised _ => None
  end.

(** The roster row [register_student] appends. *)
Definition student_row (face_path_of : string -> string -> string -> string)
    (qr_path_of : string -> string -> string)
    (roll_no name b : string) (now : datetime) : Student :=
  {| stu_roll_no := roll_no;
     stu_name := name;
     stu_face_path := face_path_of b roll_no name;
     stu_qr_code_path := qr_path_of b roll_no;
     stu_registered_on := now |}.

(** * Properties *)

(** ** The primitive effects *)

Lemma next_fault_quiet w : faults w = [] -> next_fault w = (false, w).
Proof. unfold next_fault. intros ->. reflexivity. Qed.

Lemma read_csv_ok {A} (get : BranchFiles -> option (list A)) b w rows :
  faults w = [] -> file_of get b w = Some rows ->
  read_csv get b w = (Returned rows, w).
Proof.
  intros Hf Hr. unfold read_csv. rewrite (next_fault_quiet w Hf), Hr. reflexivity.
Qed.

Lemma read_csv_missing {A} (get : BranchFiles -> option (list A)) b w :
  faults w = [] -> file_of get b w = None ->
  read_csv get b w = (Raised FileNotFoundError, w).
Proof.
  intros Hf Hr. unfold read_csv. rewrite (next_fault_quiet w Hf), Hr. reflexivity.
Qed.

Lemma read_csv_fault {A} (get : BranchFiles -> option (list A)) b w fs :
  faults w = true :: fs ->
  read_csv get b w = (Raised OSError, set_faults fs w).
Proof. intros Hf. unfold read_csv, next_fault. rewrite Hf. reflexivity. Qed.

Lemma to_csv_ok {A} (set : list A -> BranchFiles -> BranchFiles) b rows w f :
  branch_dirs w !! b = Some f ->
  to_csv set b rows w = (Returned tt, with_branch b (set rows f) w).
Proof. intros Hd. unfold to_csv. rewrite Hd. reflexivity. Qed.

Lemma dirs_with_branch b f w : branch_dirs (with_branch b f w) !! b = Some f.
Proof. unfold with_branch, set_dirs. simpl. apply lookup_insert_eq. Qed.

Lemma dirs_with_branch_ne b b' f w :
  b <> b' -> branch_dirs (with_branch b f w) !! b' = branch_dirs w !! b'.
Proof. intros Hne. unfold with_branch, set_dirs. simpl. by apply lookup_insert_ne. Qed.

Lemma with_branch_twice b f f' w :
  with_branch b f' (with_branch b f w) = with_branch b f' w.
Proof.
  unfold with_branch, set_dirs. simpl. f_equal. apply insert_insert_eq.
Qed.

Lemma file_of_with_branch {A} (get : BranchFiles -> option (list A)) b f w :
  file_of get b (with_branch b f w) = get f.
Proof. unfold file_of. rewrite dirs_with_branch. reflexivity. Qed.

Lemma file_of_dir {A} (get : BranchFiles -> option (list A)) b f w :
  branch_dirs w !! b = Some f -> file_of get b w = get f.
Proof. unfold file_of. intros ->. reflexivity. Qed.

Lemma bind_path_exists {A B} (get : BranchFiles -> option (list A)) b
    (k : bool -> M B) w :
  bind (path_exists get b) k w = k (bool_decide (is_Some (file_of get b w))) w.
Proof. reflexivity. Qed.

Lemma bind_returned {A B} (m : M A) (k : A -> M B) w a w' :
  m w = (Returned a, w') -> bind m k w = k a w'.
Proof. unfold bind. intros ->. reflexivity. Qed.

Lemma bind_raised {A B} (m : M A) (k : A -> M B) w e w' :
  m w = (Raised e, w') -> bind m k w = (Raised e, w').
Proof. unfold bind. intros ->. reflexivity. Qed.

Lemma bind_observe {A B} (f : World -> A) (k : A -> M B) w :
  bind (observe f) k w = k (f w) w.
Proof. reflexivity. Qed.

(** ** Keys compared with a column read back *)

Lemma filter_none {A} (P : A -> Prop) `{forall x, Decision (P x)} (l : list A) :
  Forall (fun x => ~ P x) l -> filter P l = [].
Proof.
  induction 1 as [|x l Hx _ IH]; [reflexivity|].
  by rewrite filter_cons, decide_False.
Qed.

Lemma filter_ext_in {A} (P Q : A -> Prop) `{!forall x, Decision (P x)}
    `{!forall x, Decision (Q x)} (l : list A) :
  (forall x, x ∈ l -> (P x <-> Q x)) -> filter P l = filter Q l.
Proof.
  induction l as [|x l IH]; intros Hext; [reflexivity|].
  rewrite !filter_cons.
  rewrite IH by (intros y Hy; apply Hext; by right).
  destruct (decide (P x)) as [Hp|Hp], (decide (Q x)) as [Hq|Hq];
    try reflexivity.
  - destruct Hq. apply Hext; [left | done].
  - destruct Hp. apply Hext; [left | done].
Qed.

Lemma filter_nil_impl {A} (P Q : A -> Prop) `{!forall x, Decision (P x)}
    `{!forall x, Decision (Q x)} (l : list A) :
  (forall x, P x -> Q x) -> filter Q l = [] -> filter P l = [].
Proof.
  intros Himpl Hnil. induction l as [|x l IH]; [reflexivity|].
  rewrite filter_cons in Hnil. rewrite filter_cons.
  destruct (decide (Q x)) as [Hq|Hq]; [discriminate|].
  rewrite decide_False by (intros Hp; apply Hq, Himpl, Hp).
  by apply IH.
Qed.

(** The lookup of a roll number on the roster read back. *)
Lemma roster_lookup_found text (roster : list Student) r :
  text (stu_roll_no <$> roster) r = true ->
  filter (fun s => str_eq text (stu_roll_no <$> roster) r (stu_roll_no s)) roster
  = filter (fun s => stu_roll_no s = r) roster.
Proof.
  intros Ht. apply filter_ext_in. intros s _. unfold str_eq. split.
  - by intros [_ ?].
  - intros ->. done.
Qed.

Lemma roster_lookup_missed text (roster : list Student) r :
  r ∉ stu_roll_no <$> roster ∨ text (stu_roll_no <$> roster) r = false ->
  filter (fun s => str_eq text (stu_roll_no <$> roster) r (stu_roll_no s)) roster
  = [].
Proof.
  intros Hmiss. apply filter_none, Forall_forall. intros s Hs [Ht <-].
  destruct Hmiss as [Hout|Hno].
  - apply Hout, list_elem_of_fmap. eauto.
  - congruence.
Qed.

Lemma str_in_spec text r (column : list string) :
  str_in text r column = bool_decide (r ∈ column ∧ text column r = true).
Proof.
  unfold str_in. apply bool_decide_ext. rewrite Exists_exists. split.
  - intros (c & Hc & Ht & ->). done.
  - intros [Hin Ht]. exists r. done.
Qed.

Lemma str_in_text text r (column : list string) :
  text_key text r -> str_in text r column = bool_decide (r ∈ column).
Proof.
  intros Hr. rewrite str_in_spec. apply bool_decide_ext. split.
  - by intros [? _].
  - intros Hin. split; [done | by apply Hr].
Qed.

(** The mask of the ledger look-ups selects rows with the two keys, and
    every such row when both keys come back as text. *)
Lemma mask_matches text (events : list AttendanceEvent) session_id r e :
  DataService.mask text events session_id r e -> DataService.matches session_id r e.
Proof. intros [[_ ?] [_ ?]]. by split. Qed.

Lemma matches_mask text (events : list AttendanceEvent) session_id r e :
  text_key text session_id -> text_key text r -> e ∈ events ->
  DataService.matches session_id r e -> DataService.mask text events session_id r e.
Proof.
  intros Hs Hr He [<- <-]. split; split; try reflexivity.
  - apply Hs, list_elem_of_fmap. eauto.
  - apply Hr, list_elem_of_fmap. eauto.
Qed.

Lemma filter_mask text (events : list AttendanceEvent) session_id r :
  text_key text session_id -> text_key text r ->
  filter (DataService.mask text events session_id r) events
  = filter (DataService.matches session_id r) events.
Proof.
  intros Hs Hr. apply filter_ext_in. intros e He. split.
  - apply mask_matches.
  - by apply matches_mask.
Qed.

Lemma filter_mask_nil text (events : list AttendanceEvent) session_id r :
  filter (DataService.matches session_id r) events = [] ->
  filter (DataService.mask text events session_id r) events = [].
Proof. apply filter_nil_impl. intros e. apply mask_matches. Qed.

Lemma Exists_mask text (events : list AttendanceEvent) session_id r :
  text_key text session_id -> text_key text r ->
  Exists (DataService.mask text events session_id r) events
  <-> Exists (DataService.matches session_id r) events.
Proof.
  intros Hs Hr. rewrite !Exists_exists. split.
  - intros (e & He & Hm). exists e. split; [done|]. by apply mask_matches in Hm.
  - intros (e & He & Hm). exists e. split; [done|]. by apply matches_mask.
Qed.

Lemma override_row_mask text (events : list AttendanceEvent) session_id r st now
    teacher_id :
  text_key text session_id -> text_key text r ->
  DataService.override_row (DataService.mask text events session_id r) st now
    teacher_id <$> events
  = DataService.override_row (DataService.matches session_id r) st now
      teacher_id <$> events.
Proof.
  intros Hs Hr. apply list_fmap_ext. intros i e He.
  apply list_elem_of_lookup_2 in He. unfold DataService.override_row.
  destruct (decide (DataService.mask text events session_id r e)) as [Hm|Hm],
    (decide (DataService.matches session_id r e)) as [Hp|Hp]; try reflexivity.
  - destruct Hp. by apply mask_matches in Hm.
  - destruct Hm. by apply matches_mask.
Qed.

(** The stand-in reader of the scenarios gives every key that is not made
    of digits back as text. *)
Lemma scenario_text_key key :
  key <> "" -> Scenario.digits key = false ->
  text_key Scenario.read_as_text key.
Proof.
  intros Hne Hd column Hin. unfold Scenario.read_as_text.
  rewrite bool_decide_eq_false_2 by done. cbn [negb andb].
  apply negb_true_iff, not_true_is_false. intros Hall.
  rewrite forallb_forall in Hall.
  apply list_elem_of_In in Hin. specialize (Hall key Hin). congruence.
Qed.

(** The next step of the goal is a read of a table that is on file, or of
    a file that is missing, and no fault is scheduled. *)
Ltac read_table rows :=
  erewrite (bind_returned _ _ _ rows)
    by (apply read_csv_ok;
        [done | first [done | by erewrite file_of_dir
                      | by rewrite file_of_with_branch]]).

Ltac read_missing :=
  erewrite (bind_raised _ _ _ FileNotFoundError)
    by (apply read_csv_missing;
        [done | first [done | by erewrite file_of_dir
                      | unfold file_of; by simplify_option_eq]]).

(** ** [get_session] *)

(** The loop of [get_session] never produces a session: it either runs
    out of branches or raises. *)
Lemma get_session_loop_no_result session_id branches w :
  (exists w', SessionService.get_session_loop session_id branches w
              = (Returned None, w'))
  \/ (exists e w', SessionService.get_session_loop session_id branches w
                   = (Raised e, w')).
Proof.
  revert w. induction branches as [|branch rest IH]; intros w; simpl.
  - left. eexists. reflexivity.
  - rewrite bind_path_exists.
    destruct (bool_decide (is_Some (file_of sessions (br_branch_code branch) w))).
    + right. unfold bind.
      destruct (read_csv sessions (br_branch_code branch) w) as [[rows|e] w'].
      * unfold SessionService.call_bool, raise. do 2 eexists. reflexivity.
      * do 2 eexists. reflexivity.
    + apply IH.
Qed.

(** Whatever is stored, [get_session] answers [None]. *)
Lemma get_session_always_None session_id w :
  exists w', SessionService.get_session session_id w = (Returned None, w').
Proof.
  unfold SessionService.get_session, try_except, bind.
  destruct (read_branches w) as [[branches|e] w1].
  - destruct (get_session_loop_no_result session_id branches w1)
      as [[w' ->]|[e [w' ->]]]; unfold ret; eauto.
  - unfold ret. eauto.
Qed.

(** C4: a session stored in a branch's table is not returned by
    [get_session]: with the open session of branch CSH on file, the
    lookup of its id answers [None]. *)
Theorem get_session_misses_stored_session :
  file_of sessions "CSH" (Scenario.world (Scenario.minute 1) [] OPEN [])
    = Some [Scenario.the_session OPEN]
  /\ ses_session_id (Scenario.the_session OPEN) = Scenario.sid
  /\ fst (SessionService.get_session Scenario.sid
            (Scenario.world (Scenario.minute 1) [] OPEN []))
     = Returned None.
Proof. vm_compute. auto. Qed.

(** ** [update_stats] *)

Lemma update_stats_ok b w f roster events :
  faults w = [] -> branch_dirs w !! b = Some f ->
  students f = Some roster -> attendance f = Some events ->
  DataService.update_stats b w
  = (Returned tt, with_branch b (set_stats (recomputed_stats roster events) f) w).
Proof.
  intros Hf Hd Hs Ha. unfold DataService.update_stats, try_except.
  read_table roster.
  read_table events.
  unfold recomputed_stats.
  destruct events; rewrite (to_csv_ok _ _ _ _ f Hd); reflexivity.
Qed.

Lemma sessions_kept_refl w : sessions_kept w w.
Proof. unfold sessions_kept. auto. Qed.

Lemma sessions_kept_trans w1 w2 w3 :
  sessions_kept w1 w2 -> sessions_kept w2 w3 -> sessions_kept w1 w3.
Proof.
  unfold sessions_kept. intros (Ha&Hb&Hc&H1) (Ha'&Hb'&Hc'&H2).
  repeat split; try congruence.
  - destruct (H1 b), (H2 b). congruence.
  - destruct (H1 b), (H2 b). congruence.
Qed.

Lemma sessions_kept_with_branch b f f' w :
  branch_dirs w !! b = Some f ->
  sessions f' = sessions f -> students f' = students f ->
  sessions_kept w (with_branch b f' w).
Proof.
  intros Hd Hs Hr. unfold sessions_kept. repeat split; unfold file_of.
  - destruct (decide (b = b0)) as [<-|Hne].
    + rewrite dirs_with_branch, Hd. done.
    + by rewrite dirs_with_branch_ne.
  - destruct (decide (b = b0)) as [<-|Hne].
    + rewrite dirs_with_branch, Hd. done.
    + by rewrite dirs_with_branch_ne.
Qed.

(** [update_stats] never raises and writes nothing but statistics. *)
Lemma update_stats_frame b w :
  faults w = [] ->
  exists w', DataService.update_stats b w = (Returned tt, w')
             /\ sessions_kept w w'
             /\ (forall b', file_of attendance b' w' = file_of attendance b' w).
Proof.
  intros Hf.
  destruct (branch_dirs w !! b) as [f|] eqn:Hd.
  - destruct (students f) as [roster|] eqn:Hs.
    + destruct (attendance f) as [events|] eqn:Ha.
      * rewrite (update_stats_ok b w f roster events) by done.
        eexists. split; [reflexivity|]. split.
        -- by apply (sessions_kept_with_branch b f).
        -- intros b'. unfold file_of. destruct (decide (b = b')) as [<-|Hne].
           ++ rewrite dirs_with_branch, Hd. done.
           ++ by rewrite dirs_with_branch_ne.
      * exists w. split; [|split; [apply sessions_kept_refl | done]].
        unfold DataService.update_stats, try_except.
        read_table roster.
        read_missing.
        reflexivity.
    + exists w. split; [|split; [apply sessions_kept_refl | done]].
      unfold DataService.update_stats, try_except.
      read_missing.
      reflexivity.
  - exists w. split; [|split; [apply sessions_kept_refl | done]].
    unfold DataService.update_stats, try_except.
    read_missing.
    reflexivity.
Qed.

Lemma empty_stats_as_specified student :
  stat_as_specified [] student (DataService.empty_stats student).
Proof. unfold stat_as_specified. simpl. auto. Qed.

Lemma student_stats_as_specified events student :
  stat_as_specified events student
    (DataService.student_stats events
       (DataService.nunique (ev_session_id <$> events)) student).
Proof.
  unfold stat_as_specified, DataService.student_stats. simpl.
  split; [reflexivity|]. split; [reflexivity|]. split.
  - intros ->. simpl. auto.
  - intros ->. reflexivity.
Qed.

(** C7: with the roster and the event log readable, [update_stats]
    writes one record per roster student, in roster order, whose
    [total_days] is the number of distinct session ids of the log; a
    student without events has [present_days = 0] and
    [absent_days = total_days]; and [total_days = 0] gives
    [attendance_pct = 0.0]. *)
Theorem update_stats_records b w f roster events :
  faults w = [] -> branch_dirs w !! b = Some f ->
  students f = Some roster -> attendance f = Some events ->
  exists table,
    fst (DataService.update_stats b w) = Returned tt
    /\ file_of stats b (snd (DataService.update_stats b w)) = Some table
    /\ Forall2 (stat_as_specified events) roster table.
Proof.
  intros Hf Hd Hs Ha.
  rewrite (update_stats_ok b w f roster events) by done.
  exists (recomputed_stats roster events). simpl.
  split; [reflexivity|]. split.
  - rewrite file_of_with_branch. reflexivity.
  - unfold recomputed_stats. destruct events as [|e events'].
    + apply Forall2_fmap_r, Forall_Forall2_diag, Forall_forall.
      intros student _. apply empty_stats_as_specified.
    + apply Forall2_fmap_r, Forall_Forall2_diag, Forall_forall.
      intros student _. apply student_stats_as_specified.
Qed.

Lemma update_stats_records_witness :
  exists table,
    fst (DataService.update_stats "CSH"
           (Scenario.world (Scenario.minute 2) [Scenario.s1_present] OPEN []))
    = Returned tt
    /\ file_of stats "CSH"
         (snd (DataService.update_stats "CSH"
                 (Scenario.world (Scenario.minute 2) [Scenario.s1_present] OPEN [])))
       = Some table
    /\ Forall2 (stat_as_specified [Scenario.s1_present])
         [Scenario.s1; Scenario.s2] table.
Proof.
  apply (update_stats_records "CSH"
           (Scenario.world (Scenario.minute 2) [Scenario.s1_present] OPEN [])
           (Scenario.csh [Scenario.s1_present] OPEN));
    reflexivity.
Defined.

(** ** [mark_absentees_auto] *)

Lemma roster_filter_nonempty roster r :
  r ∈ stu_roll_no <$> roster ->
  exists student rest,
    filter (fun s => stu_roll_no s = r) roster = student :: rest
    /\ stu_roll_no student = r.
Proof.
  intros Hin. apply list_elem_of_fmap in Hin as (student & -> & Hin).
  assert (Hf : student ∈ filter (fun s => stu_roll_no s = stu_roll_no student) roster)
    by (apply list_elem_of_filter; auto).
  destruct (filter _ roster) as [|s0 rest] eqn:E.
  - by apply not_elem_of_nil in Hf.
  - exists s0, rest. split; [reflexivity|].
    assert (Hs0 : s0 ∈ filter (fun s => stu_roll_no s = stu_roll_no student) roster)
      by (rewrite E; left).
    by apply list_elem_of_filter in Hs0 as [? _].
Qed.

Lemma backfill_loop session_id roster l : forall acc w,
  (forall r, r ∈ l -> r ∈ stu_roll_no <$> roster) ->
  for_each
    (fun attendance_df roll_no =>
       match filter (fun s => stu_roll_no s = roll_no) roster with
       | [] => raise IndexError
       | student :: _ =>
           let* now := Utils.get_current_time in
           ret (attendance_df
                  ++ [DataService.absent_record session_id roll_no
                        (stu_name student) now])
       end)
    acc l w
  = (Returned
       (acc ++ ((fun r => DataService.absent_record session_id r
                            (roster_name roster r) (clock w)) <$> l)), w).
Proof.
  induction l as [|r l IH]; intros acc w Hin; simpl.
  - rewrite app_nil_r. reflexivity.
  - destruct (roster_filter_nonempty roster r) as (student & rest & E & _).
    { apply Hin. left. }
    unfold roster_name at 1. rewrite E.
    unfold bind at 1. unfold bind at 1. simpl.
    rewrite IH by (intros r' Hr'; apply Hin; by right).
    rewrite <- app_assoc. reflexivity.
Qed.

Lemma absentees_in_roster session_id roster events r :
  r ∈ absentees session_id roster events -> r ∈ stu_roll_no <$> roster.
Proof.
  unfold absentees. rewrite elem_of_elements, elem_of_difference.
  intros [Hin _]. by apply elem_of_list_to_set in Hin.
Qed.

Lemma mark_absentees_auto_ok session_id b w f roster events :
  faults w = [] -> branch_dirs w !! b = Some f ->
  students f = Some roster -> attendance f = Some events ->
  DataService.mark_absentees_auto session_id b w
  = (Returned tt,
     with_branch b
       (set_stats
          (recomputed_stats roster (backfilled session_id (clock w) roster events))
          (set_attendance (backfilled session_id (clock w) roster events) f))
       w).
Proof.
  intros Hf Hd Hs Ha. unfold DataService.mark_absentees_auto, try_except.
  read_table roster.
  read_table events.
  rewrite (bind_returned _ _ w (backfilled session_id (clock w) roster events) w)
    by (apply backfill_loop; intros r; apply absentees_in_roster).
  rewrite (bind_returned _ _ w tt
             (with_branch b
                (set_attendance (backfilled session_id (clock w) roster events) f) w))
    by (by apply to_csv_ok).
  rewrite (update_stats_ok b _ (set_attendance
             (backfilled session_id (clock w) roster events) f) roster
             (backfilled session_id (clock w) roster events));
    try done.
  - rewrite with_branch_twice. reflexivity.
  - apply dirs_with_branch.
Qed.

Lemma events_for_nil_iff session_id r events :
  events_for session_id r events = []
  <-> r ∉ ev_roll_no <$> filter (fun e => ev_session_id e = session_id) events.
Proof.
  unfold events_for. split.
  - intros Hnil Hin. apply list_elem_of_fmap in Hin as (e & -> & He).
    apply list_elem_of_filter in He as [Hs He].
    assert (Hm : e ∈ filter (DataService.matches session_id (ev_roll_no e)) events)
      by (apply list_elem_of_filter; split; [split; auto | auto]).
    rewrite Hnil in Hm. by apply not_elem_of_nil in Hm.
  - intros Hnot.
    destruct (filter (DataService.matches session_id r) events)
      as [|e rest] eqn:E; [reflexivity|].
    exfalso. apply Hnot.
    assert (Hm : e ∈ filter (DataService.matches session_id r) events)
      by (rewrite E; left).
    apply list_elem_of_filter in Hm as [[Hs Hr] He].
    apply list_elem_of_fmap. exists e. split; [auto|].
    apply list_elem_of_filter. auto.
Qed.

Lemma absentees_spec session_id roster events r :
  r ∈ absentees session_id roster events
  <-> r ∈ stu_roll_no <$> roster /\ events_for session_id r events = [].
Proof.
  unfold absentees.
  rewrite elem_of_elements, elem_of_difference, !elem_of_list_to_set.
  rewrite events_for_nil_iff. reflexivity.
Qed.

Lemma events_for_added session_id now (name : string -> string) r l :
  NoDup l ->
  events_for session_id r
    ((fun r' => DataService.absent_record session_id r' (name r') now) <$> l)
  = if decide (r ∈ l)
    then [DataService.absent_record session_id r (name r) now]
    else [].
Proof.
  unfold events_for. induction 1 as [|r' l Hnot Hnd IH].
  - destruct (decide (r ∈ [])) as [Hin|_]; [|reflexivity].
    by apply not_elem_of_nil in Hin.
  - rewrite fmap_cons, filter_cons, IH.
    destruct (decide (DataService.matches session_id r
                        (DataService.absent_record session_id r' (name r') now)))
      as [[_ Hr]|Hne]; simpl in *.
    + subst r'. destruct (decide (r ∈ l)) as [Hin|_]; [contradiction|].
      destruct (decide (r ∈ r :: l)) as [_|Hout]; [reflexivity|].
      exfalso. apply Hout. left.
    + destruct (decide (r ∈ l)) as [Hin|Hout].
      * destruct (decide (r ∈ r' :: l)) as [_|Hout']; [reflexivity|].
        exfalso. apply Hout'. by right.
      * destruct (decide (r ∈ r' :: l)) as [Hin'|_]; [|reflexivity].
        apply elem_of_cons in Hin' as [->|Hin']; [|contradiction].
        exfalso. apply Hne. split; reflexivity.
Qed.

(** The events of a pair after a backfill: untouched when there were
    some, one absent record when there were none and the student is on
    the roster. *)
Lemma events_for_backfilled session_id now roster events r :
  events_for session_id r (backfilled session_id now roster events)
  = events_for session_id r events
    ++ if decide (r ∈ absentees session_id roster events)
       then [DataService.absent_record session_id r (roster_name roster r) now]
       else [].
Proof.
  unfold backfilled, events_for at 1. rewrite filter_app. f_equal.
  apply (events_for_added session_id now (roster_name roster)).
  unfold absentees. apply NoDup_elements.
Qed.




(** Scenario A, after the close: the ledger holds S1 present by face and
    S2 absent by the backfill, and the statistics are 100.00 and 0.00
    percent over one day. *)
Example scenario_A_ledger_and_stats :
  let w' := snd (DataService.mark_absentees_auto Scenario.sid "CSH"
                   (Scenario.world (Scenario.minute 6) [Scenario.s1_present] OPEN []))
  in
  file_of attendance "CSH" w'
  = Some [Scenario.s1_present;
          DataService.absent_record Scenario.sid "CS21HCI002" "Ravi"
            (Scenario.minute 6)]
  /\ (fun t : list StatRecord =>
        (stat_roll_no <$> t, stat_present_days <$> t,
         stat_total_days <$> t, stat_attendance_pct <$> t))
       <$> file_of stats "CSH" w'
     = Some (["CS21HCI001"; "CS21HCI002"], [1; 0], [1; 1], [10000; 0]).
Proof. vm_compute. auto. Qed.

(** [mark_absentees_auto] never raises, and writes neither the session
    table nor the roster. *)
Lemma mark_absentees_auto_frame session_id b w :
  faults w = [] ->
  exists w', DataService.mark_absentees_auto session_id b w = (Returned tt, w')
             /\ sessions_kept w w'.
Proof.
  intros Hf.
  destruct (branch_dirs w !! b) as [f|] eqn:Hd.
  - destruct (students f) as [roster|] eqn:Hs.
    + destruct (attendance f) as [events|] eqn:Ha.
      * rewrite (mark_absentees_auto_ok session_id b w f roster events) by done.
        eexists. split; [reflexivity|].
        by apply (sessions_kept_with_branch b f).
      * exists w. split; [|apply sessions_kept_refl].
        unfold DataService.mark_absentees_auto, try_except.
        read_table roster.
        read_missing.
        reflexivity.
    + exists w. split; [|apply sessions_kept_refl].
      unfold DataService.mark_absentees_auto, try_except.
      read_missing.
      reflexivity.
  - exists w. split; [|apply sessions_kept_refl].
    unfold DataService.mark_absentees_auto, try_except.
    read_missing.
    reflexivity.
Qed.

(** ** [close_session] *)

Lemma close_row_id session_id s :
  ses_session_id (SessionService.close_row session_id s) = ses_session_id s.
Proof. unfold SessionService.close_row. by destruct (decide _). Qed.

Lemma close_row_ids session_id (rows : list Session) :
  ses_session_id <$> (SessionService.close_row session_id <$> rows)
  = ses_session_id <$> rows.
Proof.
  rewrite <- list_fmap_compose. apply list_fmap_ext.
  intros i s _. apply close_row_id.
Qed.

Lemma close_row_twice session_id (rows : list Session) :
  SessionService.close_row session_id <$> (SessionService.close_row session_id <$> rows)
  = SessionService.close_row session_id <$> rows.
Proof.
  rewrite <- list_fmap_compose. apply list_fmap_ext. intros i s _. simpl.
  unfold SessionService.close_row.
  destruct (decide (ses_session_id s = session_id)) as [E|E]; simpl.
  - rewrite decide_True by done. reflexivity.
  - rewrite decide_False by done. reflexivity.
Qed.

Lemma close_row_closed session_id (rows : list Session) s :
  s ∈ SessionService.close_row session_id <$> rows ->
  ses_session_id s = session_id -> ses_status s = CLOSED.
Proof.
  intros Hin Hid. apply list_elem_of_fmap in Hin as (s0 & -> & _).
  rewrite close_row_id in Hid. unfold SessionService.close_row.
  rewrite decide_True by done. reflexivity.
Qed.

Lemma session_known_iff session_id (rows : list Session) :
  Exists (fun s => ses_session_id s = session_id) rows
  <-> session_id ∈ ses_session_id <$> rows.
Proof.
  rewrite Exists_exists, list_elem_of_fmap. split.
  - intros (s & Hin & <-). eauto.
  - intros (s & -> & Hin). eauto.
Qed.

Lemma close_session_unknown session_id b teacher_id w rows :
  faults w = [] -> file_of sessions b w = Some rows ->
  session_id ∉ ses_session_id <$> rows ->
  SessionService.close_session session_id b teacher_id w = (Returned false, w).
Proof.
  intros Hf Hr Hnot. unfold SessionService.close_session, try_except.
  read_table rows.
  rewrite bool_decide_eq_false_2 by (by rewrite session_known_iff).
  reflexivity.
Qed.

Lemma close_session_no_table session_id b teacher_id w :
  faults w = [] -> file_of sessions b w = None ->
  SessionService.close_session session_id b teacher_id w = (Returned false, w).
Proof.
  intros Hf Hr. unfold SessionService.close_session, try_except.
  read_missing.
  reflexivity.
Qed.

Lemma close_session_found session_id b teacher_id w f rows :
  faults w = [] -> branch_dirs w !! b = Some f -> sessions f = Some rows ->
  session_id ∈ ses_session_id <$> rows ->
  SessionService.close_session session_id b teacher_id w
  = (Returned true,
     snd (DataService.mark_absentees_auto session_id b
            (with_branch b
               (set_sessions (SessionService.close_row session_id <$> rows) f) w))).
Proof.
  intros Hf Hd Hr Hin. unfold SessionService.close_session, try_except.
  read_table rows.
  rewrite bool_decide_eq_true_2 by (by rewrite session_known_iff).
  cbn [negb].
  rewrite (bind_returned _ _ w tt
             (with_branch b
                (set_sessions (SessionService.close_row session_id <$> rows) f) w))
    by (by apply to_csv_ok).
  destruct (mark_absentees_auto_frame session_id b
              (with_branch b
                 (set_sessions (SessionService.close_row session_id <$> rows) f) w))
    as (w' & E & _); [done|].
  rewrite (bind_returned _ _ _ tt w' E). rewrite E. reflexivity.
Qed.

(** The session table after a close that found the session. *)
Lemma close_session_table session_id b teacher_id w rows :
  faults w = [] -> file_of sessions b w = Some rows ->
  session_id ∈ ses_session_id <$> rows ->
  let w' := snd (SessionService.close_session session_id b teacher_id w) in
  fst (SessionService.close_session session_id b teacher_id w) = Returned true
  /\ file_of sessions b w' = Some (SessionService.close_row session_id <$> rows)
  /\ (forall b', b' <> b -> file_of sessions b' w' = file_of sessions b' w)
  /\ faults w' = [] /\ clock w' = clock w /\ branches_csv w' = branches_csv w.
Proof.
  intros Hf Hr Hin. unfold file_of in Hr.
  destruct (branch_dirs w !! b) as [f|] eqn:Hd; [|done].
  rewrite (close_session_found session_id b teacher_id w f rows) by done.
  simpl.
  destruct (mark_absentees_auto_frame session_id b
              (with_branch b
                 (set_sessions (SessionService.close_row session_id <$> rows) f) w))
    as (w' & E & (Kf & Kc & Kb & Kfiles)); [done|].
  rewrite E. simpl. split; [reflexivity|]. split; [|split; [|split; [|split]]].
  - destruct (Kfiles b) as [-> _]. by rewrite file_of_with_branch.
  - intros b' Hne. destruct (Kfiles b') as [-> _].
    unfold file_of. by rewrite dirs_with_branch_ne.
  - by rewrite Kf.
  - by rewrite Kc.
  - by rewrite Kb.
Qed.

(** C5: with the session table readable, [close_session] returns false
    and changes nothing when no row carries the session id; when a row
    does, every row with that id gets status closed whatever it was, the
    backfill [mark_absentees_auto] is then run on that world, and the
    result is true; a second close, at any later time, returns true again
    and leaves the table as the first close left it. *)
Theorem close_session_behaviour session_id b teacher_id w :
  faults w = [] ->
  (forall rows, file_of sessions b w = Some rows ->
     session_id ∉ ses_session_id <$> rows ->
     SessionService.close_session session_id b teacher_id w = (Returned false, w))
  /\ (forall f rows, branch_dirs w !! b = Some f -> sessions f = Some rows ->
        session_id ∈ ses_session_id <$> rows ->
        let closed := SessionService.close_row session_id <$> rows in
        let w' := snd (SessionService.close_session session_id b teacher_id w) in
        SessionService.close_session session_id b teacher_id w
        = (Returned true,
           snd (DataService.mark_absentees_auto session_id b
                  (with_branch b (set_sessions closed f) w)))
        /\ file_of sessions b w' = Some closed
        /\ (forall s, s ∈ closed -> ses_session_id s = session_id ->
                      ses_status s = CLOSED)
        /\ (forall now' teacher_id',
              fst (SessionService.close_session session_id b teacher_id'
                     (set_clock now' w')) = Returned true
              /\ file_of sessions b
                   (snd (SessionService.close_session session_id b teacher_id'
                           (set_clock now' w')))
                 = Some closed)).
Proof.
  intros Hf. split.
  - intros rows Hr Hnot. by apply close_session_unknown with rows.
  - intros f rows Hd Hr Hin closed w'.
    assert (Hfile : file_of sessions b w = Some rows)
      by (by rewrite (file_of_dir _ _ f)).
    destruct (close_session_table session_id b teacher_id w rows Hf Hfile Hin)
      as (_ & Htable & _ & Hf' & _ & _).
    fold w' in Htable, Hf'. fold closed in Htable.
    split; [by apply close_session_found|].
    split; [exact Htable|].
    split; [intros s; apply close_row_closed|].
    intros now' teacher_id'.
    assert (Hin' : session_id ∈ ses_session_id <$> closed)
      by (unfold closed; by rewrite close_row_ids).
    destruct (close_session_table session_id b teacher_id' (set_clock now' w')
                closed Hf' Htable Hin') as (Hret & Htable' & _).
    split; [exact Hret|].
    rewrite Htable'. unfold closed. by rewrite close_row_twice.
Qed.

Lemma close_session_behaviour_witness :
  (forall rows,
     file_of sessions "CSH"
       (Scenario.world (Scenario.minute 3) [Scenario.s1_present] OPEN [])
     = Some rows ->
     "S_unknown" ∉ ses_session_id <$> rows ->
     SessionService.close_session "S_unknown" "CSH" "T001"
       (Scenario.world (Scenario.minute 3) [Scenario.s1_present] OPEN [])
     = (Returned false,
        Scenario.world (Scenario.minute 3) [Scenario.s1_present] OPEN []))
  /\ fst (SessionService.close_session Scenario.sid "CSH" "T001"
            (Scenario.world (Scenario.minute 3) [Scenario.s1_present] OPEN []))
     = Returned true.
Proof.
  split.
  - apply (close_session_behaviour "S_unknown" "CSH" "T001"
             (Scenario.world (Scenario.minute 3) [Scenario.s1_present] OPEN [])).
    reflexivity.
  - destruct (close_session_behaviour Scenario.sid "CSH" "T001"
                (Scenario.world (Scenario.minute 3) [Scenario.s1_present] OPEN [])
                eq_refl) as [_ Hfound].
    destruct (Hfound (Scenario.csh [Scenario.s1_present] OPEN)
                [Scenario.the_session OPEN] eq_refl eq_refl) as [E _].
    + apply list_elem_of_here.
    + rewrite E. reflexivity.
Defined.

(** ** [manual_override_attendance] *)

Lemma not_roster_finds w roster r :
  ~ roster_finds w roster r
  <-> r ∉ stu_roll_no <$> roster
      ∨ reads_as_text w (stu_roll_no <$> roster) r = false.
Proof.
  unfold roster_finds. split.
  - intros Hnot. destruct (decide (r ∈ stu_roll_no <$> roster)); [|by left].
    right. destruct (reads_as_text w (stu_roll_no <$> roster) r); [|done].
    by destruct Hnot.
  - intros [Hout|Hno] [Hin Ht]; [done | congruence].
Qed.

Lemma manual_override_unknown session_id r b st teacher_id reason w f roster :
  faults w = [] -> branch_dirs w !! b = Some f -> students f = Some roster ->
  ~ roster_finds w roster r ->
  DataService.manual_override_attendance session_id r b st teacher_id reason w
  = (Returned false, w).
Proof.
  intros Hf Hd Hs Hnot. unfold DataService.manual_override_attendance, try_except.
  read_table roster. rewrite bind_observe.
  rewrite roster_lookup_missed by (by apply not_roster_finds).
  reflexivity.
Qed.

Lemma manual_override_ok session_id r b st teacher_id reason w f roster events :
  faults w = [] -> branch_dirs w !! b = Some f ->
  students f = Some roster -> attendance f = Some events ->
  r ∈ stu_roll_no <$> roster ->
  text_key (reads_as_text w) session_id -> text_key (reads_as_text w) r ->
  DataService.manual_override_attendance session_id r b st teacher_id reason w
  = (Returned true,
     let events' := overridden session_id r st (clock w) teacher_id roster events in
     with_branch b
       (set_stats (recomputed_stats roster events') (set_attendance events' f)) w).
Proof.
  intros Hf Hd Hs Ha Hin Hsid Hr.
  unfold DataService.manual_override_attendance, try_except.
  read_table roster. rewrite bind_observe.
  rewrite roster_lookup_found by (by apply Hr).
  destruct (roster_filter_nonempty roster r Hin) as (s0 & rest & E & _).
  rewrite E.
  read_table events.
  rewrite (bind_returned _ _ w
             (overridden session_id r st (clock w) teacher_id roster events) w).
  2:{ unfold overridden, roster_name. rewrite E.
      rewrite (bool_decide_ext _ _ (Exists_mask _ events session_id r Hsid Hr)).
      destruct (bool_decide (Exists (DataService.matches session_id r) events));
        [|reflexivity].
      unfold bind, Utils.get_current_time, ret.
      by rewrite override_row_mask. }
  rewrite (bind_returned _ _ w tt
             (with_branch b
                (set_attendance
                   (overridden session_id r st (clock w) teacher_id roster events)
                   f) w))
    by (by apply to_csv_ok).
  rewrite (bind_returned _ _ _ tt
             (with_branch b
                (set_stats
                   (recomputed_stats roster
                      (overridden session_id r st (clock w) teacher_id roster events))
                   (set_attendance
                      (overridden session_id r st (clock w) teacher_id roster events)
                      f)) w)).
  - reflexivity.
  - rewrite (update_stats_ok b _
               (set_attendance
                  (overridden session_id r st (clock w) teacher_id roster events) f)
               roster
               (overridden session_id r st (clock w) teacher_id roster events));
      try done.
    + by rewrite with_branch_twice.
    + apply dirs_with_branch.
Qed.

Lemma override_row_matches session_id r st now teacher_id e :
  DataService.matches session_id r
    (DataService.override_row (DataService.matches session_id r) st now
       teacher_id e)
  <-> DataService.matches session_id r e.
Proof.
  unfold DataService.override_row.
  destruct (decide (DataService.matches session_id r e)) as [Hm|Hm]; [|done].
  unfold DataService.matches in *. simpl. tauto.
Qed.

Lemma events_for_override session_id r st now teacher_id events :
  events_for session_id r
    (DataService.override_row (DataService.matches session_id r) st now
       teacher_id <$> events)
  = DataService.override_row (DataService.matches session_id r) st now
       teacher_id
      <$> events_for session_id r events.
Proof.
  unfold events_for. induction events as [|e events IH]; [reflexivity|].
  rewrite fmap_cons, !filter_cons, IH.
  destruct (decide (DataService.matches session_id r e)) as [Hm|Hm].
  - rewrite decide_True by (by apply override_row_matches). reflexivity.
  - rewrite decide_False by (by rewrite override_row_matches). reflexivity.
Qed.

Lemma override_row_status session_id r st now teacher_id e :
  DataService.matches session_id r e ->
  let e' := DataService.override_row (DataService.matches session_id r) st now
       teacher_id e in
  ev_status e' = st /\ ev_method e' = MANUAL /\ ev_marked_by e' = teacher_id
  /\ ev_marked_at e' = now.
Proof.
  intros Hm. simpl. unfold DataService.override_row.
  rewrite decide_True by done. simpl. auto.
Qed.

Lemma exists_match_iff session_id r events :
  Exists (DataService.matches session_id r) events
  <-> events_for session_id r events <> [].
Proof.
  unfold events_for. rewrite Exists_exists. split.
  - intros (e & Hin & Hm) Hnil.
    assert (He : e ∈ filter (DataService.matches session_id r) events)
      by (apply list_elem_of_filter; auto).
    rewrite Hnil in He. by apply not_elem_of_nil in He.
  - intros Hne.
    destruct (filter (DataService.matches session_id r) events) as [|e rest] eqn:E;
      [done|].
    assert (He : e ∈ filter (DataService.matches session_id r) events)
      by (rewrite E; left).
    apply list_elem_of_filter in He as [Hm Hin]. eauto.
Qed.

(** One override leaves exactly one event for a pair that had at most
    one: the old one rewritten in place, or a new one at the end. *)
Lemma events_for_overridden session_id r st now teacher_id roster events :
  (length (events_for session_id r events) <= 1)%nat ->
  exists e,
    events_for session_id r
      (overridden session_id r st now teacher_id roster events) = [e]
    /\ ev_status e = st /\ ev_method e = MANUAL
    /\ (events_for session_id r events <> [] ->
        length (overridden session_id r st now teacher_id roster events)
        = length events)
    /\ (events_for session_id r events = [] ->
        overridden session_id r st now teacher_id roster events = events ++ [e]).
Proof.
  intros Hle. unfold overridden.
  destruct (bool_decide (Exists (DataService.matches session_id r) events)) eqn:B.
  - apply bool_decide_eq_true_1, exists_match_iff in B.
    rewrite events_for_override.
    destruct (events_for session_id r events) as [|e0 [|e1 rest]] eqn:E;
      [done | | simpl in Hle; lia].
    assert (Hm : DataService.matches session_id r e0).
    { assert (He : e0 ∈ events_for session_id r events) by (rewrite E; left).
      unfold events_for in He. by apply list_elem_of_filter in He as [? _]. }
    destruct (override_row_status session_id r st now teacher_id e0 Hm)
      as (Hst & Hme & _).
    eexists. split; [reflexivity|]. split; [exact Hst|]. split; [exact Hme|].
    split; [intros _; apply length_fmap | intros Hnil; done].
  - apply bool_decide_eq_false_1 in B.
    assert (Hnil : events_for session_id r events = []).
    { destruct (events_for session_id r events) eqn:E; [reflexivity|].
      exfalso. apply B, exists_match_iff. by rewrite E. }
    unfold events_for at 1. rewrite filter_app. fold (events_for session_id r events).
    rewrite Hnil, filter_cons, decide_True by (split; reflexivity).
    rewrite filter_nil. simpl.
    eexists. split; [reflexivity|]. simpl. split; [reflexivity|].
    split; [reflexivity|]. split; [intros Hne; done | intros _; reflexivity].
Qed.

Lemma manual_override_found session_id r b st teacher_id reason w f roster events :
  faults w = [] -> branch_dirs w !! b = Some f ->
  students f = Some roster -> attendance f = Some events ->
  roster_finds w roster r ->
  fst (DataService.manual_override_attendance session_id r b st teacher_id
         reason w) = Returned true.
Proof.
  intros Hf Hd Hs Ha [Hin Ht].
  unfold DataService.manual_override_attendance, try_except.
  read_table roster. rewrite bind_observe.
  rewrite roster_lookup_found by done.
  destruct (roster_filter_nonempty roster r Hin) as (s0 & rest & E & _).
  rewrite E.
  read_table events.
  assert (Htail : forall events',
            (run to_csv set_attendance b events' then
             run DataService.update_stats b then ret true) w
            = (Returned true,
               with_branch b
                 (set_stats (recomputed_stats roster events')
                    (set_attendance events' f)) w)).
  { intros events'.
    rewrite (bind_returned _ _ w tt (with_branch b (set_attendance events' f) w))
      by (by apply to_csv_ok).
    rewrite (bind_returned _ _ _ tt
               (with_branch b
                  (set_stats (recomputed_stats roster events')
                     (set_attendance events' f)) w)); [reflexivity|].
    rewrite (update_stats_ok b _ (set_attendance events' f) roster events');
      [by rewrite with_branch_twice | done | apply dirs_with_branch | done | done]. }
  destruct (bool_decide _);
    unfold bind at 1; unfold bind at 1, Utils.get_current_time, ret at 1;
    rewrite Htail; reflexivity.
Qed.

(** C8, amended: with the roster and the ledger readable,
    [manual_override_attendance] returns false exactly when its roster
    lookup finds no row: the roll number is not on the roster, or its cell
    is read back as something other than text (an all-digit or NA-like
    roll number); and for a roster student whose roll number and session
    id come back as text, with at most one event for the pair, two
    overrides with the same status (the second at any later time, by any
    teacher) both return true and each leaves exactly one event for the
    pair, with that status and method manual: the first rewrites the
    existing row in place, or appends a row when there was none, and the
    second rewrites in place. *)
Theorem manual_override_idempotent session_id r b st teacher_id reason
    w f roster events :
  faults w = [] -> branch_dirs w !! b = Some f ->
  students f = Some roster -> attendance f = Some events ->
  (fst (DataService.manual_override_attendance session_id r b st teacher_id
          reason w) = Returned false
   <-> r ∉ stu_roll_no <$> roster
       ∨ reads_as_text w (stu_roll_no <$> roster) r = false)
  /\ (r ∈ stu_roll_no <$> roster ->
      text_key (reads_as_text w) session_id -> text_key (reads_as_text w) r ->
      (length (events_for session_id r events) <= 1)%nat ->
      forall now2 teacher2 reason2,
        let w1 := snd (DataService.manual_override_attendance session_id r b st
                         teacher_id reason w) in
        let second := DataService.manual_override_attendance session_id r b st
                        teacher2 reason2 (set_clock now2 w1) in
        fst (DataService.manual_override_attendance session_id r b st teacher_id
               reason w) = Returned true
        /\ fst second = Returned true
        /\ exists events1 events2 e1 e2,
             file_of attendance b w1 = Some events1
             /\ file_of attendance b (snd second) = Some events2
             /\ events_for session_id r events1 = [e1]
             /\ ev_status e1 = st /\ ev_method e1 = MANUAL
             /\ events_for session_id r events2 = [e2]
             /\ ev_status e2 = st /\ ev_method e2 = MANUAL
             /\ (events_for session_id r events <> [] ->
                 length events1 = length events)
             /\ (events_for session_id r events = [] -> events1 = events ++ [e1])
             /\ length events2 = length events1).
Proof.
  intros Hf Hd Hs Ha. split.
  - rewrite <- not_roster_finds.
    destruct (decide (roster_finds w roster r)) as [Hfinds|Hmiss].
    + rewrite (manual_override_found session_id r b st teacher_id reason w f
                 roster events) by done.
      split; [discriminate | contradiction].
    + rewrite (manual_override_unknown session_id r b st teacher_id reason w f
                 roster) by done.
      simpl. split; auto.
  - intros Hin Hsid Hr Hle now2 teacher2 reason2.
    rewrite (manual_override_ok session_id r b st teacher_id reason w f
               roster events) by done.
    cbn [fst snd].
    set (events1 := overridden session_id r st (clock w) teacher_id roster events).
    set (f1 := set_stats (recomputed_stats roster events1)
                 (set_attendance events1 f)).
    destruct (events_for_overridden session_id r st (clock w) teacher_id roster
                events Hle) as (e1 & E1 & Hst1 & Hme1 & Hplace & Happ).
    fold events1 in E1, Hplace, Happ.
    rewrite (manual_override_ok session_id r b st teacher2 reason2
               (set_clock now2 (with_branch b f1 w)) f1 roster events1);
      [| done | apply dirs_with_branch | done | done | done
       | exact Hsid | exact Hr].
    cbn [fst snd].
    set (events2 := overridden session_id r st
                      (clock (set_clock now2 (with_branch b f1 w)))
                      teacher2 roster events1).
    destruct (events_for_overridden session_id r st
                (clock (set_clock now2 (with_branch b f1 w))) teacher2 roster
                events1) as (e2 & E2 & Hst2 & Hme2 & Hplace2 & _).
    { rewrite E1. simpl. lia. }
    fold events2 in E2, Hplace2.
    split; [reflexivity|]. split; [reflexivity|].
    exists events1, events2, e1, e2.
    split; [by rewrite file_of_with_branch|].
    split; [by rewrite file_of_with_branch|].
    repeat (split; [assumption|]).
    apply Hplace2. by rewrite E1.
Qed.

Lemma manual_override_idempotent_witness :
  (fst (DataService.manual_override_attendance Scenario.sid "CS21HCI002" "CSH"
          PRESENT "T001" None
          (Scenario.world (Scenario.minute 7) [Scenario.s1_present] CLOSED []))
   = Returned false
   <-> "CS21HCI002" ∉ stu_roll_no <$> [Scenario.s1; Scenario.s2]
       ∨ Scenario.read_as_text (stu_roll_no <$> [Scenario.s1; Scenario.s2])
           "CS21HCI002" = false)
  /\ fst (DataService.manual_override_attendance Scenario.sid "CS21HCI002" "CSH"
            PRESENT "T001" None
            (Scenario.world (Scenario.minute 7) [Scenario.s1_present] CLOSED []))
     = Returned true.
Proof.
  destruct (manual_override_idempotent Scenario.sid "CS21HCI002" "CSH" PRESENT
              "T001" None
              (Scenario.world (Scenario.minute 7) [Scenario.s1_present] CLOSED [])
              (Scenario.csh [Scenario.s1_present] CLOSED)
              [Scenario.s1; Scenario.s2] [Scenario.s1_present]
              eq_refl eq_refl eq_refl eq_refl) as [Hiff Htwice].
  split; [exact Hiff|].
  assert (Hin : "CS21HCI002" ∈ stu_roll_no <$> [Scenario.s1; Scenario.s2])
    by (simpl; right; left).
  assert (Hle : (length (events_for Scenario.sid "CS21HCI002"
                           [Scenario.s1_present]) <= 1)%nat)
    by (vm_compute; lia).
  assert (Hsid : text_key Scenario.read_as_text Scenario.sid)
    by (by apply scenario_text_key).
  assert (Hr : text_key Scenario.read_as_text "CS21HCI002")
    by (by apply scenario_text_key).
  apply (Htwice Hin Hsid Hr Hle (Scenario.minute 8) "T002" None).
Defined.

(** C8 as stated fails: a roll number written in digits is on the roster,
    and the override returns false for it and writes nothing, because the
    roll number column is read back as numbers. *)
Lemma override_misses_numbered_student :
  let w := Scenario.numbered (Scenario.minute 7) [] [] in
  "101" ∈ stu_roll_no <$> [Scenario.n1; Scenario.n2]
  /\ file_of students "CSH" w = Some [Scenario.n1; Scenario.n2]
  /\ DataService.manual_override_attendance Scenario.sid "101" "CSH" PRESENT
       "T001" None w
     = (Returned false, w).
Proof.
  split; [simpl; left|]. split; reflexivity.
Qed.

(** ** [DataService.mark_attendance] and [is_already_marked] *)

Lemma ensure_branch_structure_existing b w f :
  branch_dirs w !! b = Some f ->
  Utils.ensure_branch_structure b w = (Returned tt, with_branch b (ensured f) w).
Proof. intros Hd. unfold Utils.ensure_branch_structure. rewrite Hd. reflexivity. Qed.

(** [DataService.mark_attendance] has no duplicate check of its own: for
    a student whom the roster lookup finds it appends a present event,
    whatever the ledger already holds. *)
Lemma mark_attendance_appends session_id r b how marked_by w f roster events :
  faults w = [] -> branch_dirs w !! b = Some f ->
  students f = Some roster -> attendance f = Some events ->
  roster_finds w roster r ->
  DataService.mark_attendance session_id r b how marked_by w
  = (Returned true,
     let events' :=
       events ++ [present_record session_id r roster (clock w) how marked_by] in
     with_branch b
       (set_stats (recomputed_stats roster events')
          (set_attendance events' (ensured f))) w).
Proof.
  intros Hf Hd Hs Ha [Hin Ht]. unfold DataService.mark_attendance, try_except.
  rewrite (bind_returned _ _ w tt (with_branch b (ensured f) w))
    by (by apply ensure_branch_structure_existing).
  assert (Hs' : students (ensured f) = Some roster) by (simpl; by rewrite Hs).
  assert (Ha' : attendance (ensured f) = Some events) by (simpl; by rewrite Ha).
  rewrite (bind_returned _ _ _ roster (with_branch b (ensured f) w))
    by (apply read_csv_ok; [done | by rewrite file_of_with_branch]).
  rewrite bind_observe. cbn [reads_as_text with_branch set_dirs].
  rewrite roster_lookup_found by done.
  destruct (roster_filter_nonempty roster r Hin) as (s0 & rest & E & _).
  rewrite E.
  rewrite (bind_returned _ _ _ (clock w) (with_branch b (ensured f) w))
    by reflexivity.
  rewrite (bind_returned _ _ _ events (with_branch b (ensured f) w))
    by (apply read_csv_ok; [done | by rewrite file_of_with_branch]).
  assert (Hrec : {| ev_session_id := session_id; ev_roll_no := r;
                    ev_name := stu_name s0; ev_status := PRESENT;
                    ev_marked_at := clock w; ev_method := how;
                    ev_marked_by := marked_by |}
                 = present_record session_id r roster (clock w) how marked_by).
  { unfold present_record, roster_name. by rewrite E. }
  rewrite Hrec.
  set (events' := events ++ [present_record session_id r roster (clock w) how marked_by]).
  rewrite (bind_returned _ _ _ tt
             (with_branch b (set_attendance events' (ensured f)) w)).
  2:{ rewrite (to_csv_ok _ _ _ _ (ensured f)) by apply dirs_with_branch.
      by rewrite with_branch_twice. }
  rewrite (bind_returned _ _ _ tt
             (with_branch b
                (set_stats (recomputed_stats roster events')
                   (set_attendance events' (ensured f))) w)).
  - reflexivity.
  - rewrite (update_stats_ok b _ (set_attendance events' (ensured f)) roster events');
      try done.
    + by rewrite with_branch_twice.
    + apply dirs_with_branch.
Qed.

Lemma is_already_marked_run session_id r b w events :
  faults w = [] -> file_of attendance b w = Some events ->
  DataService.is_already_marked session_id r b w
  = (Returned
       (negb (bool_decide
                (filter (DataService.mask (reads_as_text w) events session_id r)
                   events = []))), w).
Proof.
  intros Hf Ha. unfold DataService.is_already_marked, try_except.
  rewrite bind_path_exists, Ha.
  rewrite bool_decide_eq_true_2 by eauto. cbn [negb].
  read_table events.
  reflexivity.
Qed.

Lemma is_already_marked_ok session_id r b w events :
  faults w = [] -> file_of attendance b w = Some events ->
  text_key (reads_as_text w) session_id -> text_key (reads_as_text w) r ->
  DataService.is_already_marked session_id r b w
  = (Returned (negb (bool_decide (events_for session_id r events = []))), w).
Proof.
  intros Hf Ha Hsid Hr. rewrite (is_already_marked_run _ _ _ _ events) by done.
  unfold events_for. by rewrite filter_mask.
Qed.

(** A pair without a row is not marked, however the keys are read. *)
Lemma is_already_marked_none session_id r b w events :
  faults w = [] -> file_of attendance b w = Some events ->
  events_for session_id r events = [] ->
  DataService.is_already_marked session_id r b w = (Returned false, w).
Proof.
  intros Hf Ha Hnone. rewrite (is_already_marked_run _ _ _ _ events) by done.
  rewrite filter_mask_nil by done. reflexivity.
Qed.

Lemma is_already_marked_no_file session_id r b w :
  file_of attendance b w = None ->
  DataService.is_already_marked session_id r b w = (Returned false, w).
Proof.
  intros Ha. unfold DataService.is_already_marked, try_except.
  rewrite bind_path_exists, Ha.
  rewrite bool_decide_eq_false_2 by (intros [? ?]; done). reflexivity.
Qed.

Lemma is_already_marked_read_fault session_id r b w events fs :
  file_of attendance b w = Some events -> faults w = true :: fs ->
  DataService.is_already_marked session_id r b w
  = (Returned false, set_faults fs w).
Proof.
  intros Ha Hf. unfold DataService.is_already_marked, try_except.
  rewrite bind_path_exists, Ha.
  rewrite bool_decide_eq_true_2 by eauto. cbn [negb].
  rewrite (bind_raised _ _ w OSError (set_faults fs w)) by (by apply read_csv_fault).
  reflexivity.
Qed.

(** C10, amended: [is_already_marked] answers false when the attendance
    file does not exist and when reading it raises; so when the read of
    the guard fails and the later reads succeed, the guard lets the mark
    through, and for a student whom the roster lookup finds (on the roster,
    the roll number read back as text) [DataService.mark_attendance]
    appends a second event for a pair that already has one and returns
    true: no error surfaces. *)
Theorem duplicate_guard_fails_open session_id r b w :
  (file_of attendance b w = None ->
   fst (DataService.is_already_marked session_id r b w) = Returned false)
  /\ (forall fs, faults w = true :: fs ->
        fst (DataService.is_already_marked session_id r b w) = Returned false)
  /\ (forall f roster events how marked_by,
        faults w = [true] -> branch_dirs w !! b = Some f ->
        students f = Some roster -> attendance f = Some events ->
        roster_finds w roster r ->
        events_for session_id r events <> [] ->
        let w1 := snd (DataService.is_already_marked session_id r b w) in
        let marking := DataService.mark_attendance session_id r b how marked_by w1 in
        fst (DataService.is_already_marked session_id r b w) = Returned false
        /\ fst marking = Returned true
        /\ exists e,
             file_of attendance b (snd marking) = Some (events ++ [e])
             /\ DataService.matches session_id r e
             /\ ev_status e = PRESENT
             /\ length (events_for session_id r (events ++ [e]))
                = S (length (events_for session_id r events))).
Proof.
  split; [|split].
  - intros Ha. by rewrite is_already_marked_no_file.
  - intros fs Hf. destruct (file_of attendance b w) as [events|] eqn:Ha.
    + by rewrite (is_already_marked_read_fault session_id r b w events fs).
    + by rewrite is_already_marked_no_file.
  - intros f roster events how marked_by Hf Hd Hs Ha Hin Hmarked w1 marking.
    assert (Hfile : file_of attendance b w = Some events)
      by (by rewrite (file_of_dir _ _ f)).
    unfold marking, w1.
    rewrite (is_already_marked_read_fault session_id r b w events []) by done.
    cbn [fst snd].
    rewrite (mark_attendance_appends session_id r b how marked_by
               (set_faults [] w) f roster events) by done.
    cbn [fst snd]. split; [reflexivity|]. split; [reflexivity|].
    eexists. split; [by rewrite file_of_with_branch|].
    split; [split; reflexivity|]. split; [reflexivity|].
    unfold events_for. rewrite filter_app, filter_cons.
    rewrite decide_True by (split; reflexivity).
    rewrite filter_nil, length_app. simpl. lia.
Qed.

Lemma duplicate_guard_fails_open_witness :
  let w := Scenario.world (Scenario.minute 2) [Scenario.s1_present] OPEN [true] in
  let w1 := snd (DataService.is_already_marked Scenario.sid "CS21HCI001" "CSH" w) in
  let marking :=
    DataService.mark_attendance Scenario.sid "CS21HCI001" "CSH" FACE "student" w1 in
  fst (DataService.is_already_marked Scenario.sid "CS21HCI001" "CSH" w)
  = Returned false
  /\ fst marking = Returned true
  /\ exists e,
       file_of attendance "CSH" (snd marking) = Some ([Scenario.s1_present] ++ [e])
       /\ DataService.matches Scenario.sid "CS21HCI001" e
       /\ ev_status e = PRESENT
       /\ length (events_for Scenario.sid "CS21HCI001" ([Scenario.s1_present] ++ [e]))
          = S (length (events_for Scenario.sid "CS21HCI001" [Scenario.s1_present])).
Proof.
  destruct (duplicate_guard_fails_open Scenario.sid "CS21HCI001" "CSH"
              (Scenario.world (Scenario.minute 2) [Scenario.s1_present] OPEN [true]))
    as (_ & _ & Hopen).
  apply (Hopen (Scenario.csh [Scenario.s1_present] OPEN)
           [Scenario.s1; Scenario.s2] [Scenario.s1_present] FACE "student");
    try reflexivity.
  - split; [simpl; left | reflexivity].
  - vm_compute. discriminate.
Defined.

(** C10 as stated fails: the pair of a student whose roll number is
    written in digits has an event (from the backfill), the guard's read
    fails and the guard answers false, and yet the mark that follows
    appends nothing: the roster lookup of [DataService.mark_attendance]
    does not find the student, and it returns false. *)
Lemma guard_open_mark_refused :
  let w := Scenario.numbered (Scenario.minute 7) [Scenario.n1_absent] [true] in
  let w1 := snd (DataService.is_already_marked Scenario.sid "101" "CSH" w) in
  let marking :=
    DataService.mark_attendance Scenario.sid "101" "CSH" FACE "student" w1 in
  "101" ∈ stu_roll_no <$> [Scenario.n1; Scenario.n2]
  /\ events_for Scenario.sid "101" [Scenario.n1_absent] = [Scenario.n1_absent]
  /\ fst (DataService.is_already_marked Scenario.sid "101" "CSH" w)
     = Returned false
  /\ fst marking = Returned false
  /\ file_of attendance "CSH" (snd marking) = Some [Scenario.n1_absent].
Proof.
  split; [simpl; left|]. repeat split; reflexivity.
Qed.

(** ** The endpoints that look the session up with [get_session] *)

Lemma read_csv_quiet {A} (get : BranchFiles -> option (list A)) b w :
  faults w = [] -> snd (read_csv get b w) = w.
Proof.
  intros Hf. unfold read_csv. rewrite (next_fault_quiet w Hf).
  by destruct (file_of get b w).
Qed.

Lemma get_session_loop_quiet session_id branches w :
  faults w = [] ->
  SessionService.get_session_loop session_id branches w = (Returned None, w)
  \/ exists e, SessionService.get_session_loop session_id branches w = (Raised e, w).
Proof.
  intros Hf. induction branches as [|branch rest IH]; simpl.
  - left. reflexivity.
  - rewrite bind_path_exists.
    destruct (bool_decide (is_Some (file_of sessions (br_branch_code branch) w)));
      [|exact IH].
    right. unfold bind.
    pose proof (read_csv_quiet sessions (br_branch_code branch) w Hf) as Hq.
    destruct (read_csv sessions (br_branch_code branch) w) as [[rows|e] w'];
      simpl in Hq; subst w'.
    + exists TypeError. reflexivity.
    + exists e. reflexivity.
Qed.

Lemma get_session_quiet session_id w :
  faults w = [] -> SessionService.get_session session_id w = (Returned None, w).
Proof.
  intros Hf. unfold SessionService.get_session, try_except, bind.
  unfold read_branches. rewrite (next_fault_quiet w Hf).
  destruct (branches_csv w) as [branches|]; [|reflexivity].
  destruct (get_session_loop_quiet session_id branches w Hf) as [->|[e ->]];
    reflexivity.
Qed.

Section EndpointFacts.
Variable strftime : datetime -> string.
Variable recognize_face : World -> string -> string -> option string.
Variable decode_qr_data : World -> string -> string -> option string.

(** Every well-formed marking request is answered 404: the ledger and
    the session-active check are never reached. *)
Lemma api_mark_not_found form w :
  form_method form = "face" \/ form_method form = "qr" ->
  exists w',
    Api.mark_attendance recognize_face decode_qr_data form w
    = (Raised (HTTPException 404 "Session not found"), w')
    /\ (faults w = [] -> w' = w).
Proof.
  intros Hm. unfold Api.mark_attendance.
  assert (Hv : bool_decide (form_method form = "face")
               || bool_decide (form_method form = "qr") = true).
  { destruct Hm as [->| ->]; reflexivity. }
  rewrite Hv. cbn [negb].
  destruct (get_session_always_None (form_session_id form) w) as [w' E].
  exists w'. rewrite (bind_returned _ _ w None w' E). split; [reflexivity|].
  intros Hf. rewrite (get_session_quiet _ w Hf) in E. congruence.
Qed.

(** So is every override request. *)
Lemma api_override_not_found override_data current_teacher w :
  exists w',
    Api.manual_override override_data current_teacher w
    = (Raised (HTTPException 404 "Session not found"), w')
    /\ (faults w = [] -> w' = w).
Proof.
  unfold Api.manual_override.
  destruct (get_session_always_None (mo_session_id override_data) w) as [w' E].
  exists w'. rewrite (bind_returned _ _ w None w' E). split; [reflexivity|].
  intros Hf. rewrite (get_session_quiet _ w Hf) in E. congruence.
Qed.

End EndpointFacts.

(** ** [is_session_active] *)

Lemma is_session_active_ok session_id b w rows :
  faults w = [] -> file_of sessions b w = Some rows ->
  Utils.is_session_active session_id b w
  = (Returned
       match filter (fun s => ses_session_id s = session_id) rows with
       | [] => false
       | session_data :: _ =>
           bool_decide (ses_status session_data = OPEN)
           && (clock w <? ses_deadline_time session_data)
       end, w).
Proof.
  intros Hf Hr. unfold Utils.is_session_active, try_except.
  read_table rows.
  destruct (filter (fun s => ses_session_id s = session_id) rows) as [|s rest];
    [reflexivity|].
  destruct (bool_decide (ses_status s = OPEN)); reflexivity.
Qed.

(** The check is read-only: whatever it answers, the files and the clock
    are as before. *)
Lemma is_session_active_read_only session_id b w :
  exists r, Utils.is_session_active session_id b w
            = (Returned r, snd (next_fault w)).
Proof.
  unfold Utils.is_session_active, try_except, bind, read_csv.
  destruct (next_fault w) as [[|] w']; simpl.
  - eexists. reflexivity.
  - destruct (file_of sessions b w') as [rows|]; [|eexists; reflexivity].
    destruct (filter (fun s => ses_session_id s = session_id) rows) as [|s rest];
      [eexists; reflexivity|].
    destruct (bool_decide (ses_status s = OPEN)); eexists; reflexivity.
Qed.

(** ** [mark_attendance] once the session is found *)

Section MarkFacts.
Variable recognize_face : World -> string -> string -> option string.
Variable decode_qr_data : World -> string -> string -> option string.

(** A session that is not open, or whose deadline has passed, is turned
    away by the check of the endpoint, and nothing is written. *)
Lemma mark_in_inactive_session form session w rows s rest :
  faults w = [] ->
  file_of sessions (ses_branch_code session) w = Some rows ->
  filter (fun x => ses_session_id x = form_session_id form) rows = s :: rest ->
  ses_status s <> OPEN \/ ses_deadline_time s <= clock w ->
  Utils.is_session_active (form_session_id form) (ses_branch_code session) w
  = (Returned false, w)
  /\ Api.mark_attendance_in recognize_face decode_qr_data form session w
     = (Raised (HTTPException 400 "Session is not active or has expired"), w).
Proof.
  intros Hf Hr Hs Hinactive.
  assert (E : Utils.is_session_active (form_session_id form)
                (ses_branch_code session) w = (Returned false, w)).
  { rewrite (is_session_active_ok _ _ w rows) by done. rewrite Hs.
    destruct Hinactive as [Hst|Hdl].
    - by rewrite bool_decide_eq_false_2.
    - replace (clock w <? ses_deadline_time s) with false
        by (symmetry; apply Z.ltb_ge; lia).
      by rewrite andb_false_r. }
  split; [exact E|].
  unfold Api.mark_attendance_in. rewrite (bind_returned _ _ w false w E).
  reflexivity.
Qed.

(** When the form carries the roll number of a student who has an event
    for the session (both keys read back as text), the answer is "Already
    marked" with the time and method of the first such event, and nothing
    is written. *)
Lemma mark_already_marked form session w rows s rest r events e others :
  faults w = [] ->
  text_key (reads_as_text w) (form_session_id form) ->
  text_key (reads_as_text w) r ->
  file_of sessions (ses_branch_code session) w = Some rows ->
  filter (fun x => ses_session_id x = form_session_id form) rows = s :: rest ->
  ses_status s = OPEN -> clock w < ses_deadline_time s ->
  form_roll_no form = Some r ->
  file_of attendance (ses_branch_code session) w = Some events ->
  events_for (form_session_id form) r events = e :: others ->
  Api.mark_attendance_in recognize_face decode_qr_data form session w
  = (Returned {| success := false;
                 message := "Already marked";
                 already_marked := true;
                 marked_at := Some (ev_marked_at e);
                 method := Some (ev_method e) |}, w).
Proof.
  intros Hf Hksid Hkr Hr Hs Hst Hdl Hroll Ha He.
  unfold Api.mark_attendance_in.
  rewrite (bind_returned _ _ w true w).
  2:{ rewrite (is_session_active_ok _ _ w rows) by done. rewrite Hs.
      rewrite bool_decide_eq_true_2 by done.
      replace (clock w <? ses_deadline_time s) with true
        by (symmetry; apply Z.ltb_lt; lia).
      reflexivity. }
  cbn [negb]. unfold try_except. rewrite Hroll. cbn [default from_option id].
  rewrite (bind_returned _ _ w true w).
  2:{ rewrite (is_already_marked_ok _ _ _ w events) by done. rewrite He.
      reflexivity. }
  rewrite (bind_returned _ _ w (Some e) w).
  2:{ unfold DataService.get_attendance_record, try_except.
      read_table events. rewrite bind_observe, filter_mask by done.
      unfold events_for in He. rewrite He. reflexivity. }
  reflexivity.
Qed.

End MarkFacts.

(** C2: with the session of branch CSH closed, a marking request for it
    is answered 404 "Session not found", not "Session is not active", and
    an override request for it is answered 404 as well; both leave the
    world as it was. *)
Theorem closed_session_requests_not_found :
  let w := Scenario.world (Scenario.minute 7) [Scenario.s1_present] CLOSED [] in
  Api.mark_attendance Scenario.recognize_face Scenario.decode_qr_data
    Scenario.face_form w
  = (Raised (HTTPException 404 "Session not found"), w)
  /\ Api.manual_override
       {| mo_session_id := Scenario.sid; mo_roll_no := "CS21HCI002";
          mo_new_status := PRESENT; mo_teacher_id := "T001";
          mo_reason := None |} "T001" w
     = (Raised (HTTPException 404 "Session not found"), w).
Proof. vm_compute. split; reflexivity. Qed.

(** C1: with S1 already marked present in the open session, the form the
    marking page posts for the same student (no roll number, the photo
    identifies S1) is answered 404 by the endpoint; and from the point
    where the session is found it is answered with success, and the
    ledger then holds two events for the pair. *)
Theorem second_mark_not_already_marked :
  let w := Scenario.world (Scenario.minute 2) [Scenario.s1_present] OPEN [] in
  let found :=
    Api.mark_attendance_in Scenario.recognize_face Scenario.decode_qr_data
      Scenario.face_form (Scenario.the_session OPEN) w in
  events_for Scenario.sid "CS21HCI001" [Scenario.s1_present] = [Scenario.s1_present]
  /\ Api.mark_attendance Scenario.recognize_face Scenario.decode_qr_data
       Scenario.face_form w
     = (Raised (HTTPException 404 "Session not found"), w)
  /\ fst found
     = Returned {| success := true;
                   message := "Attendance marked for CS21HCI001";
                   already_marked := false;
                   marked_at := Some (Scenario.minute 2);
                   method := Some FACE |}
  /\ file_of attendance "CSH" (snd found)
     = Some [Scenario.s1_present;
             present_record Scenario.sid "CS21HCI001" [Scenario.s1; Scenario.s2]
               (Scenario.minute 2) FACE "student"].
Proof. vm_compute. repeat split; reflexivity. Qed.

(** C9, as stated, fails: six minutes into the five-minute session, with
    its stored status still open, a marking request is turned away, both
    by the endpoint and from the point where the session is found, and
    the stored status is open afterwards. *)
Lemma expired_mark_leaves_session_open :
  let w := Scenario.world (Scenario.minute 6) [] OPEN [] in
  let found :=
    Api.mark_attendance_in Scenario.recognize_face Scenario.decode_qr_data
      Scenario.face_form (Scenario.the_session OPEN) w in
  let posted :=
    Api.mark_attendance Scenario.recognize_face Scenario.decode_qr_data
      Scenario.face_form w in
  ses_deadline_time (Scenario.the_session OPEN) < clock w
  /\ fst found = Raised (HTTPException 400 "Session is not active or has expired")
  /\ fst posted = Raised (HTTPException 404 "Session not found")
  /\ ses_status <$> default [] (file_of sessions "CSH" (snd found)) = [OPEN]
  /\ ses_status <$> default [] (file_of sessions "CSH" (snd posted)) = [OPEN]
  /\ ~ (exists s, s ∈ default [] (file_of sessions "CSH" (snd found))
                  /\ ses_status s = CLOSED).
Proof.
  vm_compute. repeat split; try reflexivity.
  intros (s & Hin & Hst). apply list_elem_of_singleton in Hin. subst s.
  discriminate.
Qed.

(** C9, amended: a marking request that arrives at or after the deadline
    of a session whose stored status is open is turned away and nothing
    is written, so no event is appended and the stored status stays open;
    the check [is_session_active] answers false without writing, and from
    the point where the session is found the answer is 400 "Session is
    not active or has expired". *)
Theorem expired_mark_rejected_without_close
    (recognize_face decode_qr_data : World -> string -> string -> option string)
    form session w rows s rest :
  faults w = [] ->
  file_of sessions (ses_branch_code session) w = Some rows ->
  filter (fun x => ses_session_id x = form_session_id form) rows = s :: rest ->
  ses_status s = OPEN -> ses_deadline_time s <= clock w ->
  Utils.is_session_active (form_session_id form) (ses_branch_code session) w
  = (Returned false, w)
  /\ Api.mark_attendance_in recognize_face decode_qr_data form session w
     = (Raised (HTTPException 400 "Session is not active or has expired"), w)
  /\ exists e, Api.mark_attendance recognize_face decode_qr_data form w
               = (Raised e, w).
Proof.
  intros Hf Hr Hs Hst Hdl.
  destruct (mark_in_inactive_session recognize_face decode_qr_data form session
              w rows s rest Hf Hr Hs (or_intror Hdl)) as [Hcheck Hfound].
  split; [exact Hcheck|]. split; [exact Hfound|].
  unfold Api.mark_attendance.
  destruct (negb (bool_decide (form_method form = "face")
                  || bool_decide (form_method form = "qr"))).
  - eexists. reflexivity.
  - rewrite (bind_returned _ _ w None w) by (by apply get_session_quiet).
    eexists. reflexivity.
Qed.

Lemma expired_mark_rejected_without_close_witness :
  let w := Scenario.world (Scenario.minute 6) [] OPEN [] in
  Utils.is_session_active Scenario.sid "CSH" w = (Returned false, w)
  /\ Api.mark_attendance_in Scenario.recognize_face Scenario.decode_qr_data
       Scenario.face_form (Scenario.the_session OPEN) w
     = (Raised (HTTPException 400 "Session is not active or has expired"), w)
  /\ exists e, Api.mark_attendance Scenario.recognize_face Scenario.decode_qr_data
                 Scenario.face_form w
               = (Raised e, w).
Proof.
  apply (expired_mark_rejected_without_close Scenario.recognize_face
           Scenario.decode_qr_data Scenario.face_form (Scenario.the_session OPEN)
           (Scenario.world (Scenario.minute 6) [] OPEN [])
           [Scenario.the_session OPEN] (Scenario.the_session OPEN) []);
    try reflexivity.
  vm_compute. discriminate.
Defined.

(** ** Session tables that only lose open rows *)

Lemma closed_more_refl rows : closed_more rows rows.
Proof.
  apply Forall_Forall2_diag, Forall_forall. intros s _.
  unfold row_closed_or_kept. auto.
Qed.

Lemma closed_more_trans rows1 rows2 rows3 :
  closed_more rows1 rows2 -> closed_more rows2 rows3 -> closed_more rows1 rows3.
Proof.
  unfold closed_more. intros H12. revert rows3.
  induction H12 as [|s1 s2 l1 l2 [Hid Hst] _ IH]; intros rows3 H23.
  - by apply Forall2_nil_inv_l in H23 as ->.
  - apply Forall2_cons_inv_l in H23 as (s3 & l3 & [Hid' Hst'] & H23 & ->).
    constructor; [|by apply IH].
    split; [congruence|]. destruct Hst' as [E|E]; [|by right].
    rewrite E. exact Hst.
Qed.

Lemma closed_more_open_count rows rows' :
  closed_more rows rows' -> (open_count rows' <= open_count rows)%nat.
Proof.
  unfold closed_more, open_count.
  induction 1 as [|s s' l l' [Hid Hst] _ IH]; [done|].
  rewrite !filter_cons.
  destruct (decide (ses_status s' = OPEN)) as [E'|E'];
    destruct (decide (ses_status s = OPEN)) as [E|E]; simpl; try lia.
  exfalso. destruct Hst as [H|H]; congruence.
Qed.

Lemma closed_more_ids rows rows' :
  closed_more rows rows' -> ses_session_id <$> rows' = ses_session_id <$> rows.
Proof.
  unfold closed_more. induction 1 as [|s s' l l' [Hid Hst] _ IH]; [done|].
  rewrite !fmap_cons. congruence.
Qed.

(** An open row of the later table was an open row, with the same id, of
    the earlier one. *)
Lemma closed_more_open_before rows rows' s' :
  closed_more rows rows' -> s' ∈ rows' -> ses_status s' = OPEN ->
  exists s, s ∈ rows /\ ses_session_id s = ses_session_id s'
            /\ ses_status s = OPEN.
Proof.
  unfold closed_more. induction 1 as [|s0 s0' l l' [Hid Hst] _ IH]; intros Hin Ho.
  - by apply not_elem_of_nil in Hin.
  - apply elem_of_cons in Hin as [->|Hin].
    + exists s0. split; [left|]. split; [done|].
      destruct Hst as [H|H]; congruence.
    + destruct (IH Hin Ho) as (s & Hs & Hids & Hos).
      exists s. split; [by right | auto].
Qed.

(** A session none of whose rows is open stays so. *)
Lemma closed_more_stays_closed session_id rows rows' :
  closed_more rows rows' ->
  (forall s, s ∈ rows -> ses_session_id s = session_id -> ses_status s <> OPEN) ->
  forall s', s' ∈ rows' -> ses_session_id s' = session_id -> ses_status s' <> OPEN.
Proof.
  intros Hcm Hclosed s' Hin Hid Ho.
  destruct (closed_more_open_before rows rows' s' Hcm Hin Ho) as (s & Hs & Hids & Hos).
  apply (Hclosed s Hs); congruence.
Qed.

Lemma close_row_closed_more session_id rows :
  closed_more rows (SessionService.close_row session_id <$> rows).
Proof.
  unfold closed_more. apply Forall2_fmap_r, Forall_Forall2_diag, Forall_forall.
  intros s _. unfold row_closed_or_kept, SessionService.close_row. simpl.
  destruct (decide (ses_session_id s = session_id)); simpl; auto.
Qed.

Lemma only_closes_refl b w : only_closes b w w.
Proof.
  unfold only_closes. repeat split; try done.
  destruct (file_of sessions b w); [apply closed_more_refl | done].
Qed.

Lemma only_closes_trans b w1 w2 w3 :
  only_closes b w1 w2 -> only_closes b w2 w3 -> only_closes b w1 w3.
Proof.
  unfold only_closes. intros (Hf&Hc&Hb&Ho&Ht) (Hf'&Hc'&Hb'&Ho'&Ht').
  repeat split; try congruence.
  - intros b' Hne. rewrite Ho' by done. by apply Ho.
  - destruct (file_of sessions b w1), (file_of sessions b w2),
      (file_of sessions b w3); try done.
    by eapply closed_more_trans.
Qed.

(** ** What [close_session] and [get_active_session] do to the tables *)

Lemma close_session_effect session_id b teacher_id w :
  faults w = [] ->
  exists r w',
    SessionService.close_session session_id b teacher_id w = (Returned r, w')
    /\ only_closes b w w'
    /\ (forall rows' x, file_of sessions b w' = Some rows' -> x ∈ rows' ->
          ses_session_id x = session_id -> ses_status x = CLOSED).
Proof.
  intros Hf. destruct (file_of sessions b w) as [rows|] eqn:Hr.
  - destruct (decide (session_id ∈ ses_session_id <$> rows)) as [Hin|Hout].
    + destruct (close_session_table session_id b teacher_id w rows Hf Hr Hin)
        as (Hret & Htable & Hothers & Hf' & Hc & Hb).
      destruct (SessionService.close_session session_id b teacher_id w)
        as [r w'] eqn:E. simpl in *. subst r.
      exists true, w'. split; [reflexivity|]. split.
      * unfold only_closes. rewrite Hr, Htable.
        split; [congruence|]. split; [done|]. split; [done|].
        split; [exact Hothers | apply close_row_closed_more].
      * intros rows' x Hr' Hx Hid. rewrite Htable in Hr'.
        injection Hr' as <-. by apply (close_row_closed session_id rows).
    + rewrite (close_session_unknown session_id b teacher_id w rows) by done.
      exists false, w. split; [reflexivity|]. split; [apply only_closes_refl|].
      intros rows' x Hr' Hx Hid. exfalso. apply Hout.
      rewrite Hr in Hr'. injection Hr' as <-.
      apply list_elem_of_fmap. eauto.
  - rewrite (close_session_no_table session_id b teacher_id w) by done.
    exists false, w. split; [reflexivity|]. split; [apply only_closes_refl|].
    intros rows' x Hr'. congruence.
Qed.

Lemma scan_open_sessions_effect b t l : forall w,
  faults w = [] ->
  exists res w',
    SessionService.scan_open_sessions b t l w = (Returned res, w')
    /\ only_closes b w w'
    /\ (res = None ->
        forall s rows' x, s ∈ l -> file_of sessions b w' = Some rows' ->
          x ∈ rows' -> ses_session_id x = ses_session_id s ->
          ses_status x <> OPEN)
    /\ (forall s, res = Some s -> s ∈ l /\ t < ses_deadline_time s).
Proof.
  induction l as [|session rest IH]; intros w Hf; simpl.
  - exists None, w. split; [reflexivity|]. split; [apply only_closes_refl|].
    split; [|done]. intros _ s rows' x Hin. by apply not_elem_of_nil in Hin.
  - destruct (t <? ses_deadline_time session) eqn:Hlt.
    + exists (Some session), w. split; [reflexivity|].
      split; [apply only_closes_refl|]. split; [done|].
      intros s [= <-]. split; [left | by apply Z.ltb_lt].
    + destruct (close_session_effect (ses_session_id session) b
                  (ses_teacher_id session) w Hf) as (r & w1 & E & Hoc & Hclosed).
      rewrite (bind_returned _ _ w r w1 E).
      assert (Hf1 : faults w1 = []) by (destruct Hoc as (-> & _); done).
      destruct (IH w1 Hf1) as (res & w2 & E2 & Hoc2 & Hnone & Hsome).
      exists res, w2. split; [exact E2|].
      split; [by apply only_closes_trans with w1|]. split.
      * intros Hres s rows' x Hin Hr' Hx Hid.
        apply elem_of_cons in Hin as [->|Hin]; [|by eapply Hnone].
        destruct Hoc2 as (_ & _ & _ & _ & Htables). rewrite Hr' in Htables.
        destruct (file_of sessions b w1) as [rows1|] eqn:Hr1; [|done].
        apply (closed_more_stays_closed (ses_session_id session) rows1 rows');
          try done.
        intros s1 Hs1 Hid1. rewrite (Hclosed rows1 s1); done.
      * intros s Hres. destruct (Hsome s Hres). split; [by right | done].
Qed.

Lemma filter_open_nil rows :
  (forall x, x ∈ rows -> ses_status x <> OPEN) -> open_count rows = 0%nat.
Proof.
  intros Hno. unfold open_count.
  destruct (filter (fun s => ses_status s = OPEN) rows) as [|x rest] eqn:E;
    [reflexivity|].
  assert (Hx : x ∈ filter (fun s => ses_status s = OPEN) rows) by (rewrite E; left).
  apply list_elem_of_filter in Hx as [Ho Hx]. by destruct (Hno x Hx).
Qed.

Lemma get_active_session_effect b w :
  faults w = [] ->
  exists res w',
    SessionService.get_active_session b w = (Returned res, w')
    /\ only_closes b w w'
    /\ (res = None ->
        forall rows', file_of sessions b w' = Some rows' ->
                      open_count rows' = 0%nat).
Proof.
  intros Hf. unfold SessionService.get_active_session, try_except.
  rewrite bind_path_exists.
  destruct (file_of sessions b w) as [rows|] eqn:Hr.
  - rewrite bool_decide_eq_true_2 by eauto. cbn [negb].
    read_table rows.
    destruct (filter (fun s => ses_status s = OPEN) rows) as [|s0 l0] eqn:El.
    + exists None, w. split; [reflexivity|]. split; [apply only_closes_refl|].
      intros _ rows' Hr'. rewrite Hr in Hr'. injection Hr' as <-.
      unfold open_count. by rewrite El.
    + rewrite (bind_returned _ _ w (clock w) w) by reflexivity.
      destruct (scan_open_sessions_effect b (clock w) (s0 :: l0) w Hf)
        as (res & w' & E & Hoc & Hnone & _).
      rewrite E. exists res, w'. split; [reflexivity|]. split; [exact Hoc|].
      intros Hres rows' Hr'. apply filter_open_nil. intros x Hx Ho.
      destruct Hoc as (_ & _ & _ & _ & Htables).
      rewrite Hr, Hr' in Htables.
      destruct (closed_more_open_before rows rows' x Htables Hx Ho)
        as (s & Hs & Hid & Hos).
      apply (Hnone Hres s rows' x); try done.
      rewrite <- El. apply list_elem_of_filter. auto.
  - rewrite bool_decide_eq_false_2 by (intros [? ?]; done). cbn [negb].
    exists None, w. split; [reflexivity|]. split; [apply only_closes_refl|].
    intros _ rows' Hr'. congruence.
Qed.

Lemma scan_open_sessions_finds b t l : forall w,
  faults w = [] ->
  (exists s, s ∈ l /\ t < ses_deadline_time s) ->
  exists s' w',
    SessionService.scan_open_sessions b t l w = (Returned (Some s'), w')
    /\ only_closes b w w'.
Proof.
  induction l as [|session rest IH]; intros w Hf (s & Hin & Hlt); simpl.
  - by apply not_elem_of_nil in Hin.
  - destruct (t <? ses_deadline_time session) eqn:Hhead.
    + exists session, w. split; [reflexivity | apply only_closes_refl].
    + destruct (close_session_effect (ses_session_id session) b
                  (ses_teacher_id session) w Hf) as (r & w1 & E & Hoc & _).
      rewrite (bind_returned _ _ w r w1 E).
      assert (Hf1 : faults w1 = []) by (destruct Hoc as (-> & _); done).
      apply elem_of_cons in Hin as [->|Hin].
      { apply Z.ltb_ge in Hhead. lia. }
      destruct (IH w1 Hf1) as (s' & w2 & E2 & Hoc2); [eauto|].
      exists s', w2. split; [exact E2 | by apply only_closes_trans with w1].
Qed.

(** With an open session that has not reached its deadline on file,
    [get_active_session] answers with a session. *)
Lemma get_active_session_finds b w rows s :
  faults w = [] -> file_of sessions b w = Some rows ->
  s ∈ rows -> ses_status s = OPEN -> clock w < ses_deadline_time s ->
  exists s' w',
    SessionService.get_active_session b w = (Returned (Some s'), w')
    /\ only_closes b w w'.
Proof.
  intros Hf Hr Hs Ho Hlt. unfold SessionService.get_active_session, try_except.
  rewrite bind_path_exists, Hr.
  rewrite bool_decide_eq_true_2 by eauto. cbn [negb].
  read_table rows.
  assert (Hl : s ∈ filter (fun x => ses_status x = OPEN) rows)
    by (apply list_elem_of_filter; auto).
  destruct (filter (fun x => ses_status x = OPEN) rows) as [|s0 l0] eqn:El.
  - by apply not_elem_of_nil in Hl.
  - rewrite (bind_returned _ _ w (clock w) w) by reflexivity.
    destruct (scan_open_sessions_finds b (clock w) (s0 :: l0) w Hf)
      as (s' & w' & E & Hoc); [eauto|].
    rewrite E. eauto.
Qed.

(** ** [start_session] and the endpoints *)

Lemma validate_branch_exists_quiet b w :
  faults w = [] ->
  Utils.validate_branch_exists b w
  = (Returned match branches_csv w with
              | Some branches => bool_decide (b ∈ br_branch_code <$> branches)
              | None => false
              end, w).
Proof.
  intros Hf. unfold Utils.validate_branch_exists, try_except, bind, read_branches.
  rewrite (next_fault_quiet w Hf). by destruct (branches_csv w).
Qed.

Lemma sessions_dir_of b w : sessions (dir_of b w) = file_of sessions b w.
Proof. unfold dir_of, file_of. by destruct (branch_dirs w !! b). Qed.

Section StartFacts.
Variable strftime : datetime -> string.

Lemma start_session_ok teacher_id b minutes w :
  faults w = [] ->
  SessionService.start_session strftime teacher_id b minutes w
  = (Returned {| sr_session_id := "S_" +:+ strftime (clock w) +:+ "_" +:+ b;
                 sr_branch_code := b;
                 sr_start_time := clock w;
                 sr_deadline_time := clock w + Utils.timedelta_minutes minutes;
                 sr_status := OPEN |},
     with_branch b
       (set_sessions
          (default [] (file_of sessions b w)
             ++ [new_session strftime teacher_id b minutes (clock w)])
          (ensured (dir_of b w))) w).
Proof.
  intros Hf. unfold SessionService.start_session, try_except.
  rewrite (bind_returned _ _ w tt (with_branch b (ensured (dir_of b w)) w))
    by reflexivity.
  unfold Utils.generate_session_id.
  rewrite (bind_returned _ _ _ ("S_" +:+ strftime (clock w) +:+ "_" +:+ b)
             (with_branch b (ensured (dir_of b w)) w)) by reflexivity.
  rewrite (bind_returned _ _ _ (clock w)
             (with_branch b (ensured (dir_of b w)) w)) by reflexivity.
  rewrite (bind_returned _ _ _ (default [] (file_of sessions b w))
             (with_branch b (ensured (dir_of b w)) w)).
  2:{ apply read_csv_ok; [done|]. rewrite file_of_with_branch. simpl.
      by rewrite sessions_dir_of. }
  rewrite (bind_returned _ _ _ tt
             (with_branch b
                (set_sessions
                   (default [] (file_of sessions b w)
                      ++ [new_session strftime teacher_id b minutes (clock w)])
                   (ensured (dir_of b w))) w)).
  2:{ rewrite (to_csv_ok _ _ _ _ (ensured (dir_of b w)))
        by apply dirs_with_branch.
      by rewrite with_branch_twice. }
  reflexivity.
Qed.

End StartFacts.

(** ** At most one open session per branch *)

Lemma one_open_only_closes b w w' :
  only_closes b w w' -> one_open_per_branch w -> one_open_per_branch w'.
Proof.
  intros (_ & _ & _ & Hothers & Htables) Hinv b0 rows' Hr'.
  destruct (decide (b0 = b)) as [->|Hne].
  - rewrite Hr' in Htables.
    destruct (file_of sessions b w) as [rows|] eqn:Hr; [|done].
    pose proof (closed_more_open_count rows rows' Htables).
    pose proof (Hinv b rows Hr). lia.
  - rewrite Hothers in Hr' by done. by apply (Hinv b0).
Qed.

Lemma open_count_app rows rows' :
  open_count (rows ++ rows') = (open_count rows + open_count rows')%nat.
Proof. unfold open_count. by rewrite filter_app, length_app. Qed.

Lemma close_endpoint_world session_id b current_teacher w :
  snd (Api.close_attendance_session session_id b current_teacher w)
  = snd (SessionService.close_session session_id b current_teacher w).
Proof.
  unfold Api.close_attendance_session, try_except, bind.
  destruct (SessionService.close_session session_id b current_teacher w)
    as [[[|]|e] w']; reflexivity.
Qed.

Section Invariant.
Variable strftime : datetime -> string.

(** What the start endpoint does once the branch is known and no active
    session was found. *)
Lemma start_endpoint_preserves session_data current_teacher w :
  faults w = [] -> one_open_per_branch w ->
  faults (snd (Api.start_attendance_session strftime session_data
                 current_teacher w)) = []
  /\ one_open_per_branch
       (snd (Api.start_attendance_session strftime session_data
               current_teacher w)).
Proof.
  intros Hf Hinv. unfold Api.start_attendance_session.
  destruct (negb (Api.valid_StartSession session_data)); [by split|].
  set (b := ss_branch_code session_data).
  rewrite (bind_returned _ _ w _ w (validate_branch_exists_quiet b w Hf)).
  destruct (negb _); [by split|].
  destruct (get_active_session_effect b w Hf) as (res & w1 & E & Hoc & Hnone).
  rewrite (bind_returned _ _ w res w1 E).
  assert (Hf1 : faults w1 = []) by (destruct Hoc as (-> & _); done).
  pose proof (one_open_only_closes b w w1 Hoc Hinv) as Hinv1.
  destruct res as [s|]; [by split|].
  unfold try_except.
  rewrite (start_session_ok strftime current_teacher b
             (ss_deadline_minutes session_data) w1 Hf1).
  cbn [snd]. split; [done|].
  intros b0 rows0 Hr0. destruct (decide (b0 = b)) as [->|Hne].
  - rewrite file_of_with_branch in Hr0. simpl in Hr0. injection Hr0 as <-.
    rewrite open_count_app.
    assert (Hzero : open_count (default [] (file_of sessions b w1)) = 0%nat).
    { destruct (file_of sessions b w1) as [rows1|] eqn:Hr1; [|reflexivity].
      by apply Hnone. }
    rewrite Hzero.
    assert (Hone : open_count
                     [new_session strftime current_teacher b
                        (ss_deadline_minutes session_data) (clock w1)] = 1%nat).
    { unfold open_count. rewrite filter_cons, decide_True by reflexivity.
      reflexivity. }
    rewrite Hone. lia.
  - unfold file_of in Hr0. rewrite dirs_with_branch_ne in Hr0 by done.
    by apply (Hinv1 b0).
Qed.

Lemma serve_preserves w q :
  faults w = [] -> one_open_per_branch w ->
  faults (serve strftime w q) = [] /\ one_open_per_branch (serve strftime w q).
Proof.
  intros Hf Hinv. destruct q as [d t|sid b t|b|now]; simpl.
  - by apply start_endpoint_preserves.
  - rewrite close_endpoint_world.
    destruct (close_session_effect sid b t w Hf) as (r & w' & E & Hoc & _).
    rewrite E. simpl. split.
    + destruct Hoc as (-> & _). done.
    + by apply (one_open_only_closes b w).
  - unfold Api.get_active_session.
    rewrite (bind_returned _ _ w _ w (validate_branch_exists_quiet b w Hf)).
    destruct (negb _); [by split|].
    destruct (get_active_session_effect b w Hf) as (res & w' & E & Hoc & _).
    rewrite (bind_returned _ _ w res w' E).
    assert (faults w' = [] /\ one_open_per_branch w') as [? ?].
    { split; [destruct Hoc as (-> & _); done|by apply (one_open_only_closes b w)]. }
    destruct res; by split.
  - split; [done|]. intros b rows Hr. by apply (Hinv b).
Qed.

Lemma serve_all_preserves qs : forall w,
  faults w = [] -> one_open_per_branch w ->
  faults (serve_all strftime w qs) = []
  /\ one_open_per_branch (serve_all strftime w qs).
Proof.
  induction qs as [|q qs IH]; intros w Hf Hinv; [by split|].
  destruct (serve_preserves w q Hf Hinv) as [Hf' Hinv'].
  simpl. by apply IH.
Qed.

(** A start request for a known branch that has an open session short of
    its deadline is refused, and no row is added to the session table. *)
Lemma start_endpoint_conflict session_data current_teacher w branches rows s :
  faults w = [] -> Api.valid_StartSession session_data = true ->
  branches_csv w = Some branches ->
  ss_branch_code session_data ∈ br_branch_code <$> branches ->
  file_of sessions (ss_branch_code session_data) w = Some rows ->
  s ∈ rows -> ses_status s = OPEN -> clock w < ses_deadline_time s ->
  fst (Api.start_attendance_session strftime session_data current_teacher w)
  = Raised (HTTPException 400 "There's already an active session for this branch")
  /\ exists rows',
       file_of sessions (ss_branch_code session_data)
         (snd (Api.start_attendance_session strftime session_data
                 current_teacher w)) = Some rows'
       /\ closed_more rows rows'.
Proof.
  intros Hf Hvalid Hb Hknown Hr Hs Ho Hlt. unfold Api.start_attendance_session.
  rewrite Hvalid. cbn [negb].
  set (b := ss_branch_code session_data) in *.
  rewrite (bind_returned _ _ w _ w (validate_branch_exists_quiet b w Hf)).
  rewrite Hb, bool_decide_eq_true_2 by done. cbn [negb].
  destruct (get_active_session_finds b w rows s Hf Hr Hs Ho Hlt)
    as (s' & w' & E & Hoc).
  rewrite (bind_returned _ _ w (Some s') w' E). cbn [fst snd raise].
  split; [reflexivity|].
  destruct Hoc as (_ & _ & _ & _ & Htables). rewrite Hr in Htables.
  destruct (file_of sessions b w') as [rows'|]; [eauto | done].
Qed.

End Invariant.

(** C3: started from a world in which no branch has two open sessions
    (a fresh installation is one), and with no read fault, every world
    reached by serving start, close and get-active requests one after the
    other, with the clock moving freely in between, has at most one open
    session per branch: the start endpoint asks [get_active_session]
    first.  And a start request for a known branch that has an open
    session short of its deadline is answered 400 "There's already an
    active session for this branch", the session table gaining no row. *)
Theorem one_open_session_per_branch (strftime : datetime -> string) :
  (forall w qs,
     faults w = [] -> one_open_per_branch w ->
     one_open_per_branch (serve_all strftime w qs))
  /\ (forall session_data current_teacher w branches rows s,
        faults w = [] -> Api.valid_StartSession session_data = true ->
        branches_csv w = Some branches ->
        ss_branch_code session_data ∈ br_branch_code <$> branches ->
        file_of sessions (ss_branch_code session_data) w = Some rows ->
        s ∈ rows -> ses_status s = OPEN -> clock w < ses_deadline_time s ->
        fst (Api.start_attendance_session strftime session_data current_teacher w)
        = Raised (HTTPException 400
                    "There's already an active session for this branch")
        /\ exists rows',
             file_of sessions (ss_branch_code session_data)
               (snd (Api.start_attendance_session strftime session_data
                       current_teacher w)) = Some rows'
             /\ closed_more rows rows').
Proof.
  split.
  - intros w qs Hf Hinv. by apply serve_all_preserves.
  - intros. by eapply start_endpoint_conflict.
Qed.

Lemma one_open_session_per_branch_witness :
  one_open_per_branch (serve_all Scenario.strftime Scenario.fresh scenario_requests)
  /\ fst (Api.start_attendance_session Scenario.strftime Scenario.start_form "T001"
            (Scenario.world (Scenario.minute 1) [] OPEN []))
     = Raised (HTTPException 400
                 "There's already an active session for this branch").
Proof.
  destruct (one_open_session_per_branch Scenario.strftime) as [Hinv Hconflict].
  split.
  - apply Hinv; [reflexivity|].
    intros b rows Hr. unfold file_of in Hr. simpl in Hr.
    rewrite lookup_empty in Hr. discriminate.
  - apply (Hconflict Scenario.start_form "T001"
             (Scenario.world (Scenario.minute 1) [] OPEN [])
             Scenario.branches [Scenario.the_session OPEN]
             (Scenario.the_session OPEN)); try reflexivity.
    + simpl. left.
    + left.
Defined.

(** Scenario D: on a fresh installation a first start succeeds and a
    second one, a minute later, is refused; one session is on file. *)
Example scenario_D_second_start_conflicts :
  let w1 := serve Scenario.strftime Scenario.fresh (Start Scenario.start_form "T001") in
  let second :=
    Api.start_attendance_session Scenario.strftime Scenario.start_form "T001"
      (set_clock (Scenario.minute 1) w1) in
  ses_status <$> default [] (file_of sessions "CSH" w1) = [OPEN]
  /\ fst second
     = Raised (HTTPException 400
                 "There's already an active session for this branch")
  /\ ses_status <$> default [] (file_of sessions "CSH" (snd second)) = [OPEN].
Proof. vm_compute. repeat split; reflexivity. Qed.

(** [SessionService.start_session] has no check of its own: called on a
    branch with an open session it adds a second open row.  The check is
    the one of the endpoint. *)
Example start_session_alone_adds_open_row :
  let w := Scenario.world (Scenario.minute 1) [] OPEN [] in
  let w' := snd (SessionService.start_session Scenario.strftime "T001" "CSH" 5 w) in
  open_count <$> file_of sessions "CSH" w = Some 1%nat
  /\ open_count <$> file_of sessions "CSH" w' = Some 2%nat.
Proof. vm_compute. split; reflexivity. Qed.

(** ** The remaining scenarios *)

(** Scenario B: after the close of scenario A, the teacher overrides S2
    to present; S2's event becomes present/manual, S1's is as it was, and
    both stand at 100.00 percent. *)
Example scenario_B_override_after_close :
  let closed :=
    snd (DataService.mark_absentees_auto Scenario.sid "CSH"
           (Scenario.world (Scenario.minute 6) [Scenario.s1_present] CLOSED [])) in
  let overridden :=
    DataService.manual_override_attendance Scenario.sid "CS21HCI002" "CSH"
      PRESENT "T001" None (set_clock (Scenario.minute 8) closed) in
  fst overridden = Returned true
  /\ file_of attendance "CSH" (snd overridden)
     = Some [Scenario.s1_present;
             {| ev_session_id := Scenario.sid; ev_roll_no := "CS21HCI002";
                ev_name := "Ravi"; ev_status := PRESENT;
                ev_marked_at := Scenario.minute 8; ev_method := MANUAL;
                ev_marked_by := "T001" |}]
  /\ (fun t : list StatRecord => stat_attendance_pct <$> t)
       <$> file_of stats "CSH" (snd overridden)
     = Some [10000; 10000].
Proof. vm_compute. repeat split; reflexivity. Qed.

(** Scenario C, with the roll number on the form and the session found:
    the second mark is answered "Already marked" with the time and method
    of the first, and the world is as before. *)
Example scenario_C_second_mark_with_roll_no :
  let w := Scenario.world (Scenario.minute 2) [Scenario.s1_present] OPEN [] in
  Api.mark_attendance_in Scenario.recognize_face Scenario.decode_qr_data
    {| form_session_id := Scenario.sid; form_method := "face";
       form_roll_no := Some "CS21HCI001"; form_qr_data := None;
       form_face_image := Some "photo of Asha" |}
    (Scenario.the_session OPEN) w
  = (Returned {| success := false; message := "Already marked";
                 already_marked := true;
                 marked_at := Some (Scenario.minute 1);
                 method := Some FACE |}, w).
Proof. vm_compute. reflexivity. Qed.

(** * Further properties of the services *)

(** ** [ensure_branch_structure] *)

Lemma ensure_branch_structure_run b w :
  Utils.ensure_branch_structure b w
  = (Returned tt, with_branch b (ensured (dir_of b w)) w).
Proof. reflexivity. Qed.

Lemma ensured_twice f : ensured (ensured f) = ensured f.
Proof. reflexivity. Qed.

Lemma file_of_via_dir_of b w :
  students (dir_of b w) = file_of students b w
  /\ attendance (dir_of b w) = file_of attendance b w
  /\ stats (dir_of b w) = file_of stats b w
  /\ sessions (dir_of b w) = file_of sessions b w.
Proof. unfold dir_of, file_of. by destruct (branch_dirs w !! b). Qed.

(** X1: [ensure_branch_structure] never raises; afterwards the four
    tables of the branch exist; a table that existed keeps its rows, one
    that did not is empty; the other branches are untouched; and running
    it a second time changes nothing. *)
Theorem ensure_branch_structure_idempotent b w :
  let w' := snd (Utils.ensure_branch_structure b w) in
  fst (Utils.ensure_branch_structure b w) = Returned tt
  /\ file_of students b w' = Some (default [] (file_of students b w))
  /\ file_of attendance b w' = Some (default [] (file_of attendance b w))
  /\ file_of stats b w' = Some (default [] (file_of stats b w))
  /\ file_of sessions b w' = Some (default [] (file_of sessions b w))
  /\ (forall b', b' <> b -> branch_dirs w' !! b' = branch_dirs w !! b')
  /\ Utils.ensure_branch_structure b w' = (Returned tt, w').
Proof.
  rewrite ensure_branch_structure_run. cbn [fst snd].
  destruct (file_of_via_dir_of b w) as (Hs & Ha & Ht & Hn).
  rewrite !file_of_with_branch. simpl. rewrite Hs, Ha, Ht, Hn.
  repeat (split; [reflexivity|]). split.
  - intros b' Hne. by apply lookup_insert_ne.
  - rewrite ensure_branch_structure_run. f_equal.
    unfold dir_of. rewrite dirs_with_branch, with_branch_twice.
    reflexivity.
Qed.

(** ** [DataService.mark_attendance], [is_already_marked] and
    [get_attendance_record] *)

Lemma file_of_at_time {A} (get : BranchFiles -> option (list A)) b t w :
  file_of get b (set_clock t w) = file_of get b w.
Proof. reflexivity. Qed.

Lemma roster_filter_empty roster r :
  r ∉ stu_roll_no <$> roster ->
  filter (fun s => stu_roll_no s = r) roster = [].
Proof.
  intros Hnot.
  destruct (filter (fun s => stu_roll_no s = r) roster) as [|s0 rest] eqn:E;
    [reflexivity|].
  exfalso. apply Hnot.
  assert (Hin : s0 ∈ filter (fun s => stu_roll_no s = r) roster) by (rewrite E; left).
  apply list_elem_of_filter in Hin as [<- Hin].
  apply list_elem_of_fmap. eauto.
Qed.

(** X2: for a roll number that is not on the roster (also when the
    branch has no files yet), [DataService.mark_attendance] returns false
    and appends nothing: the ledger, the roster and the statistics hold
    the rows they held, the files that were missing now exist and are
    empty, and the statistics are not recomputed. *)
Theorem mark_attendance_unknown_student session_id r b how marked_by w :
  faults w = [] ->
  r ∉ stu_roll_no <$> default [] (file_of students b w) ->
  let w' := snd (DataService.mark_attendance session_id r b how marked_by w) in
  fst (DataService.mark_attendance session_id r b how marked_by w) = Returned false
  /\ file_of attendance b w' = Some (default [] (file_of attendance b w))
  /\ file_of students b w' = Some (default [] (file_of students b w))
  /\ file_of stats b w' = Some (default [] (file_of stats b w))
  /\ file_of sessions b w' = Some (default [] (file_of sessions b w)).
Proof.
  intros Hf Hnot. destruct (file_of_via_dir_of b w) as (Hs & Ha & Ht & Hn).
  assert (E : DataService.mark_attendance session_id r b how marked_by w
              = (Returned false, with_branch b (ensured (dir_of b w)) w)).
  { unfold DataService.mark_attendance, try_except.
    rewrite (bind_returned _ _ w tt (with_branch b (ensured (dir_of b w)) w))
      by reflexivity.
    rewrite (bind_returned _ _ _ (default [] (file_of students b w))
               (with_branch b (ensured (dir_of b w)) w)).
    2:{ apply read_csv_ok; [done|]. rewrite file_of_with_branch. simpl.
        by rewrite Hs. }
    rewrite bind_observe. by rewrite roster_lookup_missed by (by left). }
  rewrite E. cbn [fst snd]. rewrite !file_of_with_branch. simpl.
  by rewrite Hs, Ha, Ht, Hn.
Qed.

Lemma mark_attendance_unknown_student_witness :
  let w := Scenario.world (Scenario.minute 2) [Scenario.s1_present] OPEN [] in
  let w' := snd (DataService.mark_attendance Scenario.sid "CS21HCI999" "CSH"
                   QR "student" w) in
  fst (DataService.mark_attendance Scenario.sid "CS21HCI999" "CSH" QR "student" w)
  = Returned false
  /\ file_of attendance "CSH" w' = Some (default [] (file_of attendance "CSH" w))
  /\ file_of students "CSH" w' = Some (default [] (file_of students "CSH" w))
  /\ file_of stats "CSH" w' = Some (default [] (file_of stats "CSH" w))
  /\ file_of sessions "CSH" w' = Some (default [] (file_of sessions "CSH" w)).
Proof.
  apply (mark_attendance_unknown_student Scenario.sid "CS21HCI999" "CSH" QR
           "student"
           (Scenario.world (Scenario.minute 2) [Scenario.s1_present] OPEN []));
    [reflexivity|].
  vm_compute. intros Hin.
  repeat (apply elem_of_cons in Hin as [Hin|Hin]; [discriminate|]).
  by apply not_elem_of_nil in Hin.
Defined.

(** X3: a mark followed by the two look-ups.  After
    [DataService.mark_attendance] for a roster student, the session id and
    the roll number being keys that are read back as text, at any later
    time [is_already_marked] answers true for the pair; and when the pair
    had no event before, [get_attendance_record] returns the event just
    written: present, with the given method and marker, the roster name
    and the time of the mark. *)
Theorem mark_then_lookup session_id r b how marked_by w f roster events later :
  faults w = [] -> branch_dirs w !! b = Some f ->
  students f = Some roster -> attendance f = Some events ->
  r ∈ stu_roll_no <$> roster ->
  text_key (reads_as_text w) session_id -> text_key (reads_as_text w) r ->
  let w' := set_clock later
              (snd (DataService.mark_attendance session_id r b how marked_by w)) in
  DataService.is_already_marked session_id r b w' = (Returned true, w')
  /\ (events_for session_id r events = [] ->
      DataService.get_attendance_record session_id r b w'
      = (Returned (Some {| ev_session_id := session_id;
                           ev_roll_no := r;
                           ev_name := roster_name roster r;
                           ev_status := PRESENT;
                           ev_marked_at := clock w;
                           ev_method := how;
                           ev_marked_by := marked_by |}), w')).
Proof.
  intros Hf Hd Hs Ha Hin Hsid Hr.
  rewrite (mark_attendance_appends session_id r b how marked_by w f roster events)
    by (try split; auto).
  cbn [snd]. cbv zeta.
  set (e := present_record session_id r roster (clock w) how marked_by).
  set (w' := set_clock later _).
  assert (Hfile : file_of attendance b w' = Some (events ++ [e]))
    by (unfold w'; by rewrite file_of_at_time, file_of_with_branch).
  assert (Hfor : events_for session_id r (events ++ [e])
                 = events_for session_id r events ++ [e]).
  { unfold events_for. rewrite filter_app, filter_cons.
    rewrite decide_True by (split; reflexivity). by rewrite filter_nil. }
  split.
  - rewrite (is_already_marked_ok session_id r b w' (events ++ [e])) by done.
    rewrite Hfor. rewrite bool_decide_eq_false_2; [reflexivity|].
    by destruct (events_for session_id r events).
  - intros Hnil. unfold DataService.get_attendance_record, try_except.
    read_table (events ++ [e]). rewrite bind_observe, filter_mask by done.
    fold (events_for session_id r (events ++ [e])). rewrite Hfor, Hnil.
    reflexivity.
Qed.

Lemma mark_then_lookup_witness :
  let w := Scenario.world (Scenario.minute 1) [] OPEN [] in
  let w' := set_clock (Scenario.minute 3)
              (snd (DataService.mark_attendance Scenario.sid "CS21HCI001" "CSH"
                      FACE "student" w)) in
  DataService.is_already_marked Scenario.sid "CS21HCI001" "CSH" w'
  = (Returned true, w')
  /\ (events_for Scenario.sid "CS21HCI001" [] = [] ->
      DataService.get_attendance_record Scenario.sid "CS21HCI001" "CSH" w'
      = (Returned (Some {| ev_session_id := Scenario.sid;
                           ev_roll_no := "CS21HCI001";
                           ev_name := roster_name [Scenario.s1; Scenario.s2]
                                        "CS21HCI001";
                           ev_status := PRESENT;
                           ev_marked_at := clock w;
                           ev_method := FACE;
                           ev_marked_by := "student" |}), w')).
Proof.
  apply (mark_then_lookup Scenario.sid "CS21HCI001" "CSH" FACE "student"
           (Scenario.world (Scenario.minute 1) [] OPEN [])
           (Scenario.csh [] OPEN) [Scenario.s1; Scenario.s2] []
           (Scenario.minute 3));
    try reflexivity; try (by apply scenario_text_key).
  simpl. left.
Defined.

(** ** [manual_override_attendance]: what it leaves alone *)

Lemma override_row_keys session_id r st now teacher_id e :
  ev_session_id (DataService.override_row (DataService.matches session_id r) st now
       teacher_id e)
  = ev_session_id e
  /\ ev_roll_no (DataService.override_row (DataService.matches session_id r) st now
       teacher_id e)
     = ev_roll_no e.
Proof. unfold DataService.override_row. by destruct (decide _). Qed.

Lemma override_row_other session_id r st now teacher_id e :
  ~ DataService.matches session_id r e ->
  DataService.override_row (DataService.matches session_id r) st now
       teacher_id e = e.
Proof. intros Hm. unfold DataService.override_row. by rewrite decide_False. Qed.

Lemma events_for_override_other session_id r st now teacher_id sid' r' events :
  ~ (sid' = session_id /\ r' = r) ->
  events_for sid' r'
    (DataService.override_row (DataService.matches session_id r) st now
       teacher_id <$> events)
  = events_for sid' r' events.
Proof.
  intros Hother. unfold events_for.
  induction events as [|e events IH]; [reflexivity|].
  rewrite fmap_cons, !filter_cons, IH.
  destruct (decide (DataService.matches session_id r e)) as [[Hs Hr]|Hm].
  - destruct (override_row_keys session_id r st now teacher_id e) as [Ks Kr].
    rewrite !decide_False; [reflexivity | |].
    + intros [? ?]. apply Hother. split; congruence.
    + intros [H1 H2]. rewrite Ks in H1. rewrite Kr in H2.
      apply Hother. split; congruence.
  - by rewrite override_row_other.
Qed.

Lemma events_for_overridden_other session_id r st now teacher_id roster events
    sid' r' :
  ~ (sid' = session_id /\ r' = r) ->
  events_for sid' r' (overridden session_id r st now teacher_id roster events)
  = events_for sid' r' events.
Proof.
  intros Hother. unfold overridden.
  destruct (bool_decide (Exists (DataService.matches session_id r) events)).
  - by apply events_for_override_other.
  - unfold events_for. rewrite filter_app, filter_cons, decide_False.
    + by rewrite filter_nil, app_nil_r.
    + unfold DataService.matches. simpl. intros [? ?]. apply Hother. auto.
Qed.

Lemma events_for_overridden_all session_id r st now teacher_id roster events :
  Forall (fun e => ev_status e = st /\ ev_method e = MANUAL
                   /\ ev_marked_by e = teacher_id /\ ev_marked_at e = now)
    (events_for session_id r
       (overridden session_id r st now teacher_id roster events))
  /\ length (events_for session_id r
               (overridden session_id r st now teacher_id roster events))
     = Nat.max 1 (length (events_for session_id r events)).
Proof.
  unfold overridden.
  destruct (bool_decide (Exists (DataService.matches session_id r) events)) eqn:B.
  - apply bool_decide_eq_true_1, exists_match_iff in B.
    rewrite events_for_override, length_fmap. split.
    + apply Forall_fmap, Forall_forall. intros e He.
      unfold events_for in He. apply list_elem_of_filter in He as [Hm _].
      by apply override_row_status.
    + destruct (events_for session_id r events); [done | simpl; lia].
  - apply bool_decide_eq_false_1 in B.
    assert (Hnil : events_for session_id r events = []).
    { destruct (events_for session_id r events) eqn:E; [reflexivity|].
      exfalso. apply B, exists_match_iff. by rewrite E. }
    unfold events_for at 1 2. rewrite filter_app.
    fold (events_for session_id r events).
    rewrite Hnil, filter_cons, decide_True by (split; reflexivity).
    rewrite filter_nil. simpl. split; [|reflexivity].
    repeat constructor.
Qed.

(** X4: an override rewrites the pair it names and nothing else.  With
    roster and ledger readable, the student on the roster, and the session
    id and the roll number keys that are read back as text, after
    [manual_override_attendance] the events of every other (session,
    student) pair are exactly what they were; the pair itself has at
    least one event, as many as before when it had some (every one of
    them rewritten, duplicates included), and each carries the new
    status, method manual, the teacher and the time of the override. *)
Theorem manual_override_touches_one_pair session_id r b st teacher_id reason
    w f roster events :
  faults w = [] -> branch_dirs w !! b = Some f ->
  students f = Some roster -> attendance f = Some events ->
  r ∈ stu_roll_no <$> roster ->
  text_key (reads_as_text w) session_id -> text_key (reads_as_text w) r ->
  exists events',
    file_of attendance b
      (snd (DataService.manual_override_attendance session_id r b st teacher_id
              reason w)) = Some events'
    /\ (forall sid' r', ~ (sid' = session_id /\ r' = r) ->
          events_for sid' r' events' = events_for sid' r' events)
    /\ length (events_for session_id r events')
       = Nat.max 1 (length (events_for session_id r events))
    /\ Forall (fun e => ev_status e = st /\ ev_method e = MANUAL
                        /\ ev_marked_by e = teacher_id
                        /\ ev_marked_at e = clock w)
         (events_for session_id r events').
Proof.
  intros Hf Hd Hs Ha Hin Hsid Hr.
  rewrite (manual_override_ok session_id r b st teacher_id reason w f roster events)
    by done.
  cbn [snd]. cbv zeta. rewrite file_of_with_branch. simpl.
  eexists. split; [reflexivity|].
  destruct (events_for_overridden_all session_id r st (clock w) teacher_id
              roster events) as [Hall Hlen].
  split; [|split; [exact Hlen | exact Hall]].
  intros sid' r' Hother. by apply events_for_overridden_other.
Qed.

Lemma manual_override_touches_one_pair_witness :
  exists events',
    file_of attendance "CSH"
      (snd (DataService.manual_override_attendance Scenario.sid "CS21HCI001"
              "CSH" ABSENT "T001" None
              (Scenario.world (Scenario.minute 7)
                 [Scenario.s1_present; Scenario.s1_present] CLOSED [])))
    = Some events'
    /\ (forall sid' r', ~ (sid' = Scenario.sid /\ r' = "CS21HCI001") ->
          events_for sid' r' events'
          = events_for sid' r' [Scenario.s1_present; Scenario.s1_present])
    /\ length (events_for Scenario.sid "CS21HCI001" events')
       = Nat.max 1 (length (events_for Scenario.sid "CS21HCI001"
                              [Scenario.s1_present; Scenario.s1_present]))
    /\ Forall (fun e => ev_status e = ABSENT /\ ev_method e = MANUAL
                        /\ ev_marked_by e = "T001"
                        /\ ev_marked_at e = Scenario.minute 7)
         (events_for Scenario.sid "CS21HCI001" events').
Proof.
  apply (manual_override_touches_one_pair Scenario.sid "CS21HCI001" "CSH" ABSENT
           "T001" None
           (Scenario.world (Scenario.minute 7)
              [Scenario.s1_present; Scenario.s1_present] CLOSED [])
           (Scenario.csh [Scenario.s1_present; Scenario.s1_present] CLOSED)
           [Scenario.s1; Scenario.s2]
           [Scenario.s1_present; Scenario.s1_present]);
    try reflexivity; try (by apply scenario_text_key).
  simpl. left.
Defined.

(** ** [mark_absentees_auto] run again, and what a close leaves behind *)

Lemma events_for_backfilled_nonempty session_id now roster events r :
  r ∈ stu_roll_no <$> roster ->
  events_for session_id r (backfilled session_id now roster events) <> [].
Proof.
  intros Hin. rewrite events_for_backfilled.
  destruct (decide (r ∈ absentees session_id roster events)) as [Habs|Hnot].
  - by destruct (events_for session_id r events).
  - rewrite app_nil_r. intros Hnil. apply Hnot, absentees_spec. auto.
Qed.

Lemma absentees_after_backfill session_id now roster events :
  absentees session_id roster (backfilled session_id now roster events) = [].
Proof.
  destruct (absentees session_id roster
              (backfilled session_id now roster events)) as [|r l] eqn:E;
    [reflexivity|].
  assert (Hin : r ∈ absentees session_id roster
                      (backfilled session_id now roster events))
    by (rewrite E; left).
  apply absentees_spec in Hin as [Hr Hnil].
  by destruct (events_for_backfilled_nonempty session_id now roster events r Hr).
Qed.

Lemma backfilled_twice session_id now later roster events :
  backfilled session_id later roster (backfilled session_id now roster events)
  = backfilled session_id now roster events.
Proof.
  unfold backfilled at 1. rewrite absentees_after_backfill. simpl.
  by rewrite app_nil_r.
Qed.

Lemma events_for_backfilled_other session_id now roster events sid' r' :
  sid' <> session_id ->
  events_for sid' r' (backfilled session_id now roster events)
  = events_for sid' r' events.
Proof.
  intros Hne. unfold backfilled, events_for. rewrite filter_app.
  rewrite (filter_none (DataService.matches sid' r') (_ <$> _));
    [by rewrite app_nil_r|].
  apply Forall_fmap, Forall_forall. intros r _ [Hs _]. simpl in Hs. congruence.
Qed.

(** X5: the backfill converges.  With roster and ledger readable, a
    second [mark_absentees_auto] for the same session, at any later time,
    leaves the ledger exactly as the first left it; and the first touches
    no event of any other session. *)
Theorem backfill_idempotent session_id b w f roster events later :
  faults w = [] -> branch_dirs w !! b = Some f ->
  students f = Some roster -> attendance f = Some events ->
  let w1 := snd (DataService.mark_absentees_auto session_id b w) in
  let w2 := snd (DataService.mark_absentees_auto session_id b
                   (set_clock later w1)) in
  file_of attendance b w2 = file_of attendance b w1
  /\ file_of stats b w2 = file_of stats b w1
  /\ exists events1,
       file_of attendance b w1 = Some events1
       /\ forall sid' r', sid' <> session_id ->
            events_for sid' r' events1 = events_for sid' r' events.
Proof.
  intros Hf Hd Hs Ha.
  rewrite (mark_absentees_auto_ok session_id b w f roster events) by done.
  cbn [snd]. cbv zeta.
  set (events1 := backfilled session_id (clock w) roster events).
  set (f1 := set_stats (recomputed_stats roster events1)
               (set_attendance events1 f)).
  rewrite (mark_absentees_auto_ok session_id b
             (set_clock later (with_branch b f1 w)) f1 roster events1);
    [| done | apply dirs_with_branch | done | done].
  cbn [snd]. rewrite !file_of_with_branch.
  change (clock (set_clock later (with_branch b f1 w))) with later.
  unfold events1 at 1 2 3. rewrite backfilled_twice. fold events1.
  split; [reflexivity|]. split; [reflexivity|].
  exists events1. split; [reflexivity|].
  intros sid' r' Hne. by apply events_for_backfilled_other.
Qed.

Lemma backfill_idempotent_witness :
  let w := Scenario.world (Scenario.minute 6) [Scenario.s1_present] CLOSED [] in
  let w1 := snd (DataService.mark_absentees_auto Scenario.sid "CSH" w) in
  let w2 := snd (DataService.mark_absentees_auto Scenario.sid "CSH"
                   (set_clock (Scenario.minute 9) w1)) in
  file_of attendance "CSH" w2 = file_of attendance "CSH" w1
  /\ file_of stats "CSH" w2 = file_of stats "CSH" w1
  /\ exists events1,
       file_of attendance "CSH" w1 = Some events1
       /\ forall sid' r', sid' <> Scenario.sid ->
            events_for sid' r' events1 = events_for sid' r' [Scenario.s1_present].
Proof.
  apply (backfill_idempotent Scenario.sid "CSH"
           (Scenario.world (Scenario.minute 6) [Scenario.s1_present] CLOSED [])
           (Scenario.csh [Scenario.s1_present] CLOSED)
           [Scenario.s1; Scenario.s2] [Scenario.s1_present] (Scenario.minute 9));
    reflexivity.
Defined.

(** ** [get_session_attendance] and the ledger after a close *)

Lemma roll_in_session_filter session_id r (events : list AttendanceEvent) :
  filter (fun e => ev_roll_no e = r)
    (filter (fun e => ev_session_id e = session_id) events)
  = events_for session_id r events.
Proof.
  unfold events_for. rewrite list_filter_filter. apply list_filter_iff.
  intros e. unfold DataService.matches. tauto.
Qed.

Lemma get_session_attendance_ok session_id b w f roster events :
  faults w = [] -> branch_dirs w !! b = Some f ->
  students f = Some roster -> attendance f = Some events ->
  DataService.get_session_attendance session_id b w
  = (Returned
       (DataService.attendance_of
          (filter (fun e => ev_session_id e = session_id) events) <$> roster), w).
Proof.
  intros Hf Hd Hs Ha. unfold DataService.get_session_attendance, try_except.
  read_table roster. read_table events. reflexivity.
Qed.

(** The world a close leaves when the session is on file and roster and
    ledger are readable. *)
Lemma close_session_world session_id b teacher_id w f rows roster events :
  faults w = [] -> branch_dirs w !! b = Some f -> sessions f = Some rows ->
  students f = Some roster -> attendance f = Some events ->
  session_id ∈ ses_session_id <$> rows ->
  SessionService.close_session session_id b teacher_id w
  = (Returned true,
     let events1 := backfilled session_id (clock w) roster events in
     with_branch b
       (set_stats (recomputed_stats roster events1)
          (set_attendance events1
             (set_sessions (SessionService.close_row session_id <$> rows) f))) w).
Proof.
  intros Hf Hd Hr Hs Ha Hin.
  rewrite (close_session_found session_id b teacher_id w f rows) by done.
  rewrite (mark_absentees_auto_ok session_id b _
             (set_sessions (SessionService.close_row session_id <$> rows) f)
             roster events); [| done | apply dirs_with_branch | done | done].
  cbn [snd]. by rewrite with_branch_twice.
Qed.

(** X6: after a [close_session] that found the session, with roster and
    ledger readable and the session id and every roll number of the roster
    keys that are read back as text, at any later time [is_already_marked]
    is true for every roster student, and [get_session_attendance] returns
    one row per roster row, in roster order, each backed by a stored
    event: the first event the student already had, or else the
    absent/auto/system event of the backfill.  No row is the "no record"
    default. *)
Theorem close_then_report session_id b teacher_id w f rows roster events later :
  faults w = [] -> branch_dirs w !! b = Some f -> sessions f = Some rows ->
  students f = Some roster -> attendance f = Some events ->
  session_id ∈ ses_session_id <$> rows ->
  text_key (reads_as_text w) session_id ->
  Forall (text_key (reads_as_text w)) (stu_roll_no <$> roster) ->
  let w' := set_clock later
              (snd (SessionService.close_session session_id b teacher_id w)) in
  (forall r, r ∈ stu_roll_no <$> roster ->
     DataService.is_already_marked session_id r b w' = (Returned true, w'))
  /\ exists after report,
       file_of attendance b w' = Some after
       /\ DataService.get_session_attendance session_id b w'
          = (Returned report, w')
       /\ Forall2 (reported_after_close session_id events after) roster report.
Proof.
  intros Hf Hd Hr Hs Ha Hin Hsid Hkeys.
  rewrite (close_session_world session_id b teacher_id w f rows roster events)
    by done.
  cbn [snd]. cbv zeta.
  set (after := backfilled session_id (clock w) roster events).
  set (f' := set_stats _ _). set (w' := set_clock later _).
  assert (Hd' : branch_dirs w' !! b = Some f') by apply dirs_with_branch.
  assert (Hfile : file_of attendance b w' = Some after)
    by (by rewrite (file_of_dir _ _ f')).
  split.
  - intros r Hroll.
    rewrite (is_already_marked_ok session_id r b w' after);
      [| done | done | exact Hsid
       | by apply (proj1 (Forall_forall _ _) Hkeys)].
    rewrite bool_decide_eq_false_2; [reflexivity|].
    by apply events_for_backfilled_nonempty.
  - exists after. eexists. split; [exact Hfile|]. split.
    + by apply (get_session_attendance_ok session_id b w' f' roster after).
    + apply Forall2_fmap_r, Forall_Forall2_diag, Forall_forall.
      intros student Hstudent. unfold reported_after_close. simpl.
      assert (Hroll : stu_roll_no student ∈ stu_roll_no <$> roster)
        by (apply list_elem_of_fmap; eauto).
      unfold DataService.attendance_of. rewrite roll_in_session_filter.
      pose proof (events_for_backfilled session_id (clock w) roster events
                    (stu_roll_no student)) as E.
      fold after in E.
      pose proof (absentees_spec session_id roster events (stu_roll_no student))
        as Habs.
      destruct (decide (stu_roll_no student ∈ absentees session_id roster events))
        as [Hin'|Hout].
      * apply Habs in Hin' as [_ Hnil]. rewrite Hnil in E. rewrite E, Hnil.
        simpl. split; [reflexivity|]. split; [reflexivity|].
        eexists. split; [reflexivity|]. simpl. auto 10.
      * rewrite app_nil_r in E. rewrite E.
        destruct (events_for session_id (stu_roll_no student) events)
          as [|e0 rest] eqn:E0.
        { exfalso. apply Hout, Habs. auto. }
        simpl. split; [reflexivity|]. split; [reflexivity|].
        exists e0. auto 10.
Qed.

Lemma close_then_report_witness :
  let w := Scenario.world (Scenario.minute 5) [Scenario.s1_present] OPEN [] in
  let w' := set_clock (Scenario.minute 8)
              (snd (SessionService.close_session Scenario.sid "CSH" "T001" w)) in
  (forall r, r ∈ stu_roll_no <$> [Scenario.s1; Scenario.s2] ->
     DataService.is_already_marked Scenario.sid r "CSH" w' = (Returned true, w'))
  /\ exists after report,
       file_of attendance "CSH" w' = Some after
       /\ DataService.get_session_attendance Scenario.sid "CSH" w'
          = (Returned report, w')
       /\ Forall2 (reported_after_close Scenario.sid [Scenario.s1_present] after)
            [Scenario.s1; Scenario.s2] report.
Proof.
  apply (close_then_report Scenario.sid "CSH" "T001"
           (Scenario.world (Scenario.minute 5) [Scenario.s1_present] OPEN [])
           (Scenario.csh [Scenario.s1_present] OPEN)
           [Scenario.the_session OPEN] [Scenario.s1; Scenario.s2]
           [Scenario.s1_present] (Scenario.minute 8));
    try reflexivity; try (by apply scenario_text_key).
  - simpl. left.
  - repeat constructor; by apply scenario_text_key.
Defined.

(** ** The counts of [update_stats] *)

Lemma round_div_percent n d :
  0 < d -> 0 <= n <= 10000 * d -> 0 <= DataService.round_div n d <= 10000.
Proof.
  intros Hd Hn. unfold DataService.round_div.
  pose proof (Z.div_mod n d ltac:(lia)) as Hdm.
  pose proof (Z.mod_pos_bound n d Hd) as Hr.
  assert (Hq : 0 <= n / d <= 10000).
  { split; [apply Z.div_pos; lia|]. apply Z.div_le_upper_bound; lia. }
  destruct (2 * (n mod d) <? d) eqn:E1; [lia|].
  apply Z.ltb_ge in E1.
  assert (n / d < 10000) by nia.
  destruct (d <? 2 * (n mod d)); [lia|].
  destruct (Z.even (n / d)); lia.
Qed.

Lemma present_absent_split (records : list AttendanceEvent) :
  (length (filter (fun e => ev_status e = PRESENT) records)
   + length (filter (fun e => ev_status e = ABSENT) records))%nat
  = length records.
Proof.
  induction records as [|e records IH]; [reflexivity|].
  rewrite !filter_cons. destruct (ev_status e) eqn:E.
  - rewrite decide_True, decide_False by done. simpl. lia.
  - rewrite decide_False, decide_True by done. simpl. lia.
Qed.

Lemma attended_le_total (events : list AttendanceEvent) r :
  (size (list_to_set (ev_session_id <$> filter (fun e => ev_roll_no e = r) events)
           : gset string)
   <= size (list_to_set (ev_session_id <$> events) : gset string))%nat.
Proof.
  apply subseteq_size. intros s Hs.
  apply elem_of_list_to_set, list_elem_of_fmap in Hs as (e & -> & He).
  apply list_elem_of_filter in He as [_ He].
  apply elem_of_list_to_set, list_elem_of_fmap. eauto.
Qed.

Lemma student_stats_add_up events student :
  NoDup (ev_session_id
           <$> filter (fun e => ev_roll_no e = stu_roll_no student) events) ->
  counts_add_up
    (DataService.student_stats events
       (DataService.nunique (ev_session_id <$> events)) student).
Proof.
  intros Hnd. unfold counts_add_up, DataService.student_stats. simpl.
  set (records := filter (fun e => ev_roll_no e = stu_roll_no student) events)
    in *.
  pose proof (attended_le_total events (stu_roll_no student)) as Hle.
  fold records in Hle.
  pose proof (present_absent_split records) as Hsplit.
  pose proof (size_list_to_set (C := gset string) _ Hnd) as Hsize.
  rewrite length_fmap in Hsize.
  unfold DataService.nunique, DataService.len in *.
  set (total := size (list_to_set (ev_session_id <$> events) : gset string)) in *.
  set (p := length (filter (fun e => ev_status e = PRESENT) records)) in *.
  set (a := length (filter (fun e => ev_status e = ABSENT) records)) in *.
  assert (Hcounts :
            match records with
            | [] => (0, Z.of_nat total)
            | _ :: _ =>
                (Z.of_nat p,
                 Z.of_nat a
                 + (Z.of_nat total
                    - Z.of_nat (size (list_to_set (ev_session_id <$> records)
                                        : gset string))))
            end
            = (Z.of_nat p, Z.of_nat total - Z.of_nat p)).
  { destruct records as [|e0 rest] eqn:E.
    - unfold p. rewrite filter_nil. simpl. f_equal. lia.
    - rewrite <- E in *. f_equal. lia. }
  rewrite Hcounts. simpl.
  assert (Hp : (p <= total)%nat) by lia.
  split; [lia|]. split; [lia|]. split; [lia|].
  unfold DataService.attendance_pct.
  destruct (0 <? Z.of_nat total) eqn:Ht; [|lia].
  apply Z.ltb_lt in Ht. apply round_div_percent; lia.
Qed.

(** X7: the counts add up when the ledger has at most one event per
    (session, student).  With roster and ledger readable, if no roster
    student has two events of the same session, every record
    [update_stats] writes has [present_days + absent_days = total_days],
    no negative count, and a percentage between 0.00 and 100.00. *)
Theorem update_stats_counts_add_up b w f roster events :
  faults w = [] -> branch_dirs w !! b = Some f ->
  students f = Some roster -> attendance f = Some events ->
  (forall student, student ∈ roster ->
     NoDup (ev_session_id
              <$> filter (fun e => ev_roll_no e = stu_roll_no student) events)) ->
  exists table,
    file_of stats b (snd (DataService.update_stats b w)) = Some table
    /\ length table = length roster
    /\ Forall counts_add_up table.
Proof.
  intros Hf Hd Hs Ha Hnd.
  rewrite (update_stats_ok b w f roster events) by done.
  cbn [snd]. rewrite file_of_with_branch. simpl.
  eexists. split; [reflexivity|].
  unfold recomputed_stats. destruct events as [|e events'].
  - split; [apply length_fmap|]. apply Forall_fmap, Forall_forall.
    intros student _. unfold counts_add_up. simpl. lia.
  - split; [apply length_fmap|]. apply Forall_fmap, Forall_forall.
    intros student Hin. apply student_stats_add_up. by apply Hnd.
Qed.

Lemma update_stats_counts_add_up_witness :
  exists table,
    file_of stats "CSH"
      (snd (DataService.update_stats "CSH"
              (Scenario.world (Scenario.minute 2) [Scenario.s1_present] OPEN [])))
    = Some table
    /\ length table = length [Scenario.s1; Scenario.s2]
    /\ Forall counts_add_up table.
Proof.
  apply (update_stats_counts_add_up "CSH"
           (Scenario.world (Scenario.minute 2) [Scenario.s1_present] OPEN [])
           (Scenario.csh [Scenario.s1_present] OPEN)
           [Scenario.s1; Scenario.s2] [Scenario.s1_present]);
    try reflexivity.
  intros student Hin.
  apply elem_of_cons in Hin as [->|Hin];
    [|apply elem_of_cons in Hin as [->|Hin];
      [|by apply not_elem_of_nil in Hin]];
    vm_compute; repeat constructor.
  intros Hin. by apply not_elem_of_nil in Hin.
Defined.

(** ** [get_attendance_stats] and the statistics after a ledger write *)

Lemma get_attendance_stats_stored b w table :
  faults w = [] -> file_of stats b w = Some table ->
  DataService.get_attendance_stats b w = (Returned table, w).
Proof.
  intros Hf Ht. unfold DataService.get_attendance_stats, try_except.
  rewrite bind_path_exists, Ht, bool_decide_eq_true_2 by eauto. cbn [negb].
  rewrite (bind_returned _ _ w tt w) by reflexivity.
  read_table table. reflexivity.
Qed.

Lemma stats_fresh_after_write b roster events f later w :
  faults w = [] -> students f = Some roster ->
  stats_served_fresh b roster
    (set_clock later
       (with_branch b
          (set_stats (recomputed_stats roster events) (set_attendance events f))
          w)).
Proof.
  intros Hf Hs. exists events.
  rewrite !file_of_at_time, !file_of_with_branch. simpl.
  split; [done|]. split; [done|].
  apply get_attendance_stats_stored; [done|].
  by rewrite file_of_at_time, file_of_with_branch.
Qed.

(** X8: the statistics follow the ledger.  With roster and ledger
    readable, the session id and the roll numbers of the roster keys that
    are read back as text, and the time stamps of the ledger and the
    current time written with microseconds, after a
    [DataService.mark_attendance] or a [manual_override_attendance] for a
    roster student, and after a [mark_absentees_auto],
    [get_attendance_stats] returns, at any later time, exactly the records
    recomputed from the roster and the ledger then on file. *)
Theorem stats_follow_ledger session_id r b w f roster events later :
  faults w = [] -> branch_dirs w !! b = Some f ->
  students f = Some roster -> attendance f = Some events ->
  r ∈ stu_roll_no <$> roster ->
  text_key (reads_as_text w) session_id ->
  Forall (text_key (reads_as_text w)) (stu_roll_no <$> roster) ->
  Forall (fun e => with_microseconds (ev_marked_at e)) events ->
  with_microseconds (clock w) ->
  (forall how marked_by,
     stats_served_fresh b roster
       (set_clock later
          (snd (DataService.mark_attendance session_id r b how marked_by w))))
  /\ (forall st teacher_id reason,
        stats_served_fresh b roster
          (set_clock later
             (snd (DataService.manual_override_attendance session_id r b st
                     teacher_id reason w))))
  /\ stats_served_fresh b roster
       (set_clock later (snd (DataService.mark_absentees_auto session_id b w))).
Proof.
  intros Hf Hd Hs Ha Hin Hsid Hkeys _ _.
  assert (Hr : text_key (reads_as_text w) r)
    by (by apply (proj1 (Forall_forall _ _) Hkeys)).
  split; [|split].
  - intros how marked_by.
    rewrite (mark_attendance_appends session_id r b how marked_by w f roster
               events) by (try split; auto).
    cbn [snd]. cbv zeta. apply stats_fresh_after_write; [done|].
    simpl. by rewrite Hs.
  - intros st teacher_id reason.
    rewrite (manual_override_ok session_id r b st teacher_id reason w f roster
               events) by done.
    cbn [snd]. cbv zeta. by apply stats_fresh_after_write.
  - rewrite (mark_absentees_auto_ok session_id b w f roster events) by done.
    cbn [snd]. by apply stats_fresh_after_write.
Qed.

Lemma stats_follow_ledger_witness :
  let w := Scenario.world (Scenario.minute 2) [Scenario.s1_present] OPEN [] in
  stats_served_fresh "CSH" [Scenario.s1; Scenario.s2]
    (set_clock (Scenario.minute 9)
       (snd (DataService.mark_absentees_auto Scenario.sid "CSH" w))).
Proof.
  apply (stats_follow_ledger Scenario.sid "CS21HCI001" "CSH"
           (Scenario.world (Scenario.minute 2) [Scenario.s1_present] OPEN [])
           (Scenario.csh [Scenario.s1_present] OPEN)
           [Scenario.s1; Scenario.s2] [Scenario.s1_present] (Scenario.minute 9));
    try reflexivity; try (by apply scenario_text_key).
  - simpl. left.
  - repeat constructor; by apply scenario_text_key.
  - repeat constructor. by vm_compute.
  - by vm_compute.
Defined.

(** ** [get_active_session]: what it answers *)

Lemma get_active_session_answer_sound b w s w' :
  faults w = [] ->
  SessionService.get_active_session b w = (Returned (Some s), w') ->
  exists rows,
    file_of sessions b w = Some rows
    /\ s ∈ rows /\ ses_status s = OPEN /\ clock w < ses_deadline_time s.
Proof.
  intros Hf. unfold SessionService.get_active_session, try_except.
  rewrite bind_path_exists.
  destruct (file_of sessions b w) as [rows|] eqn:Hr.
  - rewrite bool_decide_eq_true_2 by eauto. cbn [negb].
    read_table rows.
    destruct (filter (fun x => ses_status x = OPEN) rows) as [|s0 l0] eqn:El;
      [discriminate|].
    rewrite (bind_returned _ _ w (clock w) w) by reflexivity.
    destruct (scan_open_sessions_effect b (clock w) (s0 :: l0) w Hf)
      as (res & w1 & E & _ & _ & Hsome).
    rewrite E. intros [= -> ->].
    destruct (Hsome s eq_refl) as [Hin Hlt].
    rewrite <- El in Hin. apply list_elem_of_filter in Hin as [Ho Hin].
    eauto.
  - rewrite bool_decide_eq_false_2 by (intros [? ?]; done). discriminate.
Qed.

(** X9: [get_active_session] never raises, and with no read fault it
    answers with a session exactly when the table of the branch holds an
    open session short of its deadline; the session it answers with is
    such a row; when it answers [None] no row of the table is open any
    more; and in either case the table has the same rows as before,
    except that some open ones were closed. *)
Theorem get_active_session_answer b w :
  faults w = [] ->
  exists res w',
    SessionService.get_active_session b w = (Returned res, w')
    /\ (is_Some res <->
        exists rows s, file_of sessions b w = Some rows /\ s ∈ rows
                       /\ ses_status s = OPEN /\ clock w < ses_deadline_time s)
    /\ (forall s, res = Some s ->
          exists rows, file_of sessions b w = Some rows /\ s ∈ rows
                       /\ ses_status s = OPEN /\ clock w < ses_deadline_time s)
    /\ (res = None ->
        forall rows', file_of sessions b w' = Some rows' ->
                      open_count rows' = 0%nat)
    /\ only_closes b w w'.
Proof.
  intros Hf.
  destruct (get_active_session_effect b w Hf) as (res & w' & E & Hoc & Hnone).
  exists res, w'. split; [exact E|].
  assert (Hsound : forall s, res = Some s ->
            exists rows, file_of sessions b w = Some rows /\ s ∈ rows
                         /\ ses_status s = OPEN /\ clock w < ses_deadline_time s).
  { intros s ->. by apply (get_active_session_answer_sound b w s w'). }
  split; [|split; [exact Hsound | split; [exact Hnone | exact Hoc]]].
  split.
  - intros [s ->]. destruct (Hsound s eq_refl) as (rows & ?). eauto.
  - intros (rows & s & Hr & Hs & Ho & Hlt).
    destruct (get_active_session_finds b w rows s Hf Hr Hs Ho Hlt)
      as (s' & w'' & E' & _).
    rewrite E in E'. injection E' as -> _. eauto.
Qed.

Lemma get_active_session_answer_witness :
  exists res w',
    SessionService.get_active_session "CSH"
      (Scenario.world (Scenario.minute 6) [] OPEN []) = (Returned res, w')
    /\ (res = None ->
        forall rows', file_of sessions "CSH" w' = Some rows' ->
                      open_count rows' = 0%nat).
Proof.
  destruct (get_active_session_answer "CSH"
              (Scenario.world (Scenario.minute 6) [] OPEN []) eq_refl)
    as (res & w' & E & _ & _ & Hnone & _).
  exists res, w'. split; [exact E | exact Hnone].
Defined.

(** ** [get_session_time_remaining] *)

Lemma get_session_time_remaining_ok session_id b w rows :
  faults w = [] -> file_of sessions b w = Some rows ->
  SessionService.get_session_time_remaining session_id b w
  = (Returned
       match filter (fun s => ses_session_id s = session_id) rows with
       | [] => None
       | session_data :: _ =>
           if negb (bool_decide (ses_status session_data = OPEN)) then Some 0
           else if ses_deadline_time session_data <=? clock w then Some 0
           else Some (SessionService.whole_minutes
                        (ses_deadline_time session_data - clock w))
       end, w).
Proof.
  intros Hf Hr. unfold SessionService.get_session_time_remaining, try_except.
  read_table rows.
  destruct (filter (fun s => ses_session_id s = session_id) rows) as [|s rest];
    [reflexivity|].
  destruct (negb (bool_decide (ses_status s = OPEN))); [reflexivity|].
  rewrite (bind_returned _ _ w (clock w) w) by reflexivity.
  destruct (ses_deadline_time s <=? clock w); reflexivity.
Qed.

(** X10: [get_session_time_remaining] agrees with [is_session_active].
    With the session table readable: the answer is [None] exactly when no
    row carries the id; when the session is not active (not open, or at
    or past its deadline) the answer is 0; and when it is active the
    answer [m] is the number of whole minutes left,
    [m * 60 s <= deadline - now < (m + 1) * 60 s], so it is 0 during the
    last minute although the session still accepts marks. *)
Theorem time_remaining_agrees_with_active session_id b w rows :
  faults w = [] -> file_of sessions b w = Some rows ->
  exists active remaining,
    Utils.is_session_active session_id b w = (Returned active, w)
    /\ SessionService.get_session_time_remaining session_id b w
       = (Returned remaining, w)
    /\ (remaining = None <-> session_id ∉ ses_session_id <$> rows)
    /\ (session_id ∈ ses_session_id <$> rows -> active = false ->
        remaining = Some 0)
    /\ (active = true ->
        exists s m,
          head (filter (fun x => ses_session_id x = session_id) rows) = Some s
          /\ remaining = Some m /\ 0 <= m
          /\ m * 60000000 <= ses_deadline_time s - clock w < (m + 1) * 60000000).
Proof.
  intros Hf Hr.
  rewrite (is_session_active_ok session_id b w rows) by done.
  rewrite (get_session_time_remaining_ok session_id b w rows) by done.
  eexists. eexists. split; [reflexivity|]. split; [reflexivity|].
  destruct (filter (fun x => ses_session_id x = session_id) rows)
    as [|s rest] eqn:E.
  - split; [|split; [|discriminate]].
    + split; [intros _|reflexivity]. intros Hin.
      apply list_elem_of_fmap in Hin as (x & -> & Hx).
      assert (Hx' : x ∈ filter (fun y => ses_session_id y = ses_session_id x) rows)
        by (apply list_elem_of_filter; auto).
      rewrite E in Hx'. by apply not_elem_of_nil in Hx'.
    + intros Hin. exfalso.
      apply list_elem_of_fmap in Hin as (x & -> & Hx).
      assert (Hx' : x ∈ filter (fun y => ses_session_id y = ses_session_id x) rows)
        by (apply list_elem_of_filter; auto).
      rewrite E in Hx'. by apply not_elem_of_nil in Hx'.
  - assert (Hin : session_id ∈ ses_session_id <$> rows).
    { assert (Hs : s ∈ filter (fun x => ses_session_id x = session_id) rows)
        by (rewrite E; left).
      apply list_elem_of_filter in Hs as [<- Hs].
      apply list_elem_of_fmap. eauto. }
    destruct (bool_decide (ses_status s = OPEN)); simpl.
    + destruct (clock w <? ses_deadline_time s) eqn:Hlt.
      * apply Z.ltb_lt in Hlt.
        replace (ses_deadline_time s <=? clock w) with false
          by (symmetry; apply Z.leb_gt; lia).
        split; [split; [discriminate | contradiction]|].
        split; [discriminate|]. intros _. exists s. eexists.
        split; [reflexivity|]. split; [reflexivity|].
        unfold SessionService.whole_minutes.
        pose proof (Z.div_mod (ses_deadline_time s - clock w) 60000000
                      ltac:(lia)).
        pose proof (Z.mod_pos_bound (ses_deadline_time s - clock w) 60000000
                      ltac:(lia)).
        assert (0 <= (ses_deadline_time s - clock w) / 60000000)
          by (apply Z.div_pos; lia).
        lia.
      * apply Z.ltb_ge in Hlt.
        replace (ses_deadline_time s <=? clock w) with true
          by (symmetry; apply Z.leb_le; lia).
        split; [split; [discriminate | contradiction]|].
        split; [reflexivity | discriminate].
    + split; [split; [discriminate | contradiction]|].
      split; [reflexivity | discriminate].
Qed.

Lemma time_remaining_agrees_with_active_witness :
  exists active remaining,
    Utils.is_session_active Scenario.sid "CSH"
      (Scenario.world (Scenario.minute 4 + 30000000) [] OPEN [])
    = (Returned active,
       Scenario.world (Scenario.minute 4 + 30000000) [] OPEN [])
    /\ SessionService.get_session_time_remaining Scenario.sid "CSH"
         (Scenario.world (Scenario.minute 4 + 30000000) [] OPEN [])
       = (Returned remaining,
          Scenario.world (Scenario.minute 4 + 30000000) [] OPEN [])
    /\ active = true /\ remaining = Some 0.
Proof.
  destruct (time_remaining_agrees_with_active Scenario.sid "CSH"
              (Scenario.world (Scenario.minute 4 + 30000000) [] OPEN [])
              [Scenario.the_session OPEN] eq_refl eq_refl)
    as (active & remaining & E1 & E2 & _).
  exists active, remaining. split; [exact E1|]. split; [exact E2|].
  vm_compute in E1, E2. split; congruence.
Defined.

(** ** A session from its start to its deadline *)

Section Lifetime.
Variable strftime : datetime -> string.

Lemma started_table teacher_id b minutes w :
  faults w = [] ->
  file_of sessions b
    (snd (SessionService.start_session strftime teacher_id b minutes w))
  = Some (default [] (file_of sessions b w)
            ++ [new_session strftime teacher_id b minutes (clock w)]).
Proof.
  intros Hf. rewrite (start_session_ok strftime teacher_id b minutes w Hf).
  cbn [snd]. by rewrite file_of_with_branch.
Qed.

Lemma started_faults teacher_id b minutes w :
  faults w = [] ->
  faults (snd (SessionService.start_session strftime teacher_id b minutes w)) = [].
Proof.
  intros Hf. by rewrite (start_session_ok strftime teacher_id b minutes w Hf).
Qed.

(** X11: [start_session] followed by [is_session_active].  With no read
    fault, [start_session] returns the id ["S_" + timestamp + "_" +
    branch] and appends one open row after the rows on file; and when no
    earlier row carries that id, the session is active at a time [t]
    exactly when [t] is before start + [deadline_minutes] minutes. *)
Theorem started_session_lifetime teacher_id b minutes w t :
  faults w = [] ->
  let sid := "S_" +:+ strftime (clock w) +:+ "_" +:+ b in
  sid ∉ ses_session_id <$> default [] (file_of sessions b w) ->
  let started := SessionService.start_session strftime teacher_id b minutes w in
  let w1 := set_clock t (snd started) in
  (exists r, fst started = Returned r /\ sr_session_id r = sid
             /\ sr_status r = OPEN
             /\ sr_deadline_time r = clock w + minutes * 60000000)
  /\ file_of sessions b (snd started)
     = Some (default [] (file_of sessions b w)
               ++ [{| ses_session_id := sid;
                      ses_teacher_id := teacher_id;
                      ses_branch_code := b;
                      ses_start_time := clock w;
                      ses_deadline_time := clock w + minutes * 60000000;
                      ses_status := OPEN |}])
  /\ Utils.is_session_active sid b w1
     = (Returned (t <? clock w + minutes * 60000000), w1).
Proof.
  intros Hf sid Hfresh started w1.
  pose proof (started_table teacher_id b minutes w Hf) as Htable.
  pose proof (started_faults teacher_id b minutes w Hf) as Hf1.
  fold started in Htable, Hf1.
  split; [|split].
  - unfold started.
    rewrite (start_session_ok strftime teacher_id b minutes w Hf).
    eexists. split; [reflexivity|]. simpl. auto.
  - exact Htable.
  - rewrite (is_session_active_ok sid b w1 _ Hf1 Htable).
    rewrite filter_app.
    rewrite (filter_none (fun s => ses_session_id s = sid)
               (default [] (file_of sessions b w))).
    2:{ apply Forall_forall. intros s Hs Hid. apply Hfresh.
        apply list_elem_of_fmap. eauto. }
    rewrite filter_cons, decide_True by reflexivity. reflexivity.
Qed.

(** X12: an id that is already on file shadows the new session.  When
    the first row carrying the generated id is not open (the teacher
    closed a session and starts again within the same second),
    [start_session] still appends an open row, [get_active_session]
    answers with a session before the deadline, and yet
    [is_session_active] is false for the id at every time: marks for the
    new session are turned away. *)
Theorem restarted_session_is_shadowed teacher_id b minutes w rows s0 rest t :
  faults w = [] -> file_of sessions b w = Some rows ->
  filter (fun s => ses_session_id s = "S_" +:+ strftime (clock w) +:+ "_" +:+ b)
    rows = s0 :: rest ->
  ses_status s0 <> OPEN ->
  t < clock w + minutes * 60000000 ->
  let sid := "S_" +:+ strftime (clock w) +:+ "_" +:+ b in
  let w1 := set_clock t
              (snd (SessionService.start_session strftime teacher_id b minutes w))
  in
  Utils.is_session_active sid b w1 = (Returned false, w1)
  /\ exists s w2,
       SessionService.get_active_session b w1 = (Returned (Some s), w2).
Proof.
  intros Hf Hr Hfirst Hclosed Hlt sid w1.
  pose proof (started_table teacher_id b minutes w Hf) as Htable.
  pose proof (started_faults teacher_id b minutes w Hf) as Hf1.
  rewrite Hr in Htable. simpl in Htable.
  split.
  - rewrite (is_session_active_ok sid b w1 _ Hf1 Htable).
    rewrite filter_app. fold sid in Hfirst. rewrite Hfirst. simpl.
    by rewrite bool_decide_eq_false_2.
  - destruct (get_active_session_finds b w1
                (rows ++ [new_session strftime teacher_id b minutes (clock w)])
                (new_session strftime teacher_id b minutes (clock w)))
      as (s & w2 & E & _); try done.
    + apply elem_of_app. right. left.
    + eauto.
Qed.

End Lifetime.

Lemma started_session_lifetime_witness :
  let w := Scenario.fresh in
  let started := SessionService.start_session Scenario.strftime "T001" "CSH" 5 w in
  let w1 := set_clock 120000000 (snd started) in
  Utils.is_session_active "S_20240102_093000_CSH" "CSH" w1
  = (Returned (120000000 <? clock w + 5 * 60000000), w1).
Proof.
  apply (started_session_lifetime Scenario.strftime "T001" "CSH" 5
           Scenario.fresh 120000000 eq_refl).
  vm_compute. intros Hin. by apply not_elem_of_nil in Hin.
Defined.

Lemma restarted_session_is_shadowed_witness :
  let w := Scenario.world (Scenario.minute 7) [] CLOSED [] in
  let w1 := set_clock (Scenario.minute 8)
              (snd (SessionService.start_session Scenario.strftime "T001" "CSH"
                      5 w)) in
  Utils.is_session_active Scenario.sid "CSH" w1 = (Returned false, w1)
  /\ exists s w2,
       SessionService.get_active_session "CSH" w1 = (Returned (Some s), w2).
Proof.
  apply (restarted_session_is_shadowed Scenario.strftime "T001" "CSH" 5
           (Scenario.world (Scenario.minute 7) [] CLOSED [])
           [Scenario.the_session CLOSED] (Scenario.the_session CLOSED) []
           (Scenario.minute 8));
    try reflexivity.
  discriminate.
Defined.

(** ** [cleanup_expired_sessions] *)

Lemma close_if_nil s : close_if [] s = s.
Proof.
  unfold close_if. rewrite decide_False; [reflexivity|]. apply not_elem_of_nil.
Qed.

Lemma close_if_id ids s : ses_session_id (close_if ids s) = ses_session_id s.
Proof. unfold close_if. by destruct (decide _). Qed.

Lemma close_if_open ids s :
  ses_status (close_if ids s) = OPEN ->
  close_if ids s = s /\ (ses_session_id s ∉ ids) /\ ses_status s = OPEN.
Proof.
  unfold close_if. destruct (decide (ses_session_id s ∈ ids)); [discriminate|].
  auto.
Qed.

Lemma close_row_as_close_if session_id s :
  SessionService.close_row session_id s = close_if [session_id] s.
Proof.
  unfold SessionService.close_row, close_if.
  destruct (decide (ses_session_id s = session_id)) as [E|E].
  - rewrite decide_True; [reflexivity|]. rewrite E. left.
  - rewrite decide_False; [reflexivity|].
    intros Hin. apply list_elem_of_singleton in Hin. contradiction.
Qed.

Lemma close_if_app ids1 ids2 s :
  close_if ids2 (close_if ids1 s) = close_if (ids1 ++ ids2) s.
Proof.
  unfold close_if at 2 3.
  destruct (decide (ses_session_id s ∈ ids1)) as [H1|H1].
  - rewrite decide_True by (apply elem_of_app; auto).
    unfold close_if. simpl. by destruct (decide _).
  - unfold close_if.
    destruct (decide (ses_session_id s ∈ ids2)) as [H2|H2].
    + rewrite decide_True by (apply elem_of_app; auto). reflexivity.
    + rewrite decide_False; [reflexivity|]. rewrite elem_of_app. tauto.
Qed.

Lemma close_if_app_rows ids1 ids2 (rows : list Session) :
  (close_if ids2 <$> (close_if ids1 <$> rows))
  = ((close_if (ids1 ++ ids2)) <$> rows).
Proof.
  rewrite <- list_fmap_compose. apply list_fmap_ext. intros i s _.
  apply close_if_app.
Qed.

Lemma close_if_nil_rows (rows : list Session) : close_if [] <$> rows = rows.
Proof.
  rewrite <- (list_fmap_id rows) at 2. apply list_fmap_ext. intros i s _.
  apply close_if_nil.
Qed.

Lemma close_if_closed_more ids rows : closed_more rows (close_if ids <$> rows).
Proof.
  unfold closed_more. apply Forall2_fmap_r, Forall_Forall2_diag, Forall_forall.
  intros s _. unfold row_closed_or_kept, close_if. simpl.
  case_decide; simpl; auto.
Qed.

Lemma swept_refl t w : swept t w w.
Proof.
  unfold swept. repeat split; try done. intros b.
  destruct (file_of sessions b w) as [rows|]; [|reflexivity].
  exists []. by rewrite close_if_nil_rows.
Qed.

Lemma swept_trans t w1 w2 w3 : swept t w1 w2 -> swept t w2 w3 -> swept t w1 w3.
Proof.
  intros (Hf & Hc & Hb & H12) (Hf' & Hc' & Hb' & H23).
  unfold swept. repeat split; try congruence. intros b.
  specialize (H12 b). specialize (H23 b).
  destruct (file_of sessions b w1) as [rows|].
  - destruct H12 as (ids1 & E1 & Hall1). rewrite E1 in H23.
    destruct H23 as (ids2 & E2 & Hall2).
    exists (ids1 ++ ids2). rewrite E2, close_if_app_rows.
    split; [reflexivity|]. apply Forall_app. split; [exact Hall1|].
    eapply Forall_impl; [exact Hall2|]. intros sid (s1 & Hs1 & Hid & Ho & Hd).
    apply list_elem_of_fmap in Hs1 as (s & -> & Hs).
    destruct (close_if_open ids1 s Ho) as (E & _ & Ho').
    rewrite E in *. exists s. unfold SessionService.expired_open. auto.
  - by rewrite H12 in H23.
Qed.

Lemma none_expired_swept t b w w' :
  swept t w w' -> none_expired t b w -> none_expired t b w'.
Proof.
  intros (_ & _ & _ & Htables) Hq rows' s' Hr' Hs' Ho.
  specialize (Htables b).
  destruct (file_of sessions b w) as [rows|] eqn:Hr; [|congruence].
  destruct Htables as (ids & E & _). rewrite E in Hr'. injection Hr' as <-.
  apply list_elem_of_fmap in Hs' as (s & -> & Hs).
  destruct (close_if_open ids s Ho) as (-> & _ & Ho').
  by apply (Hq rows s).
Qed.

Lemma close_session_sessions session_id b teacher_id w rows :
  faults w = [] -> file_of sessions b w = Some rows ->
  exists r w',
    SessionService.close_session session_id b teacher_id w = (Returned r, w')
    /\ file_of sessions b w' = Some (close_if [session_id] <$> rows)
    /\ (forall b', b' <> b -> file_of sessions b' w' = file_of sessions b' w)
    /\ faults w' = [] /\ clock w' = clock w /\ branches_csv w' = branches_csv w.
Proof.
  intros Hf Hr.
  assert (Hmap : SessionService.close_row session_id <$> rows
                 = close_if [session_id] <$> rows).
  { apply list_fmap_ext. intros i s _. apply close_row_as_close_if. }
  destruct (decide (session_id ∈ ses_session_id <$> rows)) as [Hin|Hout].
  - destruct (close_session_table session_id b teacher_id w rows Hf Hr Hin)
      as (Hret & Htable & Hothers & Hf' & Hc & Hb).
    destruct (SessionService.close_session session_id b teacher_id w)
      as [r w'] eqn:E. simpl in *. subst r.
    exists true, w'. rewrite <- Hmap. auto 10.
  - rewrite (close_session_unknown session_id b teacher_id w rows) by done.
    exists false, w. split; [reflexivity|]. split; [|auto].
    rewrite Hr. f_equal. rewrite <- (list_fmap_id rows) at 1.
    apply list_fmap_ext. intros i s Hs. simpl. unfold close_if.
    rewrite decide_False; [reflexivity|]. intros Hin.
    apply list_elem_of_singleton in Hin. apply Hout.
    apply list_elem_of_fmap. exists s. split; [done|].
    by apply list_elem_of_lookup_2 in Hs.
Qed.

Lemma close_expired_effect b l : forall w rows,
  faults w = [] -> file_of sessions b w = Some rows ->
  exists w',
    SessionService.close_expired b l w = (Returned tt, w')
    /\ file_of sessions b w' = Some (close_if (ses_session_id <$> l) <$> rows)
    /\ (forall b', b' <> b -> file_of sessions b' w' = file_of sessions b' w)
    /\ faults w' = [] /\ clock w' = clock w /\ branches_csv w' = branches_csv w.
Proof.
  induction l as [|s l IH]; intros w rows Hf Hr; simpl.
  - exists w. rewrite close_if_nil_rows. auto 10.
  - destruct (close_session_sessions (ses_session_id s) b (ses_teacher_id s)
                w rows Hf Hr) as (r & w1 & E & Ht & Ho & Hf1 & Hc1 & Hb1).
    rewrite (bind_returned _ _ w r w1 E).
    destruct (IH w1 _ Hf1 Ht) as (w' & E' & Ht' & Ho' & Hf' & Hc' & Hb').
    exists w'. split; [exact E'|]. rewrite Ht', close_if_app_rows.
    split; [reflexivity|]. split; [|split; [done | split; congruence]].
    intros b' Hne. rewrite Ho' by done. by apply Ho.
Qed.

Lemma sweep_branches_effect t branches : forall w,
  faults w = [] ->
  exists w',
    SessionService.sweep_branches t branches w = (Returned tt, w')
    /\ swept t w w'
    /\ forall b, b ∈ br_branch_code <$> branches -> none_expired t b w'.
Proof.
  induction branches as [|branch rest IH]; intros w Hf; simpl.
  - exists w. split; [reflexivity|]. split; [apply swept_refl|].
    intros b Hb. by apply not_elem_of_nil in Hb.
  - set (b := br_branch_code branch). rewrite bind_path_exists.
    assert (Hstep : exists w1,
              (if bool_decide (is_Some (file_of sessions b w))
               then let* sessions_df := read_csv sessions b in
                    SessionService.close_expired b
                      (filter (SessionService.expired_open t) sessions_df)
               else ret tt) w = (Returned tt, w1)
              /\ swept t w w1 /\ none_expired t b w1).
    { destruct (file_of sessions b w) as [rows|] eqn:Hr.
      - rewrite bool_decide_eq_true_2 by eauto.
        destruct (close_expired_effect b
                    (filter (SessionService.expired_open t) rows) w rows Hf Hr)
          as (w1 & E & Ht & Ho & Hf1 & Hc1 & Hb1).
        exists w1. split; [|split].
        + read_table rows. exact E.
        + unfold swept. split; [congruence|]. split; [done|]. split; [done|].
          intros b0. destruct (decide (b0 = b)) as [->|Hne].
          * rewrite Hr. eexists. split; [exact Ht|].
            apply Forall_fmap, Forall_forall. intros s Hs.
            apply list_elem_of_filter in Hs as [He Hs]. simpl. eauto.
          * rewrite (Ho b0 Hne).
            destruct (file_of sessions b0 w) as [rows0|]; [|reflexivity].
            exists []. by rewrite close_if_nil_rows.
        + intros rows' s' Hr' Hs' Hopen. rewrite Ht in Hr'. injection Hr' as <-.
          apply list_elem_of_fmap in Hs' as (s & -> & Hs).
          destruct (close_if_open _ s Hopen) as (-> & Hid & Ho').
          destruct (Z_lt_le_dec (ses_deadline_time s) t) as [Hlt|Hge]; [|exact Hge].
          exfalso. apply Hid. apply list_elem_of_fmap. exists s.
          split; [reflexivity|]. apply list_elem_of_filter.
          unfold SessionService.expired_open. auto.
      - rewrite bool_decide_eq_false_2 by (intros [? ?]; done).
        exists w. split; [reflexivity|]. split; [apply swept_refl|].
        intros rows s Hr'. congruence. }
    destruct Hstep as (w1 & E1 & Hsw1 & Hq1).
    rewrite (bind_returned _ _ w tt w1 E1).
    assert (Hf1 : faults w1 = []) by (destruct Hsw1 as (-> & _); done).
    destruct (IH w1 Hf1) as (w' & E' & Hsw' & Hq').
    exists w'. split; [exact E'|].
    split; [by apply swept_trans with w1|].
    intros b0 Hb0. apply elem_of_cons in Hb0 as [->|Hb0].
    + by apply (none_expired_swept t b w1 w').
    + by apply Hq'.
Qed.

Lemma one_open_swept t w w' :
  swept t w w' -> one_open_per_branch w -> one_open_per_branch w'.
Proof.
  intros (_ & _ & _ & Htables) Hinv b rows' Hr'. specialize (Htables b).
  destruct (file_of sessions b w) as [rows|] eqn:Hr; [|congruence].
  destruct Htables as (ids & E & _). rewrite E in Hr'. injection Hr' as <-.
  pose proof (closed_more_open_count rows _ (close_if_closed_more ids rows)).
  pose proof (Hinv b rows Hr). lia.
Qed.

(** X13: the sweep.  With [branches.csv] readable and no read fault,
    [cleanup_expired_sessions] returns normally, and afterwards no branch
    listed in [branches.csv] has an open session whose deadline is before
    the time of the sweep.  Every session table keeps its rows: a row is
    changed only by getting status closed, and only when its id is that of
    an open session of the table past its deadline (so a session exactly
    at its deadline is left open).  No table is created, and at most one
    open session per branch stays true. *)
Theorem cleanup_closes_expired w branches :
  faults w = [] -> branches_csv w = Some branches ->
  exists w',
    SessionService.cleanup_expired_sessions w = (Returned tt, w')
    /\ swept (clock w) w w'
    /\ (forall b, b ∈ br_branch_code <$> branches -> none_expired (clock w) b w')
    /\ (one_open_per_branch w -> one_open_per_branch w').
Proof.
  intros Hf Hb. unfold SessionService.cleanup_expired_sessions, try_except.
  rewrite (bind_returned _ _ w branches w).
  2:{ unfold read_branches. by rewrite (next_fault_quiet w Hf), Hb. }
  rewrite (bind_returned _ _ w (clock w) w) by reflexivity.
  destruct (sweep_branches_effect (clock w) branches w Hf) as (w' & E & Hsw & Hq).
  rewrite E. exists w'. split; [reflexivity|]. split; [exact Hsw|].
  split; [exact Hq|]. by apply one_open_swept with (clock w).
Qed.

Lemma cleanup_closes_expired_witness :
  exists w',
    SessionService.cleanup_expired_sessions
      (Scenario.world (Scenario.minute 6) [Scenario.s1_present] OPEN [])
    = (Returned tt, w')
    /\ none_expired (Scenario.minute 6) "CSH" w'.
Proof.
  destruct (cleanup_closes_expired
              (Scenario.world (Scenario.minute 6) [Scenario.s1_present] OPEN [])
              Scenario.branches eq_refl eq_refl) as (w' & E & _ & Hq & _).
  exists w'. split; [exact E|]. apply Hq. simpl. left.
Defined.

(** X14: a read failure ends the sweep.  When the read of the session
    table of the first listed branch fails, [cleanup_expired_sessions]
    still returns normally, and no session of any branch is closed,
    whatever has expired. *)
Theorem cleanup_stops_at_read_failure w branch rest rows fs :
  faults w = false :: true :: fs ->
  branches_csv w = Some (branch :: rest) ->
  file_of sessions (br_branch_code branch) w = Some rows ->
  SessionService.cleanup_expired_sessions w = (Returned tt, set_faults fs w).
Proof.
  intros Hf Hb Hr. unfold SessionService.cleanup_expired_sessions, try_except.
  rewrite (bind_returned _ _ w (branch :: rest) (set_faults (true :: fs) w)).
  2:{ unfold read_branches, next_fault. rewrite Hf. simpl. by rewrite Hb. }
  rewrite (bind_returned _ _ _ (clock w) (set_faults (true :: fs) w))
    by reflexivity.
  simpl. rewrite bind_path_exists.
  change (file_of sessions (br_branch_code branch) (set_faults (true :: fs) w))
    with (file_of sessions (br_branch_code branch) w).
  rewrite Hr, bool_decide_eq_true_2 by eauto.
  unfold bind at 1. unfold bind at 1.
  rewrite (read_csv_fault sessions (br_branch_code branch)
             (set_faults (true :: fs) w) fs) by reflexivity.
  reflexivity.
Qed.

Lemma cleanup_stops_at_read_failure_witness :
  SessionService.cleanup_expired_sessions
    (Scenario.world (Scenario.minute 6) [] OPEN [false; true])
  = (Returned tt,
     set_faults [] (Scenario.world (Scenario.minute 6) [] OPEN [false; true])).
Proof.
  apply (cleanup_stops_at_read_failure
           (Scenario.world (Scenario.minute 6) [] OPEN [false; true])
           {| br_branch_code := "CSH";
              br_branch_name := "CSE(HCI & Gaming Tech)" |}
           (List.tl Scenario.branches) [Scenario.the_session OPEN] []);
    reflexivity.
Defined.

(** ** QR payloads: [generate_qr_code] and [decode_qr_data] *)

Lemma hexdigit_plain c : is_hexdigit c = true -> plain_char c = true.
Proof. destruct c as [[] [] [] [] [] [] [] []]; vm_compute; congruence. Qed.

Lemma hexdigit_ascii c :
  is_hexdigit c = true -> CryptoUtils.is_ascii_char c = true.
Proof. destruct c as [[] [] [] [] [] [] [] []]; vm_compute; congruence. Qed.

Lemma all_chars_impl (p q : ascii -> bool) s :
  (forall c, p c = true -> q c = true) ->
  all_chars p s = true -> all_chars q s = true.
Proof.
  intros Hpq. induction s as [|c s IH]; [done|]. simpl.
  intros [Hc Hs]%andb_prop. by rewrite (Hpq c Hc), IH.
Qed.

Lemma all_chars_substring p n s :
  all_chars p s = true -> all_chars p (substring 0 n s) = true.
Proof.
  revert s. induction n as [|n IH]; intros [|c s]; simpl; try done.
  intros [Hc Hs]%andb_prop. by rewrite Hc, IH.
Qed.

Lemma all_chars_isascii s :
  all_chars CryptoUtils.is_ascii_char s = true -> CryptoUtils.isascii s = true.
Proof.
  induction s as [|c s IH]; [done|]. simpl.
  intros [Hc Hs]%andb_prop. by rewrite Hc, IH.
Qed.

Lemma split_plain s :
  plain s = true -> QRService.split "|" s = [s].
Proof.
  induction s as [|c s IH]; [done|]. unfold plain. simpl.
  intros [Hc Hs]%andb_prop. unfold plain_char in Hc.
  apply andb_prop in Hc as [Hc _]. apply negb_true_iff in Hc.
  rewrite Hc. fold (plain s) in Hs. by rewrite (IH Hs).
Qed.

Lemma split_plain_then s rest :
  plain s = true ->
  QRService.split "|" (s +:+ String "|" rest) = s :: QRService.split "|" rest.
Proof.
  induction s as [|c s IH]; intros Hs.
  - reflexivity.
  - unfold plain in Hs. simpl in Hs. apply andb_prop in Hs as [Hc Hs].
    unfold plain_char in Hc. apply andb_prop in Hc as [Hc _].
    apply negb_true_iff in Hc.
    change ((String c s) +:+ String "|" rest)
      with (String c (s +:+ String "|" rest)).
    simpl. rewrite Hc. fold (plain s) in Hs. by rewrite (IH Hs).
Qed.

Lemma lstrip_plain s : plain s = true -> QRService.lstrip s = s.
Proof.
  destruct s as [|c s]; [done|]. unfold plain. simpl.
  intros [Hc _]%andb_prop. unfold plain_char in Hc.
  apply andb_prop in Hc as [_ Hc]. apply negb_true_iff in Hc. by rewrite Hc.
Qed.

Lemma rstrip_plain s : plain s = true -> QRService.rstrip s = s.
Proof.
  induction s as [|c s IH]; [done|]. unfold plain. simpl.
  intros [Hc Hs]%andb_prop. fold (plain s) in Hs. rewrite (IH Hs).
  unfold plain_char in Hc. apply andb_prop in Hc as [_ Hc].
  apply negb_true_iff in Hc. rewrite Hc. by destruct s.
Qed.

Lemma strip_plain s : plain s = true -> QRService.strip s = s.
Proof.
  intros Hs. unfold QRService.strip. by rewrite lstrip_plain, rstrip_plain.
Qed.

Lemma validate_student_exists_ok r b w :
  faults w = [] ->
  QRService.validate_student_exists r b w
  = (Returned (str_in (reads_as_text w) r
                 (stu_roll_no <$> default [] (file_of students b w))),
     w).
Proof.
  intros Hf. unfold QRService.validate_student_exists, try_except.
  rewrite bind_path_exists.
  destruct (file_of students b w) as [roster|] eqn:Hs.
  - rewrite bool_decide_eq_true_2 by eauto. cbn [negb].
    read_table roster. reflexivity.
  - rewrite bool_decide_eq_false_2 by (intros [? ?]; done). reflexivity.
Qed.

Lemma next_fault_file {A} (get : BranchFiles -> option (list A)) b w :
  file_of get b (snd (next_fault w)) = file_of get b w.
Proof. unfold next_fault. by destruct (faults w). Qed.

Lemma validate_student_exists_true r b w w' :
  QRService.validate_student_exists r b w = (Returned true, w') ->
  r ∈ stu_roll_no <$> default [] (file_of students b w).
Proof.
  unfold QRService.validate_student_exists, try_except.
  rewrite bind_path_exists.
  destruct (file_of students b w) as [roster|] eqn:Hs.
  - rewrite bool_decide_eq_true_2 by eauto. cbn [negb].
    unfold bind, read_csv.
    pose proof (next_fault_file students b w) as Hn.
    destruct (next_fault w) as [[|] w1]; simpl in Hn; [discriminate|].
    rewrite Hn, Hs. unfold ret, observe. intros [= H _].
    rewrite str_in_spec in H. by apply bool_decide_eq_true_1 in H as [? _].
  - rewrite bool_decide_eq_false_2 by (intros [? ?]; done). discriminate.
Qed.

Lemma split_nonempty sep s : QRService.split sep s <> [].
Proof.
  destruct s as [|c s]; simpl; [done|].
  destruct (bool_decide (c = sep)); [done|].
  by destruct (QRService.split sep s).
Qed.

Lemma split_single s p : QRService.split "|" s = [p] -> p = s.
Proof.
  revert p. induction s as [|c s IH]; intros p Es; simpl in Es; [congruence|].
  destruct (bool_decide (c = "|"%char)).
  - injection Es as _ Es. by destruct (split_nonempty "|" s).
  - pose proof (split_nonempty "|" s) as Hne.
    destruct (QRService.split "|" s) as [|q [|q' qs]] eqn:E';
      [done | | discriminate].
    injection Es as <-. f_equal. by apply IH.
Qed.

Section QRFacts.
Variable SECRET_KEY : string.
Variable hmac_sha256_hexdigest : string -> string -> string.

Lemma signature_hex roll_no b :
  digest_is_hex SECRET_KEY hmac_sha256_hexdigest roll_no b ->
  all_chars is_hexdigit
    (CryptoUtils.generate_qr_signature SECRET_KEY hmac_sha256_hexdigest roll_no b)
  = true.
Proof. intros H. by apply all_chars_substring. Qed.

Lemma split_qr_data roll_no b :
  plain roll_no = true -> plain b = true ->
  digest_is_hex SECRET_KEY hmac_sha256_hexdigest roll_no b ->
  QRService.split "|"
    (QRService.qr_data_for SECRET_KEY hmac_sha256_hexdigest roll_no b)
  = [roll_no; b;
     CryptoUtils.generate_qr_signature SECRET_KEY hmac_sha256_hexdigest roll_no b].
Proof.
  intros Hr Hb Hd. unfold QRService.qr_data_for.
  change ("|" +:+ ?x) with (String "|" x).
  rewrite (split_plain_then roll_no) by done.
  change ("|" +:+ ?x) with (String "|" x).
  rewrite (split_plain_then b) by done.
  rewrite split_plain; [reflexivity|].
  apply (all_chars_impl is_hexdigit); [apply hexdigit_plain|].
  by apply signature_hex.
Qed.

(** The payload encoded for a student, decoded for the same branch. *)
Lemma decode_generated_payload roll_no b w :
  faults w = [] -> plain roll_no = true -> plain b = true ->
  digest_is_hex SECRET_KEY hmac_sha256_hexdigest roll_no b ->
  QRService.decode_qr_data SECRET_KEY hmac_sha256_hexdigest
    (QRService.qr_data_for SECRET_KEY hmac_sha256_hexdigest roll_no b) b w
  = (Returned
       (if str_in (reads_as_text w) roll_no
             (stu_roll_no <$> default [] (file_of students b w))
        then {| qr_success := true; qr_roll_no := Some roll_no;
                qr_message := "QR code decoded and verified successfully" |}
        else {| qr_success := false; qr_roll_no := None;
                qr_message := "Student not found in this branch" |}), w).
Proof.
  intros Hf Hr Hb Hd. unfold QRService.decode_qr_data, try_except.
  rewrite split_qr_data by done.
  set (sig := CryptoUtils.generate_qr_signature SECRET_KEY
                hmac_sha256_hexdigest roll_no b).
  assert (Hsig : all_chars is_hexdigit sig = true) by (by apply signature_hex).
  assert (Hplain : plain sig = true)
    by (apply (all_chars_impl is_hexdigit); [apply hexdigit_plain | done]).
  assert (Hascii : CryptoUtils.isascii sig = true).
  { apply all_chars_isascii, (all_chars_impl is_hexdigit);
      [apply hexdigit_ascii | done]. }
  rewrite !strip_plain by done.
  rewrite (bind_returned _ _ w true w).
  2:{ unfold CryptoUtils.verify_qr_signature, CryptoUtils.compare_digest.
      fold sig. rewrite Hascii. simpl. by rewrite bool_decide_eq_true_2. }
  cbn [negb]. rewrite bool_decide_eq_true_2 by done. cbn [negb].
  rewrite (bind_returned _ _ w _ w (validate_student_exists_ok roll_no b w Hf)).
  unfold QRService.found_or_not.
  by destruct (str_in _ _ _).
Qed.

(** X15: the QR round trip.  For a roll number and a branch code without
    separator or white space, the payload [generate_qr_code] encodes is
    decoded by [decode_qr_data] for the same branch to that roll number,
    the signature verified, exactly when the roll number is on the roster
    of the branch and its cell is read back as text; otherwise (a roll
    number that is not on the roster, or an all-digit or NA-like one) the
    answer is "Student not found in this branch".  Decoded for any other
    branch it is refused as a code of a different branch, whatever the
    roster of that branch.  Nothing is written. *)
Theorem qr_round_trip roll_no b b' w :
  faults w = [] -> plain roll_no = true -> plain b = true ->
  digest_is_hex SECRET_KEY hmac_sha256_hexdigest roll_no b ->
  let roll_nos := stu_roll_no <$> default [] (file_of students b w) in
  QRService.decode_qr_data SECRET_KEY hmac_sha256_hexdigest
    (QRService.qr_data_for SECRET_KEY hmac_sha256_hexdigest roll_no b) b w
  = (Returned
       (if bool_decide (roll_no ∈ roll_nos
                        ∧ reads_as_text w roll_nos roll_no = true)
        then {| qr_success := true; qr_roll_no := Some roll_no;
                qr_message := "QR code decoded and verified successfully" |}
        else {| qr_success := false; qr_roll_no := None;
                qr_message := "Student not found in this branch" |}), w)
  /\ (b' <> b ->
      QRService.decode_qr_data SECRET_KEY hmac_sha256_hexdigest
        (QRService.qr_data_for SECRET_KEY hmac_sha256_hexdigest roll_no b) b' w
      = (Returned {| qr_success := false; qr_roll_no := None;
                     qr_message := "QR code is for different branch" |}, w)).
Proof.
  intros Hf Hr Hb Hd roll_nos. split.
  { unfold roll_nos. rewrite <- str_in_spec.
    by apply decode_generated_payload. }
  intros Hne. unfold QRService.decode_qr_data, try_except.
  rewrite split_qr_data by done.
  set (sig := CryptoUtils.generate_qr_signature SECRET_KEY
                hmac_sha256_hexdigest roll_no b).
  assert (Hsig : all_chars is_hexdigit sig = true) by (by apply signature_hex).
  assert (Hplain : plain sig = true)
    by (apply (all_chars_impl is_hexdigit); [apply hexdigit_plain | done]).
  assert (Hascii : CryptoUtils.isascii sig = true).
  { apply all_chars_isascii, (all_chars_impl is_hexdigit);
      [apply hexdigit_ascii | done]. }
  rewrite !strip_plain by done.
  rewrite (bind_returned _ _ w true w).
  2:{ unfold CryptoUtils.verify_qr_signature, CryptoUtils.compare_digest.
      fold sig. rewrite Hascii. simpl. by rewrite bool_decide_eq_true_2. }
  cbn [negb]. rewrite bool_decide_eq_false_2 by done. reflexivity.
Qed.

(** X16: what [decode_qr_data] accepts.  Whatever the payload and
    whatever the faults, a successful answer names a roll number on the
    roster of the branch asked for, and the payload was either a single
    part without separator, taken as the roll number with no signature at
    all, or three parts whose signature is the expected one for the roll
    number and branch they name and whose branch is the branch asked for.
    A signed payload of another branch, or with another signature, is
    never accepted. *)
Theorem decode_qr_data_accepts qr_data b w :
  let result :=
    fst (QRService.decode_qr_data SECRET_KEY hmac_sha256_hexdigest qr_data b w) in
  forall r, result = Returned r -> qr_success r = true ->
    exists roll_no,
      qr_roll_no r = Some roll_no
      /\ roll_no ∈ stu_roll_no <$> default [] (file_of students b w)
      /\ ((QRService.split "|" qr_data = [qr_data]
           /\ roll_no = QRService.strip qr_data)
          \/ exists p0 p1 p2,
               QRService.split "|" qr_data = [p0; p1; p2]
               /\ roll_no = QRService.strip p0
               /\ QRService.strip p1 = b
               /\ QRService.strip p2
                  = CryptoUtils.generate_qr_signature SECRET_KEY
                      hmac_sha256_hexdigest roll_no b).
Proof.
  cbv zeta. intros r. unfold QRService.decode_qr_data, try_except.
  destruct (QRService.split "|" qr_data) as [|p0 [|p1 [|p2 [|p3 parts]]]] eqn:Es;
    try (simpl; intros [= <-]; discriminate).
  - (* one part *)
    unfold bind.
    destruct (QRService.validate_student_exists (QRService.strip p0) b w)
      as [[[|]|e] w1] eqn:Ev; simpl; intros [= <-]; try discriminate.
    intros _. exists (QRService.strip p0). split; [reflexivity|].
    split; [by apply (validate_student_exists_true _ b w w1)|].
    left. by rewrite (split_single qr_data p0 Es).
  - (* three parts *)
    unfold bind at 1.
    unfold CryptoUtils.verify_qr_signature, CryptoUtils.compare_digest.
    destruct (CryptoUtils.isascii _ && CryptoUtils.isascii _);
      [|simpl; intros [= <-]; discriminate].
    unfold ret at 1.
    destruct (bool_decide (_ = QRService.strip p2)) eqn:Esig;
      [|simpl; intros [= <-]; discriminate].
    apply bool_decide_eq_true_1 in Esig. cbn [negb].
    destruct (bool_decide (QRService.strip p1 = b)) eqn:Eb;
      [|simpl; intros [= <-]; discriminate].
    apply bool_decide_eq_true_1 in Eb. cbn [negb]. unfold bind.
    destruct (QRService.validate_student_exists (QRService.strip p0) b w)
      as [[[|]|e] w1] eqn:Ev; simpl; intros [= <-]; try discriminate.
    intros _. exists (QRService.strip p0). split; [reflexivity|].
    split; [by apply (validate_student_exists_true _ b w w1)|].
    right. exists p0, p1, p2. rewrite <- Eb at 2. auto.
Qed.

(** X17: the signature can be left out.  A payload that is just a roll
    number of the roster, without separator or white space and read back
    as text from the roster, is accepted by [decode_qr_data] for that
    branch, whatever the key: no signature is asked for.  Nothing is
    written. *)
Theorem unsigned_payload_accepted roll_no b w :
  faults w = [] -> plain roll_no = true ->
  roll_no ∈ stu_roll_no <$> default [] (file_of students b w) ->
  reads_as_text w (stu_roll_no <$> default [] (file_of students b w)) roll_no
  = true ->
  QRService.decode_qr_data SECRET_KEY hmac_sha256_hexdigest roll_no b w
  = (Returned {| qr_success := true; qr_roll_no := Some roll_no;
                 qr_message := "QR code decoded successfully" |}, w).
Proof.
  intros Hf Hr Hin Ht. unfold QRService.decode_qr_data, try_except.
  rewrite split_plain by done. rewrite strip_plain by done.
  rewrite (bind_returned _ _ w _ w (validate_student_exists_ok roll_no b w Hf)).
  by rewrite str_in_spec, bool_decide_eq_true_2.
Qed.

Variable recognize_face : World -> string -> string -> option string.

Lemma qr_data_for_nonempty roll_no b :
  QRService.qr_data_for SECRET_KEY hmac_sha256_hexdigest roll_no b <> "".
Proof. unfold QRService.qr_data_for. by destruct roll_no. Qed.

(** X18: marking by QR code, from the point where the session is found.
    In a session of the branch that is open and before its deadline, the
    form of the QR tab (the payload generated for a student whom the
    roster lookup finds, no roll number) is answered with success, and one
    present event by QR for the student, dated now, is appended to the
    ledger, whatever events the student already has for the session. *)
Theorem qr_mark_appends session_id roll_no b session w f rows s rest
    roster events :
  faults w = [] -> ses_branch_code session = b ->
  branch_dirs w !! b = Some f -> sessions f = Some rows ->
  students f = Some roster -> attendance f = Some events ->
  filter (fun x => ses_session_id x = session_id) rows = s :: rest ->
  ses_status s = OPEN -> clock w < ses_deadline_time s ->
  roster_finds w roster roll_no ->
  plain roll_no = true -> plain b = true ->
  digest_is_hex SECRET_KEY hmac_sha256_hexdigest roll_no b ->
  events_for session_id "" events = [] ->
  let form :=
    {| form_session_id := session_id; form_method := "qr";
       form_roll_no := None;
       form_qr_data :=
         Some (QRService.qr_data_for SECRET_KEY hmac_sha256_hexdigest roll_no b);
       form_face_image := None |} in
  let answer :=
    Api.mark_attendance_in recognize_face
      (decoded_roll_no SECRET_KEY hmac_sha256_hexdigest) form session w in
  fst answer
  = Returned {| success := true;
                message := "Attendance marked for " +:+ roll_no;
                already_marked := false;
                marked_at := Some (clock w);
                method := Some QR |}
  /\ file_of attendance b (snd answer)
     = Some (events ++ [present_record session_id roll_no roster (clock w)
                          QR "student"]).
Proof.
  intros Hf Hbranch Hd Hrows Hroster Hevents Hs Hopen Hdl Hfinds Hr Hb Hhex
    Hnone form answer.
  assert (Hsessions : file_of sessions b w = Some rows)
    by (by rewrite (file_of_dir _ _ f)).
  assert (Hstudents : file_of students b w = Some roster)
    by (by rewrite (file_of_dir _ _ f)).
  assert (Hattendance : file_of attendance b w = Some events)
    by (by rewrite (file_of_dir _ _ f)).
  unfold answer, form, Api.mark_attendance_in.
  cbn [form_session_id form_method form_roll_no form_qr_data form_face_image].
  rewrite Hbranch.
  rewrite (bind_returned _ _ w true w).
  2:{ rewrite (is_session_active_ok _ _ w rows) by done. rewrite Hs.
      rewrite bool_decide_eq_true_2 by done.
      replace (clock w <? ses_deadline_time s) with true
        by (symmetry; apply Z.ltb_lt; lia).
      reflexivity. }
  cbn [negb]. unfold try_except. cbn [default from_option id].
  rewrite (bind_returned _ _ w false w).
  2:{ by rewrite (is_already_marked_none _ _ _ w events). }
  rewrite (bool_decide_eq_false_2 ("qr" = "face")) by done.
  rewrite (bool_decide_eq_true_2 ("qr" = "qr")) by done.
  rewrite bool_decide_eq_false_2 by apply qr_data_for_nonempty.
  cbn [negb andb].
  rewrite (bind_returned _ _ w (Some roll_no) w).
  2:{ unfold observe, decoded_roll_no.
      rewrite decode_generated_payload by done. rewrite Hstudents.
      cbn [fst default from_option id].
      by rewrite str_in_spec, bool_decide_eq_true_2. }
  unfold Api.recognise_and_mark.
  erewrite bind_returned
    by (by apply (mark_attendance_appends session_id roll_no b QR "student"
                    w f roster events)).
  cbv zeta. unfold bind, Utils.get_current_time. cbn [fst snd].
  split; [reflexivity|].
  unfold ret. cbn [snd]. by rewrite file_of_with_branch.
Qed.

End QRFacts.

Lemma qr_round_trip_witness :
  QRService.decode_qr_data Scenario.secret Scenario.digest
    (QRService.qr_data_for Scenario.secret Scenario.digest "CS21HCI001" "CSH")
    "CSH" (Scenario.world (Scenario.minute 1) [] OPEN [])
  = (Returned {| qr_success := true; qr_roll_no := Some "CS21HCI001";
                 qr_message := "QR code decoded and verified successfully" |},
     Scenario.world (Scenario.minute 1) [] OPEN [])
  /\ ("CSA" <> "CSH" ->
      QRService.decode_qr_data Scenario.secret Scenario.digest
        (QRService.qr_data_for Scenario.secret Scenario.digest
           "CS21HCI001" "CSH")
        "CSA" (Scenario.world (Scenario.minute 1) [] OPEN [])
      = (Returned {| qr_success := false; qr_roll_no := None;
                     qr_message := "QR code is for different branch" |},
         Scenario.world (Scenario.minute 1) [] OPEN [])).
Proof.
  apply (qr_round_trip Scenario.secret Scenario.digest "CS21HCI001" "CSH" "CSA"
           (Scenario.world (Scenario.minute 1) [] OPEN []));
    reflexivity.
Defined.

Lemma decode_qr_data_accepts_witness :
  exists roll_no,
    Some "CS21HCI002" = Some roll_no
    /\ roll_no ∈ stu_roll_no <$> [Scenario.s1; Scenario.s2]
    /\ ((QRService.split "|" " CS21HCI002 " = [" CS21HCI002 "]
         /\ roll_no = QRService.strip " CS21HCI002 ")
        \/ exists p0 p1 p2,
             QRService.split "|" " CS21HCI002 " = [p0; p1; p2]
             /\ roll_no = QRService.strip p0
             /\ QRService.strip p1 = "CSH"
             /\ QRService.strip p2
                = CryptoUtils.generate_qr_signature Scenario.secret
                    Scenario.digest roll_no "CSH").
Proof.
  apply (decode_qr_data_accepts Scenario.secret Scenario.digest
           " CS21HCI002 " "CSH"
           (Scenario.world (Scenario.minute 1) [] OPEN [])
           {| qr_success := true; qr_roll_no := Some "CS21HCI002";
              qr_message := "QR code decoded successfully" |});
    reflexivity.
Defined.

Lemma unsigned_payload_accepted_witness :
  QRService.decode_qr_data Scenario.secret Scenario.digest "CS21HCI002" "CSH"
    (Scenario.world (Scenario.minute 1) [] OPEN [])
  = (Returned {| qr_success := true; qr_roll_no := Some "CS21HCI002";
                 qr_message := "QR code decoded successfully" |},
     Scenario.world (Scenario.minute 1) [] OPEN []).
Proof.
  apply (unsigned_payload_accepted Scenario.secret Scenario.digest
           "CS21HCI002" "CSH" (Scenario.world (Scenario.minute 1) [] OPEN []));
    [reflexivity | reflexivity | | reflexivity].
  vm_compute. apply elem_of_cons. right. apply elem_of_cons. by left.
Defined.

Lemma qr_mark_appends_witness :
  let w := Scenario.world (Scenario.minute 2) [Scenario.s1_present] OPEN [] in
  let form :=
    {| form_session_id := Scenario.sid; form_method := "qr";
       form_roll_no := None;
       form_qr_data :=
         Some (QRService.qr_data_for Scenario.secret Scenario.digest
                 "CS21HCI001" "CSH");
       form_face_image := None |} in
  let answer :=
    Api.mark_attendance_in Scenario.recognize_face
      (decoded_roll_no Scenario.secret Scenario.digest)
      form (Scenario.the_session OPEN) w in
  fst answer
  = Returned {| success := true;
                message := "Attendance marked for CS21HCI001";
                already_marked := false;
                marked_at := Some (Scenario.minute 2);
                method := Some QR |}
  /\ file_of attendance "CSH" (snd answer)
     = Some [Scenario.s1_present;
             present_record Scenario.sid "CS21HCI001" [Scenario.s1; Scenario.s2]
               (Scenario.minute 2) QR "student"].
Proof.
  apply (qr_mark_appends Scenario.secret Scenario.digest
           Scenario.recognize_face Scenario.sid "CS21HCI001" "CSH"
           (Scenario.the_session OPEN)
           (Scenario.world (Scenario.minute 2) [Scenario.s1_present] OPEN [])
           (Scenario.csh [Scenario.s1_present] OPEN)
           [Scenario.the_session OPEN] (Scenario.the_session OPEN) []
           [Scenario.s1; Scenario.s2] [Scenario.s1_present]);
    try reflexivity.
  split; [|reflexivity]. simpl. apply elem_of_cons. by left.
Defined.

(** ** The endpoints [close_attendance_session] and [register_student] *)

(** X19: the "not found" answer of the closing endpoint is never
    delivered.  When no row of the session table of the branch carries the
    session id (or the branch has no session table), [close_session]
    returns false, the endpoint raises its 404 inside its own [try], and
    the handler turns it into a 500; nothing is written. *)
Theorem close_endpoint_unknown_session session_id b current_teacher w :
  faults w = [] ->
  session_id ∉ ses_session_id <$> default [] (file_of sessions b w) ->
  exists d,
    Api.close_attendance_session session_id b current_teacher w
    = (Raised (HTTPException 500 d), w).
Proof.
  intros Hf Hnot. unfold Api.close_attendance_session, try_except.
  assert (E : SessionService.close_session session_id b current_teacher w
              = (Returned false, w)).
  { destruct (file_of sessions b w) as [rows|] eqn:Hr.
    - by apply close_session_unknown with rows.
    - by apply close_session_no_table. }
  rewrite (bind_returned _ _ w false w E). cbn [negb].
  eexists. reflexivity.
Qed.

Lemma close_endpoint_unknown_session_witness :
  exists d,
    Api.close_attendance_session "S_20240101_080000_CSH" "CSH" "T001"
      (Scenario.world (Scenario.minute 1) [] OPEN [])
    = (Raised (HTTPException 500 d),
       Scenario.world (Scenario.minute 1) [] OPEN []).
Proof.
  apply (close_endpoint_unknown_session "S_20240101_080000_CSH" "CSH" "T001"
           (Scenario.world (Scenario.minute 1) [] OPEN []));
    [reflexivity|].
  vm_compute. intros Hin.
  apply elem_of_cons in Hin as [Hin|Hin]; [discriminate|].
  by apply not_elem_of_nil in Hin.
Defined.

Section RegistrationFacts.
Variable SECRET_KEY : string.
Variable hmac_sha256_hexdigest : string -> string -> string.
Variable save_qr_image : string -> string -> bool.
Variable face_path_of : string -> string -> string -> string.
Variable qr_path_of : string -> string -> string.
Variable save_face_image : string -> string -> bool.

Lemma ensured_students b w :
  file_of students b (with_branch b (ensured (dir_of b w)) w)
  = Some (default [] (file_of students b w)).
Proof.
  rewrite file_of_with_branch. simpl.
  by destruct (file_of_via_dir_of b w) as (-> & _).
Qed.

Lemma register_student_run roll_no name b image_data w branches :
  faults w = [] -> branches_csv w = Some branches ->
  b ∈ br_branch_code <$> branches ->
  str_in (reads_as_text w) roll_no
    (stu_roll_no <$> default [] (file_of students b w)) = false ->
  save_face_image (face_path_of b roll_no name) image_data = true ->
  Api.register_student SECRET_KEY hmac_sha256_hexdigest save_qr_image
    face_path_of qr_path_of save_face_image roll_no name b image_data w
  = (Returned {| Api.reg_message := "Student registered successfully";
                 Api.reg_qr_code_path := qr_path_of b roll_no |},
     with_branch b
       (set_students
          (default [] (file_of students b w)
           ++ [student_row face_path_of qr_path_of roll_no name b (clock w)])
          (ensured (dir_of b w))) w).
Proof.
  intros Hf Hcsv Hb Hnew Hface. unfold Api.register_student.
  rewrite (bind_returned _ _ w true w).
  2:{ rewrite validate_branch_exists_quiet by done. rewrite Hcsv.
      by rewrite bool_decide_eq_true_2. }
  cbn [negb].
  rewrite (bind_returned _ _ w tt _ (ensure_branch_structure_run b w)).
  set (w1 := with_branch b (ensured (dir_of b w)) w).
  unfold try_except.
  rewrite (bind_returned _ _ w1 (default [] (file_of students b w)) w1)
    by (apply read_csv_ok; [done | apply ensured_students]).
  rewrite bind_observe. cbn [reads_as_text w1 with_branch set_dirs].
  rewrite Hnew. rewrite Hface.
  rewrite (bind_returned _ _ w1 tt w1) by reflexivity.
  rewrite (bind_returned _ _ w1 _ w1) by reflexivity.
  rewrite (bind_returned _ _ w1 (clock w) w1) by reflexivity.
  fold (student_row face_path_of qr_path_of roll_no name b (clock w)).
  set (roster' := default [] (file_of students b w)
                  ++ [student_row face_path_of qr_path_of roll_no name b (clock w)]).
  set (w2 := with_branch b (set_students roster' (ensured (dir_of b w))) w).
  rewrite (bind_returned _ _ w1 tt w2).
  2:{ unfold w1. rewrite (to_csv_ok _ _ _ _ (ensured (dir_of b w)))
        by apply dirs_with_branch.
      by rewrite with_branch_twice. }
  rewrite (bind_returned _ _ w2 tt w2); [reflexivity|].
  unfold FaceService.update_embeddings, try_except.
  rewrite (bind_returned _ _ w2 tt w2).
  2:{ rewrite ensure_branch_structure_run. unfold w2, dir_of.
      rewrite dirs_with_branch, with_branch_twice. reflexivity. }
  rewrite (bind_returned _ _ w2 roster' w2); [reflexivity|].
  apply read_csv_ok; [done | unfold w2; by rewrite file_of_with_branch].
Qed.


(** X21: a second registration of a roll number.  For a roll number that
    is already on the roster of the branch and is read back from it as
    text, the endpoint raises its 400 "Student already registered" inside
    its own [try], so what the client gets is a 500; the roster is as
    before.  For a roll number on the roster that is read back as
    something else (an all-digit or NA-like one) the test does not see it:
    with the face image written the student is registered again, and the
    roster holds the roll number twice. *)
Theorem register_student_duplicate roll_no name b image_data w branches :
  faults w = [] -> branches_csv w = Some branches ->
  b ∈ br_branch_code <$> branches ->
  roll_no ∈ stu_roll_no <$> default [] (file_of students b w) ->
  let roster := default [] (file_of students b w) in
  let answer :=
    Api.register_student SECRET_KEY hmac_sha256_hexdigest save_qr_image
      face_path_of qr_path_of save_face_image roll_no name b image_data w in
  (reads_as_text w (stu_roll_no <$> roster) roll_no = true ->
   (exists d, fst answer = Raised (HTTPException 500 d))
   /\ file_of students b (snd answer) = file_of students b w
   /\ file_of attendance b (snd answer)
      = Some (default [] (file_of attendance b w)))
  /\ (reads_as_text w (stu_roll_no <$> roster) roll_no = false ->
      save_face_image (face_path_of b roll_no name) image_data = true ->
      fst answer
      = Returned {| Api.reg_message := "Student registered successfully";
                    Api.reg_qr_code_path := qr_path_of b roll_no |}
      /\ file_of students b (snd answer)
         = Some (roster
                 ++ [student_row face_path_of qr_path_of roll_no name b
                       (clock w)])).
Proof.
  intros Hf Hcsv Hb Hold roster answer. split.
  - intros Ht. unfold answer, Api.register_student.
    rewrite (bind_returned _ _ w true w).
    2:{ rewrite validate_branch_exists_quiet by done. rewrite Hcsv.
        by rewrite bool_decide_eq_true_2. }
    cbn [negb].
    rewrite (bind_returned _ _ w tt _ (ensure_branch_structure_run b w)).
    set (w1 := with_branch b (ensured (dir_of b w)) w).
    unfold try_except.
    rewrite (bind_returned _ _ w1 (default [] (file_of students b w)) w1)
      by (apply read_csv_ok; [done | apply ensured_students]).
    rewrite bind_observe. cbn [reads_as_text w1 with_branch set_dirs].
    rewrite str_in_spec, bool_decide_eq_true_2 by done.
    cbn [fst snd raise]. split; [by eexists|].
    unfold w1. rewrite !file_of_with_branch. simpl.
    destruct (file_of_via_dir_of b w) as (-> & -> & _).
    split; [|reflexivity].
    destruct (file_of students b w) as [roster0|]; [reflexivity|].
    simpl in Hold. by apply not_elem_of_nil in Hold.
  - intros Ht Hface. unfold answer.
    rewrite (register_student_run roll_no name b image_data w branches);
      [| done | done | done | | done].
    2:{ rewrite str_in_spec. apply bool_decide_eq_false_2. intros [_ ?].
        unfold roster in Ht. congruence. }
    cbn [fst snd]. split; [reflexivity|]. by rewrite file_of_with_branch.
Qed.

End RegistrationFacts.


Lemma register_student_duplicate_witness :
  let w := Scenario.world (Scenario.minute 1) [] OPEN [] in
  let answer :=
    Api.register_student Scenario.secret Scenario.digest Scenario.save_image
      Scenario.face_path_of Scenario.qr_path_of Scenario.save_image
      "CS21HCI001" "Asha" "CSH" "photo of Asha" w in
  let numbered := Scenario.numbered (Scenario.minute 1) [] [] in
  let again :=
    Api.register_student Scenario.secret Scenario.digest Scenario.save_image
      Scenario.face_path_of Scenario.qr_path_of Scenario.save_image
      "101" "Kiran" "CSH" "photo of Kiran" numbered in
  ((exists d, fst answer = Raised (HTTPException 500 d))
   /\ file_of students "CSH" (snd answer) = file_of students "CSH" w
   /\ file_of attendance "CSH" (snd answer)
      = Some (default [] (file_of attendance "CSH" w)))
  /\ fst again
     = Returned {| Api.reg_message := "Student registered successfully";
                   Api.reg_qr_code_path := "data/branches/CSH/qrcodes/101.png" |}
  /\ file_of students "CSH" (snd again)
     = Some [Scenario.n1; Scenario.n2;
             student_row Scenario.face_path_of Scenario.qr_path_of
               "101" "Kiran" "CSH" (Scenario.minute 1)].
Proof.
  intros w answer numbered again.
  assert (Hb : "CSH" ∈ br_branch_code <$> Scenario.branches).
  { simpl. apply elem_of_cons. by left. }
  split.
  - assert (Hold : "CS21HCI001"
                   ∈ stu_roll_no <$> default [] (file_of students "CSH" w)).
    { vm_compute. apply elem_of_cons. by left. }
    exact (proj1 (register_student_duplicate Scenario.secret Scenario.digest
                    Scenario.save_image Scenario.face_path_of
                    Scenario.qr_path_of Scenario.save_image
                    "CS21HCI001" "Asha" "CSH" "photo of Asha"
                    w Scenario.branches eq_refl eq_refl Hb Hold) eq_refl).
  - assert (Hold : "101"
                   ∈ stu_roll_no
                     <$> default [] (file_of students "CSH" numbered)).
    { vm_compute. apply elem_of_cons. by left. }
    exact (proj2 (register_student_duplicate Scenario.secret Scenario.digest
                    Scenario.save_image Scenario.face_path_of
                    Scenario.qr_path_of Scenario.save_image
                    "101" "Kiran" "CSH" "photo of Kiran"
                    numbered Scenario.branches eq_refl eq_refl Hb Hold)
             eq_refl eq_refl).
Defined.

(** ** The endpoint [start_attendance_session] when no session is active *)

Section StartEndpointFacts.
Variable strftime : datetime -> string.

(** X22: a start request that goes through.  For a valid request on a
    branch of [branches.csv] none of whose open sessions is short of its
    deadline, the endpoint answers with a session that starts now and
    lasts between 5 and 480 minutes; the open sessions of the table are
    closed first, and the table then ends with the one new row, the only
    open one, recorded for the authenticated teacher whatever teacher the
    request names. *)
Theorem start_endpoint_opens session_data current_teacher w branches :
  faults w = [] -> Api.valid_StartSession session_data = true ->
  branches_csv w = Some branches ->
  ss_branch_code session_data ∈ br_branch_code <$> branches ->
  (forall rows s,
     file_of sessions (ss_branch_code session_data) w = Some rows ->
     s ∈ rows -> ses_status s = OPEN -> ses_deadline_time s <= clock w) ->
  let b := ss_branch_code session_data in
  let answer :=
    Api.start_attendance_session strftime session_data current_teacher w in
  exists r rows',
    fst answer = Returned r
    /\ sr_start_time r = clock w
    /\ Utils.timedelta_minutes 5 <= sr_deadline_time r - sr_start_time r
       <= Utils.timedelta_minutes 480
    /\ file_of sessions b (snd answer)
       = Some (rows'
               ++ [new_session strftime current_teacher b
                     (ss_deadline_minutes session_data) (clock w)])
    /\ closed_more (default [] (file_of sessions b w)) rows'
    /\ open_count rows' = 0%nat
    /\ sr_session_id r
       = ses_session_id (new_session strftime current_teacher b
                           (ss_deadline_minutes session_data) (clock w))
    /\ sr_deadline_time r
       = ses_deadline_time (new_session strftime current_teacher b
                              (ss_deadline_minutes session_data) (clock w)).
Proof.
  intros Hf Hvalid Hcsv Hb Hnone b answer.
  unfold answer, Api.start_attendance_session. rewrite Hvalid. cbn [negb].
  fold b.
  rewrite (bind_returned _ _ w _ w (validate_branch_exists_quiet b w Hf)).
  rewrite Hcsv. rewrite bool_decide_eq_true_2 by done. cbn [negb].
  destruct (get_active_session_effect b w Hf) as (res & w1 & E & Hoc & Hzero).
  rewrite (bind_returned _ _ w res w1 E).
  destruct res as [s|].
  { destruct (get_active_session_answer_sound b w s w1 Hf E)
      as (rows & Hr & Hin & Hopen & Hlt).
    pose proof (Hnone rows s Hr Hin Hopen). lia. }
  destruct Hoc as (Hf1 & Hc1 & _ & _ & Hrows).
  assert (Hf1' : faults w1 = []) by (by rewrite Hf1).
  unfold try_except.
  rewrite (start_session_ok strftime current_teacher b
             (ss_deadline_minutes session_data) w1 Hf1').
  cbn [fst snd]. rewrite Hc1.
  eexists. exists (default [] (file_of sessions b w1)).
  split; [reflexivity|]. cbn [sr_start_time sr_deadline_time sr_session_id].
  split; [reflexivity|]. split.
  { unfold Api.valid_StartSession in Hvalid.
    apply andb_prop in Hvalid as [Hvalid Hle].
    apply andb_prop in Hvalid as [_ Hge].
    apply Z.leb_le in Hle, Hge. unfold Utils.timedelta_minutes. lia. }
  split; [by rewrite file_of_with_branch|].
  split.
  { destruct (file_of sessions b w) as [rows|],
      (file_of sessions b w1) as [rows1|]; try done.
    apply closed_more_refl. }
  split; [|split; reflexivity].
  destruct (file_of sessions b w1) as [rows1|] eqn:Hr1; [|reflexivity].
  by apply Hzero.
Qed.

End StartEndpointFacts.

Lemma start_endpoint_opens_witness :
  let w := Scenario.world (Scenario.minute 6) [] OPEN [] in
  let answer :=
    Api.start_attendance_session Scenario.strftime Scenario.start_form "T002" w in
  exists r rows',
    fst answer = Returned r
    /\ sr_start_time r = Scenario.minute 6
    /\ Utils.timedelta_minutes 5 <= sr_deadline_time r - sr_start_time r
       <= Utils.timedelta_minutes 480
    /\ file_of sessions "CSH" (snd answer)
       = Some (rows'
               ++ [new_session Scenario.strftime "T002" "CSH" 5
                     (Scenario.minute 6)])
    /\ closed_more [Scenario.the_session OPEN] rows'
    /\ open_count rows' = 0%nat
    /\ sr_session_id r
       = ses_session_id (new_session Scenario.strftime "T002" "CSH" 5
                           (Scenario.minute 6))
    /\ sr_deadline_time r
       = ses_deadline_time (new_session Scenario.strftime "T002" "CSH" 5
                              (Scenario.minute 6)).
Proof.
  apply (start_endpoint_opens Scenario.strftime Scenario.start_form "T002"
           (Scenario.world (Scenario.minute 6) [] OPEN []) Scenario.branches);
    try reflexivity.
  - simpl. apply elem_of_cons. by left.
  - intros rows s [= <-] Hin _.
    apply elem_of_cons in Hin as [->|Hin]; [vm_compute; discriminate|].
    by apply not_elem_of_nil in Hin.
Defined.
